(* ===== verification/_CoqProject ===== *)
-Q . S2P
Prelude.v
PyStr.v
Database.v
SqlLike.v
Models.v
Schemas.v
Query.v
DateTime.v
Search.v
DisplayTag.v
Joins.v
Pagination.v
Auth.v
PersonRouter.v
ShiftRouter.v
OvertimeRouter.v
App.v
Populate.v
Tests.v
Scenarios.v
