(* ===== verification/Prelude.v ===== *)
(** * A verification development of the scheduling-records backend

    The program (src/) is a FastAPI service over a SQLAlchemy/SQLite store
    with three tables, [persons], [shifts] and [overtimes]
    (src/api/models.py).  Requests enter through three routers
    (src/api/routers/person.py, shift.py, overtime.py) behind the API-key
    dependency [get_api_key] (src/dependencies.py); each request gets one
    store session ([get_db]).  The routers call the query helpers of
    src/api/helpers.py, which compose SQL queries: a case-insensitive
    [LIKE] name search, inclusive day-range filters on a shift's start
    time, an [ORDER BY] chosen from an allow-list, and the inner join of a
    shift with its owning person.  Lists go through a pagination wrapper
    (fastapi_pagination, a library).  src/clear_database.py empties the
    store.  src/api/database.py chooses the engine from the environment
    when the service starts, and src/populate.py is an HTTP client that
    fills the store through the routes.

    ** Files, in dependency order, and what each models

    - [Prelude] (this file): the exceptions the code raises
      ([HTTPException], the store's [IntegrityError], Python's
      [ValueError], [KeyError] and [TypeError], [NoEngine], and [Loops]
      for a loop that ran out of fuel) as the type [exc], with the status
      the server answers for each ([status_of_exc]: an uncaught exception
      is 500); [result]; a state-and-error monad [St] with its notation
      [x <- m ;; k]; [session], the request-scoped session of [get_db],
      which discards what a failing request wrote; the generic list,
      [omap] and sorting lemmas the components share; the hint databases
      [backend] and [backend_rw]; [read_only] and [preserves]; the
      tactics [case_ifs], [invc], [st_unfold], [prove_read_only].
    - [PyStr]: the Python string operations of the helpers ([str.lower],
      [s[0:3]], [str.split(" ")], [" " in s], [str(int)]) and Python's
      [==] / [in] on the values a query returns ([pyval]: a [str] never
      equals a [Row]).
    - [Database]: the engine choice of src/api/database.py ([NAMESPACE],
      [DATABASE_URL], the [postgres://] rewrite) and the [create_all] of
      src/main.py that needs an engine ([startup]).
    - [SqlLike]: SQL [LIKE] ([%], [_], ASCII case-insensitive, no escape),
      and the theorem that [x LIKE '%t%'] is substring containment when
      [t] holds no wildcard.
    - [Models]: the tables as Records (Modules [Person], [Shift],
      [Overtime], with every column), the store [Store.DB] as three lists
      in rowid order, [insert_person] / [insert_shift] / [insert_overtime]
      ([db.add] + [db.commit]: SQLite's rowid allocation and the UNIQUE /
      PRIMARY KEY checks raising [IntegrityError]), [delete_where] and
      [update_where] ([query.filter(...).delete()] / [.update({...})]),
      the invariant [wf] (unique keys and tags) with its preservation
      lemmas, and [shifts_ordered] (no stored shift starts after it ends).
    - [Schemas]: the pydantic models of src/api/schemas.py; a datetime
      field of a body is its clock value and its UTC offset ([None]:
      naive), [shift_instants] the instants of a comparable pair.
    - [Query]: a SQLAlchemy query as a Record (rows, WHERE conjuncts,
      ORDER BY terms) executed as "filter, then order"; ORDER BY as the
      interface Class [OrderEngine] (a permutation sorted by the terms),
      with a stable insertion sort [isort_engine] as instance; [.all()]
      and [.first()]; [sort_query_by] and [apply_date_filters] of
      helpers.py.
    - [DateTime]: Python [datetime]s as calendar fields and their clock
      value on the microsecond axis of [Query] ([to_us],
      [days_from_civil]); Python's [>] on two datetimes
      ([py_datetime_gt]: instants for aware ones, clocks for naive ones,
      [TypeError] for a mix); the text of [strftime("%Y-%m-%dT%H:%M:%S")];
      the parse of a datetime field by the request validation
      ([parse_iso]: date, time, fraction and offset, pydantic's ISO 8601
      forms, modelled from that grammar).
    - [Search]: [person_search] of helpers.py and [search_query], the
      [if search_string:] choice both routers make.
    - [DisplayTag]: [generate_display_tag] with a stream of
      [random.randint] draws and fuel for its [while] loop.
    - [Joins]: [shift_join_with_shift_id] and [shift_join_with_person_id].
    - [Pagination]: [paginate] of fastapi_pagination (not under src/:
      modelled from the spec).
    - [Auth]: the security scheme [APIKeyHeader(name="access_token",
      auto_error=False)] ([api_key_header]: an empty header reads as
      missing) and [get_api_key].
    - [PersonRouter], [ShiftRouter], [OvertimeRouter]: every handler of the
      three routers as a computation in [St DB], with the same names;
      [ShiftRouter.start_after_end] is the [shift.start_time >
      shift.end_time] of [create_shift] and [update_shift].
    - [App]: the routes of src/main.py as the type [request]; [dispatch]
      runs a route's handler in a [session], [handle] puts [get_api_key]
      (after [api_key_header]) in front of the routers; [reachable] is the
      inductive closure of [handle] from the empty store and
      [reachable_naive] its restriction to requests whose shift bodies are
      naive; [serve] runs a list of requests in order; [delete_records]
      of src/clear_database.py.
    - [Populate]: src/populate.py as a client of [App.handle]: a [world]
      of the server's store, the request index (the server's clock and
      draws are streams indexed by it), the client's draw index and the
      status codes received; [add_persons], [add_shifts], [add_overtime],
      [main], with [for i in range(n)] as [for_range]; the JSON bodies go
      through [parse_iso] as the server reads them.
    - [Tests]: src/tests/test_main.py, each test a list of steps
      (request, header, assertions) run in file order on one store;
      [suite_passes] shows the model passes every assertion.
    - [Scenarios]: concrete stores and requests and the witnesses of
      the theorems.

    ** What the theorems show (claims C1 .. C40)

    - Invariants: every reachable store is well formed, with unique keys
      and display tags (C1, [App.reachable_inv]); every store reachable
      through naive shift bodies also has no shift that starts after it
      ends (C33, [App.reachable_naive_ordered]); with aware bodies that
      ordering fails, one request suffices (C40, [App.reachable_unordered]).
    - Timezones: [create_shift] checks aware times as instants and stores
      their clock fields, so 10:00+05:00 to 08:00+00:00 is stored from
      10:00 to 08:00 (C20); a naive and an aware time raise [TypeError],
      500 (C29).
    - Liveness (C13, [App.serve_clears]): from every well-formed store,
      authorized deletions reach a store without persons and shifts, and
      the overtimes remain: no route deletes one.
    - Query composition: the name search as substring containment (C2,
      C3) with unescaped wildcards (C35); the listings of [get_shifts]
      (C9, C10), [get_all_shifts] (C22, C36) and [get_all_persons] (C26,
      C27).
    - Record operations and their errors: [create_person] (C4, C19),
      [delete_person] (C6, C34), [update_person] (C31), [create_shift]
      (C7, C8), [update_shift] (C16, C25), [get_shift_by_id] (C11),
      [delete_shift] (C12), the overtime routes (C14, C15, C21, C37),
      [delete_records] (C28).
    - The gate: a header that differs from [API_KEY] is 403 (C17), an
      equal one is served (C23), and an empty [API_KEY] locks every router
      (C30).
    - Display tags: the first candidate is always returned (C5) and fits
      the 8-character column (C18).
    - Ordering of requests: rowid reuse hands a deleted shift's overtime
      to the next shift (C24).
    - Configuration: with [NAMESPACE=heroku] a [postgres://] URL is
      rewritten, any other URL leaves no engine and [startup] fails (C32).
    - The population script: [add_shifts] stores [size] shifts for the
      person ids [0 .. size-1] and two more per third [i], the third body
      always answered 400 (C38); [main] never raises and adds
      [size + 2 * ((size + 2) / 3)] shifts (C39).

    ** Findings the theorems document

    The loop test [tag in db.query(Person.display_tag).all()] compares a
    [str] with Rows and is never true, so a colliding tag is never
    regenerated and [create_person] fails with the UNIQUE violation (C4,
    C5), where the spec promises a retry.  [create_shift] accepts
    [end_time = start_time] (C8), where the spec requires [end > start],
    and accepts an aware shift whose clock fields, the values stored, are
    reversed (C20, C40); a naive with an aware time is a 500 (C29).
    [delete_person] leaves the overtimes of the deleted shifts (C6);
    [update_person] sets [updated_at] (C31); [update_shift] ignores the
    body's [person_id] (C25) and checks times before existence (C16).
    With [API_KEY] unset, a request without a header, or with an empty
    one, is served (C23); with an empty [API_KEY] none is (C30).  On Heroku a
    [postgresql://] URL leaves [engine = None] and the service does not
    start (C32).  src/populate.py posts shifts for person id 0, which no
    person has (rowids start at 1), and its [data3] shift ends before it
    starts and is always rejected (C38).

    ** Choices of model, bounds and fuel

    - Timestamps are integers ([Z], microseconds since 1970-01-01 on the
      proleptic Gregorian calendar, [DateTime.to_us]) of the clock fields:
      the SQLite [DateTime] column stores a datetime without its offset,
      so stored values, filters and sorts compare clocks; the offsets of
      a request body are kept beside the clock ([Schemas.ShiftIn]) for
      the comparison the handlers make before storing.
    - Strings are Stdlib [string]s of ASCII characters; [lower] is ASCII
      lower-casing, which is what SQLite's [lower()] and [LIKE] do.
    - The store is SQLite, the configuration of src/api/database.py when
      [NAMESPACE] is not [heroku] (and of the tests): foreign keys are not
      enforced, a new rowid is one more than the largest present (ids of
      deleted largest rows are reused), UNIQUE and PRIMARY KEY are
      checked at commit.  Ids are unbounded integers: SQLite's behaviour
      past rowid 2^63-1 is not modelled.
    - [random.randint(100, 999)] is a stream [nat -> Z] of draws and the
      clock [now] is an input of each request: every [datetime.now()] of
      one request (the [created_at] / [updated_at] defaults and
      [onupdate]) reads the same value.
    - The tag loop has fuel; C5 shows the result does not depend on it
      (the loop body never runs), so any fuel, 0 included, is enough.
    - The client's [random.randint(a, b)] is [a + r mod (b - a + 1)] of a
      raw draw [r]: every value of [[a, b]] and nothing else.  The
      server of [Populate] is always up: [requests]' connection errors
      and the [input()] of a non-number are not modelled.
    - Row order without [ORDER BY] is unspecified in SQL: theorems that
      depend on it are stated up to [Permutation]; sortedness is proved
      against the [OrderEngine] interface, for every instance.

    ** Not modelled
    - The [print] calls of src/populate.py (the status codes it prints
      on are recorded in [statuses]).
    - CORS middleware and [SessionLocal]; the store is SQLite's, and a
      PostgreSQL store (ids from a sequence, never reused; offsets kept)
      is not modelled beyond the choice of its engine.
    - Request validation (422) is done by the framework: a body it
      rejects is [None] in [Populate] and [Tests], and only the datetime
      parse is modelled ([DateTime.parse_iso]; Unix timestamps and
      pydantic's other input forms are not).
    - The response models of the routes (FastAPI's serialisation of a
      handler's return value).
    - Concurrency: the spec's model is one request at a time, which
      [reachable] follows.
*)

From Stdlib Require Export String Ascii ZArith Lia Sorted Permutation.
From stdpp Require Export base list strings option decidable.

Declare Scope backend_scope.
Delimit Scope backend_scope with backend.
Open Scope backend_scope.

(** ** Exceptions the code raises, and results *)

(** [HTTPException(status_code, detail)] of FastAPI, the
    [sqlalchemy.exc.IntegrityError] a failing constraint raises at commit,
    Python's [ValueError] and [KeyError], [NoEngine] (SQLAlchemy's
    failure on a statement or DDL run with [bind=None]), and [Loops]: a loop of the code ran longer than the fuel the model gave
    it. *)
Inductive exc :=
| HTTPException (status_code : Z) (detail : string)
| IntegrityError (constraint : string)
| ValueError (msg : string)
| KeyError (key : string)
| TypeError (msg : string)
| NoEngine
| Loops.

Inductive result (A : Type) :=
| Ok (a : A)
| Err (e : exc).
Arguments Ok {A} a.
Arguments Err {A} e.

(** The HTTP status a response carries: the exception's status code, and
    500 for an exception FastAPI does not translate. *)
Definition status_of_exc (e : exc) : Z :=
  match e with
  | HTTPException c _ => c
  | IntegrityError _ | ValueError _ | KeyError _ | TypeError _ | NoEngine | Loops => 500
  end.

(** ** A state-and-error monad *)

Definition St (S A : Type) : Type := S -> result A * S.

Definition st_ret {S A} (a : A) : St S A := fun s => (Ok a, s).
Definition st_bind {S A B} (m : St S A) (k : A -> St S B) : St S B :=
  fun s => match m s with
           | (Ok a, s') => k a s'
           | (Err e, s') => (Err e, s')
           end.
Definition st_raise {S A} (e : exc) : St S A := fun s => (Err e, s).
Definition st_get {S} : St S S := fun s => (Ok s, s).
Definition st_put {S} (s : S) : St S unit := fun _ => (Ok tt, s).
Definition st_modify {S} (f : S -> S) : St S unit := fun s => (Ok tt, f s).

Notation "x <- m ;; k" := (st_bind m (fun x => k))
  (at level 100, m at level 99, right associativity) : backend_scope.
Notation "m ;;; k" := (st_bind m (fun _ => k))
  (at level 100, right associativity) : backend_scope.

(** A request-scoped session ([get_db] in src/dependencies.py): the
    writes of a request that ends in an exception are never committed, so
    the store is the one the request started from. *)
Definition session {S A} (m : St S A) : St S A :=
  fun s => match m s with
           | (Ok a, s') => (Ok a, s')
           | (Err e, _) => (Err e, s)
           end.

Lemma st_bind_ret_l {S A B} (a : A) (k : A -> St S B) s :
  st_bind (st_ret a) k s = k a s.
Proof. reflexivity. Qed.

Lemma st_bind_assoc {S A B C} (m : St S A) (k : A -> St S B) (h : B -> St S C) s :
  st_bind (st_bind m k) h s = st_bind m (fun a => st_bind (k a) h) s.
Proof. unfold st_bind. destruct (m s) as [[a|e] s']; reflexivity. Qed.

Lemma session_err {S A} (m : St S A) s e s' :
  m s = (Err e, s') -> session m s = (Err e, s).
Proof. unfold session. intros ->. reflexivity. Qed.

Lemma session_ok {S A} (m : St S A) s a s' :
  m s = (Ok a, s') -> session m s = (Ok a, s').
Proof. unfold session. intros ->. reflexivity. Qed.

(** Whatever a session returns, the final store is either the initial one
    or one the request committed. *)
Lemma session_state {S A} (m : St S A) s :
  snd (session m s) = s \/ (exists a, m s = (Ok a, snd (session m s))).
Proof.
  unfold session. destruct (m s) as [[a|e] s']; simpl; eauto.
Qed.

(** ** Shared list lemmas *)

Lemma filter_andb {A} (p q : A -> bool) (l : list A) :
  List.filter (fun x => p x && q x) l = List.filter q (List.filter p l).
Proof.
  induction l as [|x l IH]; simpl; [done|].
  destruct (p x); simpl; [destruct (q x)|]; rewrite IH; done.
Qed.

Lemma filter_comm {A} (p q : A -> bool) (l : list A) :
  List.filter p (List.filter q l) = List.filter q (List.filter p l).
Proof.
  rewrite <- !filter_andb. apply List.filter_ext. intros x.
  apply andb_comm.
Qed.

Lemma Forall_filter_in {A} (P : A -> Prop) (p : A -> bool) (l : list A) :
  Forall P l -> Forall P (List.filter p l).
Proof.
  rewrite !List.Forall_forall. intros H x Hx.
  apply List.filter_In in Hx. apply H, Hx.
Qed.

Lemma NoDup_map_filter {A B} (f : A -> B) (p : A -> bool) (l : list A) :
  List.NoDup (List.map f l) -> List.NoDup (List.map f (List.filter p l)).
Proof.
  induction l as [|x l IH]; simpl; [done|].
  intros Hnd. apply List.NoDup_cons_iff in Hnd as [Hx Hnd].
  destruct (p x); simpl; [|auto].
  apply List.NoDup_cons; [|auto].
  intros Hin. apply Hx. apply List.in_map_iff in Hin as (y & Hy & Hiny).
  apply List.filter_In in Hiny. apply List.in_map_iff. exists y. tauto.
Qed.

Lemma filter_all_false {A} (p : A -> bool) (l : list A) :
  (forall x, In x l -> p x = false) -> List.filter p l = [].
Proof.
  induction l as [|x l IH]; simpl; intros H; [done|].
  rewrite H by auto. apply IH. auto.
Qed.

Lemma filter_all_true {A} (p : A -> bool) (l : list A) :
  (forall x, In x l -> p x = true) -> List.filter p l = l.
Proof.
  induction l as [|x l IH]; simpl; intros H; [done|].
  rewrite H by auto. f_equal. apply IH. auto.
Qed.

(** Two members of a list with the same key are equal when the keys are
    unique. *)
Lemma NoDup_map_inj {A B} (f : A -> B) (l : list A) (x y : A) :
  NoDup (map f l) -> In x l -> In y l -> f x = f y -> x = y.
Proof.
  induction l as [|z l IH]; simpl; [tauto|].
  intros Hnd Hx Hy Hxy. apply list.NoDup_cons in Hnd as [Hz Hnd].
  destruct Hx as [<-|Hx], Hy as [<-|Hy]; try done.
  - exfalso. apply Hz. rewrite Hxy. apply list_elem_of_In, in_map, Hy.
  - exfalso. apply Hz. rewrite <- Hxy. apply list_elem_of_In, in_map, Hx.
  - by apply IH.
Qed.

Lemma Sorted_map_impl {A B} (R : A -> A -> Prop) (R' : B -> B -> Prop) (f : A -> B) (l : list A) :
  (forall x y, R x y -> R' (f x) (f y)) -> Sorted R l -> Sorted R' (map f l).
Proof.
  intros HR Hs. induction Hs as [|x l Hs IH Hd]; simpl; constructor; [done|].
  destruct Hd; simpl; constructor. by apply HR.
Qed.

(** ** Invariants of computations *)

(** [m] keeps [P] when it commits. *)
Definition preserves {S A} (P : S -> Prop) (m : St S A) : Prop :=
  forall s a s', P s -> m s = (Ok a, s') -> P s'.

(** [m] never changes the state. *)
Definition read_only {S A} (m : St S A) : Prop :=
  forall s r s', m s = (r, s') -> s' = s.

Lemma session_preserves {S A} (P : S -> Prop) (m : St S A) (s : S) :
  preserves P m -> P s -> P (snd (session m s)).
Proof.
  intros Hm Hs. destruct (session_state m s) as [->|[a Ha]]; [done|].
  eapply Hm; eauto.
Qed.

Lemma read_only_preserves {S A} (P : S -> Prop) (m : St S A) :
  read_only m -> preserves P m.
Proof. intros Hm s a s' Hs Heq. by rewrite (Hm _ _ _ Heq). Qed.

Lemma preserves_raise {S A} (P : S -> Prop) (e : exc) : preserves P (@st_raise S A e).
Proof. intros s a s' _ [=]. Qed.

Lemma preserves_ret {S A} (P : S -> Prop) (a : A) : preserves P (@st_ret S A a).
Proof. intros s b s' Hs [= _ <-]. done. Qed.

Lemma preserves_put_ret {S A} (P : S -> Prop) (s1 : S) (a : A) :
  P s1 -> preserves P (st_put s1 ;;; st_ret a).
Proof. intros H1 s b s' _ [= _ <-]. done. Qed.

(** A handler that reads the state first and then runs [k s]. *)
Lemma preserves_get {S A} (P : S -> Prop) (k : S -> St S A) :
  (forall s, P s -> forall a s', k s s = (Ok a, s') -> P s') -> preserves P (s <- st_get ;; k s).
Proof. intros Hk s a s' Hs Heq. eapply Hk; eauto. Qed.

Lemma NoDup_omap_filter {A B} (f : A -> option B) (p : A -> bool) (l : list A) :
  NoDup (omap f l) -> NoDup (omap f (List.filter p l)).
Proof.
  induction l as [|x l IH]; simpl; [done|]. intros Hnd.
  destruct (p x); simpl; destruct (f x) as [b|] eqn:Fx; simpl in *; rewrite ?Fx in Hnd |- *.
  - apply list.NoDup_cons in Hnd as [Hb Hnd]. apply list.NoDup_cons. split; [|by apply IH].
    intros Hin. apply Hb. apply list_elem_of_omap in Hin as (y & Hy & Fy).
    apply list_elem_of_omap. exists y. split; [|done].
    apply list_elem_of_In in Hy. apply List.filter_In in Hy as [Hy _]. by apply list_elem_of_In.
  - by apply IH.
  - apply list.NoDup_cons in Hnd as [_ Hnd]. by apply IH.
  - by apply IH.
Qed.

Lemma Sorted_weaken {A} (R R' : A -> A -> Prop) (l : list A) :
  (forall x y, R x y -> R' x y) -> Sorted R l -> Sorted R' l.
Proof. intros HR Hs. rewrite <- (map_id l). by eapply Sorted_map_impl. Qed.

Lemma omap_map {A B C} (f : B -> option C) (g : A -> B) (l : list A) :
  omap f (map g l) = omap (fun x => f (g x)) l.
Proof. induction l as [|x l IH]; [done|]. simpl. destruct (f (g x)); [f_equal|]; exact IH. Qed.

(** An [omap] that succeeds on every element and keeps the sort key
    keeps the list sorted. *)
Lemma Sorted_omap {A B C} (R : C -> C -> Prop) (f : A -> option B)
    (h : A -> C) (g : B -> C) (l : list A) :
  (forall x, In x l -> exists y, f x = Some y /\ g y = h x) ->
  Sorted (fun a b => R (h a) (h b)) l -> Sorted (fun a b => R (g a) (g b)) (omap f l).
Proof.
  intros Hf Hs. induction Hs as [|x l Hs IH Hd]; [constructor|].
  destruct (Hf x (or_introl eq_refl)) as (y & Fy & Gy). simpl. rewrite Fy.
  constructor; [apply IH; intros z Hz; apply Hf; by right|].
  destruct Hd as [|x2 l2 Hx2]; [constructor|].
  destruct (Hf x2 (or_intror (or_introl eq_refl))) as (y2 & Fy2 & Gy2).
  simpl. rewrite Fy2. constructor. by rewrite Gy, Gy2.
Qed.

(** With unique keys, the rows of a given key are none or one. *)
Lemma filter_key_unique {A} (key : A -> Z) (k : Z) (l : list A) :
  NoDup (map key l) ->
  List.filter (fun x => (key x =? k)%Z) l = [] \/
  exists x, List.filter (fun x => (key x =? k)%Z) l = [x] /\ In x l /\ key x = k.
Proof.
  induction l as [|x l IH]; simpl; [by left|]. intros [Hx Hnd]%list.NoDup_cons.
  destruct (Z.eqb_spec (key x) k) as [<-|Hne].
  - right. exists x. rewrite filter_all_false; [auto|].
    intros y Hy. apply Z.eqb_neq. intros E. apply Hx, list_elem_of_In. rewrite <- E. by apply in_map.
  - destruct (IH Hnd) as [->|(y & -> & Hy & Ey)]; [by left|]. right. eauto.
Qed.

(** A boolean check of every integer of [[lo, lo + n)], evaluated once by
    [vm_compute], holds of each integer of that range. *)
Lemma Z_range_forallb (f : Z -> bool) (lo : Z) (n : nat) :
  forallb f (map (fun i => lo + Z.of_nat i)%Z (seq 0 n)) = true ->
  forall z, (lo <= z < lo + Z.of_nat n)%Z -> f z = true.
Proof.
  rewrite forallb_forall. intros H z Hz. apply H, in_map_iff.
  exists (Z.to_nat (z - lo)). split; [lia|]. apply in_seq. lia.
Qed.

Create HintDb backend.
Create Rewrite HintDb backend_rw.
#[export] Hint Resolve Forall_filter_in NoDup_map_filter NoDup_omap_filter preserves_raise preserves_ret : backend.
#[export] Hint Rewrite @st_bind_ret_l @st_bind_assoc : backend_rw.

(** Case analysis on every [if] and [match] of a boolean or option in the
    goal, recording the equation. *)
Ltac case_ifs :=
  repeat match goal with
         | |- context [if ?b then _ else _] =>
             let E := fresh "E" in destruct b eqn:E
         end.

Ltac invc H := inversion H; subst; clear H.

(** Unfold the monad's operations everywhere. *)
Ltac st_unfold := cbv [st_bind st_get st_put st_ret st_raise st_modify] in *.

(** A handler made of reads, [st_ret] and [st_raise] is [read_only]. *)
Ltac prove_read_only :=
  let s := fresh "s" in let r := fresh "r" in let s' := fresh "s'" in
  let Heq := fresh "Heq" in
  intros s r s' Heq; revert Heq; st_unfold; repeat case_match; intros Heq; simplify_eq; done.
