(* ===== verification/PyStr.v ===== *)
(** * Python strings and values used by src/api/helpers.py

    [str.lower], the slice [s[i:j]], [str.split(" ")], the membership
    test [c in s], decimal [str(n)] of an [int], and Python's [==] and
    [in] on the values a SQLAlchemy query returns ([None], [str], and the
    tuple-like [Row]).  Characters are ASCII. *)

From S2P Require Import Prelude.
From Stdlib Require Import DecimalString DecimalPos DecimalZ.

Module PyStr.

Local Open Scope string_scope.

(** ** [str.lower] *)

Definition lower_char (c : ascii) : ascii :=
  let n := nat_of_ascii c in
  if (65 <=? n)%nat && (n <=? 90)%nat then ascii_of_nat (n + 32) else c.

Fixpoint lower (s : string) : string :=
  match s with
  | EmptyString => EmptyString
  | String c s' => String (lower_char c) (lower s')
  end.

(** ** Slicing [s[i:j]] with [0 <= i], as [person.first_name[0:3]] *)

Definition py_slice (s : string) (i j : nat) : string := substring i (j - i) s.

(** ** [c in s] for a one-character string [c] *)

Fixpoint char_in (c : ascii) (s : string) : bool :=
  match s with
  | EmptyString => false
  | String d s' => Ascii.eqb d c || char_in c s'
  end.

(** ** [s.split(sep)] for a one-character separator: every occurrence of
    [sep] cuts, so consecutive separators give empty pieces and
    [s.split(sep)] has one more piece than [s] has separators. *)

Fixpoint split_on (sep : ascii) (s : string) : list string :=
  match s with
  | EmptyString => [EmptyString]
  | String d s' =>
      let rest := split_on sep s' in
      if Ascii.eqb d sep then EmptyString :: rest
      else match rest with
           | t :: ts => String d t :: ts
           | [] => [String d EmptyString]
           end
  end.

(** [sep.join(pieces)] *)
Fixpoint join (sep : ascii) (pieces : list string) : string :=
  match pieces with
  | [] => EmptyString
  | [t] => t
  | t :: ts => t ++ String sep (join sep ts)
  end.

(** ** Substring containment: [t] occurs in [s] *)

Fixpoint is_substring (t s : string) : bool :=
  String.prefix t s ||
  match s with
  | EmptyString => false
  | String _ s' => is_substring t s'
  end.

(** ** [str(n)] for an [int] [n]: its decimal digits, with a leading [-]
    when negative. *)

Definition py_str_int (n : Z) : string :=
  NilZero.string_of_int (Z.to_int n).

(** Reading decimal digits back (the inverse used by the round trip). *)
Definition py_int_of_str (s : string) : option Z :=
  option_map Z.of_int (NilZero.int_of_string s).

(** ** Python values returned by a query, with [==] and [in] *)

(** [None], a [str], and a [Row] (a tuple of column values). *)
Inductive pyval :=
| PyNone
| PyString (s : string)
| PyRow (cols : list pyval).

(** [a == b]: a [Row] compares as a tuple, so it equals only a tuple with
    equal components; a [str] equals only an equal [str]. *)
Fixpoint py_eq (a b : pyval) {struct a} : bool :=
  match a, b with
  | PyNone, PyNone => true
  | PyString x, PyString y => String.eqb x y
  | PyRow xs, PyRow ys =>
      (fix go (xs ys : list pyval) : bool :=
         match xs, ys with
         | [], [] => true
         | x :: xs', y :: ys' => py_eq x y && go xs' ys'
         | _, _ => false
         end) xs ys
  | _, _ => false
  end.

(** [x in l] *)
Definition py_in (x : pyval) (l : list pyval) : bool := existsb (py_eq x) l.

(** ** Lemmas *)

Lemma lower_append (a b : string) : lower (a ++ b) = lower a ++ lower b.
Proof. induction a as [|c a IH]; simpl; [done|]. by rewrite IH. Qed.

Lemma length_append (a b : string) :
  String.length (a ++ b) = (String.length a + String.length b)%nat.
Proof. induction a as [|c a IH]; simpl; [done|]. by rewrite IH. Qed.

Lemma length_lower (s : string) : String.length (lower s) = String.length s.
Proof. induction s as [|c s IH]; simpl; [done|]. by rewrite IH. Qed.

Lemma lower_char_idem (c : ascii) : lower_char (lower_char c) = lower_char c.
Proof. destruct c as [[] [] [] [] [] [] [] []]; reflexivity. Qed.

Lemma lower_idem (s : string) : lower (lower s) = lower s.
Proof. induction s as [|c s IH]; simpl; [done|]. by rewrite lower_char_idem, IH. Qed.

Lemma length_py_slice (s : string) (i j : nat) :
  (String.length (py_slice s i j) <= j - i)%nat.
Proof.
  unfold py_slice. generalize (j - i)%nat. revert i.
  induction s as [|c s IH]; intros [|i] n; simpl.
  - destruct n; simpl; lia.
  - destruct n; simpl; lia.
  - destruct n as [|n]; simpl; [lia|]. specialize (IH 0%nat n). lia.
  - apply IH.
Qed.

(** A string with a separator splits into at least two pieces. *)
Lemma split_on_length (sep : ascii) (s : string) :
  (1 <= length (split_on sep s))%nat /\
  (char_in sep s = true -> 2 <= length (split_on sep s))%nat.
Proof.
  induction s as [|d s [IH1 IH2]]; simpl; [split; [lia|done]|].
  destruct (Ascii.eqb d sep) eqn:E; simpl.
  - split; [lia|]. intros _. lia.
  - destruct (split_on sep s) as [|t ts]; simpl in *; [lia|].
    split; [lia|]. intros H. apply IH2 in H. simpl in H. lia.
Qed.

(** Without a separator, [s.split(sep) == [s]]. *)
Lemma split_on_no_sep (sep : ascii) (s : string) :
  char_in sep s = false -> split_on sep s = [s].
Proof.
  induction s as [|d s IH]; simpl; [done|].
  intros H. apply orb_false_iff in H as [H1 H2]. rewrite H1, IH by done.
  done.
Qed.

(** No piece of [s.split(sep)] contains [sep]. *)
Lemma split_on_pieces (sep : ascii) (s t : string) :
  In t (split_on sep s) -> char_in sep t = false.
Proof.
  revert t. induction s as [|d s IH]; simpl; intros t Ht.
  - destruct Ht as [<-|[]]. done.
  - destruct (Ascii.eqb d sep) eqn:E.
    + destruct Ht as [<-|Ht]; [done|]. auto.
    + destruct (split_on sep s) as [|u us] eqn:Es.
      * destruct Ht as [<-|[]]. simpl. rewrite E. done.
      * destruct Ht as [<-|Ht]; [|apply IH; right; done].
        simpl. rewrite E. apply IH. left. done.
Qed.

Lemma join_cons_char (sep d : ascii) (t : string) (ts : list string) :
  join sep (String d t :: ts) = String d (join sep (t :: ts)).
Proof. destruct ts; reflexivity. Qed.

(** Round trip of [str.split]: joining the pieces of [s.split(sep)] with [sep] gives back [s], so the split the name search performs loses no character. *)
Lemma join_split_on (sep : ascii) (s : string) :
  join sep (split_on sep s) = s.
Proof.
  induction s as [|d s IH]; simpl; [done|].
  pose proof (proj1 (split_on_length sep s)) as Hlen.
  destruct (split_on sep s) as [|t ts]; simpl in Hlen; [lia|].
  destruct (Ascii.eqb d sep) eqn:E.
  - apply Ascii.eqb_eq in E as ->.
    change (String sep (join sep (t :: ts)) = String sep s). by rewrite IH.
  - rewrite join_cons_char. by rewrite IH.
Qed.

(** Round trip of [str]: the decimal text [str(n)] the display tag appends parses back to [n] ([int(str(n)) == n]). *)
Lemma py_str_int_roundtrip (n : Z) : py_int_of_str (py_str_int n) = Some n.
Proof.
  unfold py_int_of_str, py_str_int.
  rewrite NilZero.isi.
  - simpl. f_equal. apply DecimalZ.of_to.
  - destruct n as [|p|p]; simpl; [discriminate| |discriminate].
    intros [= H]. by apply (DecimalPos.Unsigned.to_uint_nonnil p).
  - destruct n as [|p|p]; simpl; [discriminate|discriminate|].
    intros [= H]. by apply (DecimalPos.Unsigned.to_uint_nonnil p).
Qed.

(** A [str] never equals a [Row]. *)
Lemma py_eq_string_row (s : string) (cols : list pyval) :
  py_eq (PyString s) (PyRow cols) = false.
Proof. reflexivity. Qed.

(** So a [str] is never [in] a list of [Row]s. *)
Lemma py_in_string_rows (s : string) (rows : list (list pyval)) :
  py_in (PyString s) (map PyRow rows) = false.
Proof. unfold py_in. induction rows as [|r rows IH]; simpl; done. Qed.

Lemma py_in_string_strings (s : string) (l : list string) :
  py_in (PyString s) (map PyString l) = true <-> In s l.
Proof.
  unfold py_in. induction l as [|x l IH]; simpl; [split; [done|tauto]|].
  rewrite orb_true_iff, IH, String.eqb_eq. split; intros [H|H]; auto.
Qed.

(** Every character of a piece of [s.split(sep)] is a character of [s]. *)
Lemma split_on_char_in (sep c : ascii) (s t : string) :
  In t (split_on sep s) -> char_in c t = true -> char_in c s = true.
Proof.
  revert t. induction s as [|d s IH]; simpl; intros t Ht Hc.
  - destruct Ht as [<-|[]]. done.
  - apply orb_true_iff. destruct (Ascii.eqb d sep).
    + destruct Ht as [<-|Ht]; [done|]. right. eauto.
    + destruct (split_on sep s) as [|u us] eqn:Es.
      * destruct Ht as [<-|[]]. simpl in Hc. rewrite orb_false_r in Hc. by left.
      * destruct Ht as [<-|Ht].
        -- simpl in Hc. apply orb_true_iff in Hc as [Hc|Hc]; [by left|].
           right. apply (IH u); [by left|done].
        -- right. apply (IH t); [by right|done].
Qed.

End PyStr.
