(* ===== verification/Database.v ===== *)
(** * The engine configuration of src/api/database.py

    At import, database.py chooses the engine from the environment: with
    [NAMESPACE=heroku] it reads [DATABASE_URL] (a [KeyError] when unset)
    and, when the URL is non-empty and starts with [postgres://], rewrites
    that scheme to [postgresql://] and builds a PostgreSQL engine;
    otherwise [engine] stays [None].  Without [NAMESPACE=heroku] it is the
    SQLite file [sql_app.db], the store the rest of the development
    models.  src/main.py then runs [create_all(bind=engine)], which fails
    when there is no engine.  The environment is a function from names to
    optional values ([os.environ]). *)

From S2P Require Import Prelude PyStr.
Import PyStr.

Module Database.

Local Open Scope string_scope.

(** [os.environ]: the value of each variable, if set. *)
Definition environ := string -> option string.

(** [s.startswith(prefix)] *)
Definition startswith (prefix s : string) : bool := String.prefix prefix s.

(** [s[n:]] *)
Definition drop (n : nat) (s : string) : string := substring n (String.length s - n) s.

(** [s.replace(old, new, 1)]: the first occurrence of [old] replaced. *)
Fixpoint replace_first (old new s : string) : string :=
  if String.prefix old s then new ++ drop (String.length old) s
  else match s with
       | EmptyString => EmptyString
       | String c s' => String c (replace_first old new s')
       end.

Inductive engine :=
| SQLiteEngine (url : string)
| PostgresEngine (url : string).

Definition sqlite_url : string := "sqlite:///./sql_app.db".

(** The module-level [engine] after database.py ran, or the [KeyError] of
    [os.environ["DATABASE_URL"]]. *)
Definition database_engine (env : environ) : result (option engine) :=
  if bool_decide (env "NAMESPACE" = Some "heroku") then
    match env "DATABASE_URL" with
    | None => Err (KeyError "DATABASE_URL")
    | Some uri =>
        if negb (String.eqb uri "") && startswith "postgres://" uri
        then Ok (Some (PostgresEngine (replace_first "postgres://" "postgresql://" uri)))
        else Ok None
    end
  else Ok (Some (SQLiteEngine sqlite_url)).

(** Starting the service: the engine, then [models.Base.metadata.create_all(
    bind=engine)] of src/main.py, which needs an engine. *)
Definition startup (env : environ) : result engine :=
  match database_engine env with
  | Err e => Err e
  | Ok None => Err NoEngine
  | Ok (Some e) => Ok e
  end.

(** ** Theorems *)

Lemma prefix_app (p s : string) : String.prefix p (p ++ s) = true.
Proof.
  induction p as [|c p IH]; simpl; [by destruct s|]. by destruct (ascii_dec c c).
Qed.

Lemma replace_first_eq (old new s : string) :
  replace_first old new s =
  if String.prefix old s then new ++ drop (String.length old) s
  else match s with
       | EmptyString => EmptyString
       | String c s' => String c (replace_first old new s')
       end.
Proof. by destruct s. Qed.

Lemma substring_all (s : string) : substring 0 (String.length s) s = s.
Proof. induction s as [|c s IH]; simpl; [done|]. by rewrite IH. Qed.

Lemma drop_app (p s : string) : drop (String.length p) (p ++ s) = s.
Proof.
  unfold drop. induction p as [|c p IH]; simpl; [by rewrite Nat.sub_0_r, substring_all|].
  exact IH.
Qed.

(** [u.replace(p, q, 1)] on a [u] that starts with [p] replaces that prefix. *)
Lemma replace_first_prefix (p q s : string) : replace_first p q (p ++ s) = q ++ s.
Proof. by rewrite replace_first_eq, prefix_app, drop_app. Qed.

(** Without [NAMESPACE=heroku], the engine is the SQLite file the model
    of [Models] describes. *)
Lemma database_engine_sqlite (env : environ) :
  env "NAMESPACE" <> Some "heroku" -> startup env = Ok (SQLiteEngine sqlite_url).
Proof. intros Hns. unfold startup, database_engine. by rewrite bool_decide_eq_false_2. Qed.

(** C32. With [NAMESPACE=heroku] and [DATABASE_URL] set, a URL [postgres://rest] becomes the PostgreSQL engine of [postgresql://rest], and any URL that does not start with [postgres://] (a [postgresql://] URL included) leaves [engine = None], so that [create_all(bind=engine)] of src/main.py fails and the service does not start. *)
Theorem database_engine_heroku (env : environ) (uri : string) :
  env "NAMESPACE" = Some "heroku" -> env "DATABASE_URL" = Some uri ->
  (forall rest, uri = "postgres://" ++ rest ->
     startup env = Ok (PostgresEngine ("postgresql://" ++ rest))) /\
  (startswith "postgres://" uri = false -> startup env = Err NoEngine).
Proof.
  intros Hns Hurl. unfold startup, database_engine.
  rewrite bool_decide_eq_true_2 by done. rewrite Hurl. split.
  - intros rest ->. unfold startswith. rewrite prefix_app, replace_first_prefix. done.
  - intros Hs. by rewrite Hs, andb_false_r.
Qed.

(** Without [DATABASE_URL], [os.environ["DATABASE_URL"]] raises. *)
Lemma database_engine_no_url (env : environ) :
  env "NAMESPACE" = Some "heroku" -> env "DATABASE_URL" = None ->
  startup env = Err (KeyError "DATABASE_URL").
Proof.
  intros Hns Hurl. unfold startup, database_engine.
  rewrite bool_decide_eq_true_2 by done. by rewrite Hurl.
Qed.

End Database.
