(* ===== verification/SqlLike.v ===== *)
(** * The SQL [LIKE] operator

    [person_search] (src/api/helpers.py) filters with
    [func.lower(column).like(func.lower(f"%{t}%"))].  SQLite's [LIKE]
    without an [ESCAPE] clause reads [%] as any sequence of characters,
    [_] as any one character, and compares the other characters up to
    ASCII case.  The main theorem says that [LIKE '%t%'] is
    case-insensitive substring containment when [t] holds neither [%] nor
    [_]. *)

From S2P Require Import Prelude PyStr.
Import PyStr.

Module SqlLike.

Local Open Scope string_scope.

(** [f] holds of some suffix of [s] (the empty suffix included). *)
Fixpoint any_suffix (f : string -> bool) (s : string) : bool :=
  f s || match s with
         | EmptyString => false
         | String _ s' => any_suffix f s'
         end.

(** [s LIKE p] *)
Fixpoint like (p s : string) : bool :=
  match p with
  | EmptyString =>
      match s with EmptyString => true | String _ _ => false end
  | String c p' =>
      if Ascii.eqb c "%" then any_suffix (like p') s
      else if Ascii.eqb c "_" then
        match s with EmptyString => false | String _ s' => like p' s' end
      else
        match s with
        | EmptyString => false
        | String d s' => Ascii.eqb (lower_char c) (lower_char d) && like p' s'
        end
  end.

(** [t] has no wildcard character. *)
Definition no_wildcard (t : string) : bool :=
  negb (char_in "%" t) && negb (char_in "_" t).

(** Strip the literal [t] (up to ASCII case) from the front of [s]. *)
Fixpoint strip_ci (t s : string) : option string :=
  match t, s with
  | EmptyString, _ => Some s
  | String c t', String d s' =>
      if Ascii.eqb (lower_char c) (lower_char d) then strip_ci t' s' else None
  | String _ _, EmptyString => None
  end.

(** ** Lemmas *)

Lemma any_suffix_true (f : string -> bool) (s : string) :
  f s = true -> any_suffix f s = true.
Proof. destruct s; simpl; intros ->; done. Qed.

Lemma like_percent (s : string) : like "%" s = true.
Proof.
  induction s as [|c s IH]; [done|].
  simpl. simpl in IH. by rewrite IH.
Qed.

Lemma any_suffix_ext (f g : string -> bool) (s : string) :
  (forall v, f v = g v) -> any_suffix f s = any_suffix g s.
Proof. intros H. induction s as [|c s IH]; simpl; rewrite H; [done|by rewrite IH]. Qed.

Lemma any_suffix_lower (f : string -> bool) (s : string) :
  any_suffix f (lower s) = any_suffix (fun v => f (lower v)) s.
Proof. induction s as [|c s IH]; simpl; [done|]. by rewrite IH. Qed.

(** A wildcard-free literal at the head of a pattern is matched by
    stripping it. *)
Lemma like_literal_app (t q s : string) :
  no_wildcard t = true ->
  like (t ++ q) s = match strip_ci t s with
                    | Some s' => like q s'
                    | None => false
                    end.
Proof.
  unfold no_wildcard. revert s.
  induction t as [|c t IH]; intros s Hw; [done|].
  simpl in Hw. apply andb_true_iff in Hw as [H1 H2].
  apply negb_true_iff, orb_false_iff in H1 as [Hc1 Ht1].
  apply negb_true_iff, orb_false_iff in H2 as [Hc2 Ht2].
  simpl. rewrite Hc1, Hc2.
  destruct s as [|d s]; [done|].
  destruct (Ascii.eqb (lower_char c) (lower_char d)); simpl; [|done].
  apply IH. rewrite Ht1, Ht2. done.
Qed.

Lemma prefix_lower_strip (t v : string) :
  String.prefix (lower t) (lower v) =
  match strip_ci t v with Some _ => true | None => false end.
Proof.
  revert v. induction t as [|c t IH]; intros [|d v]; simpl; try done.
  destruct (ascii_dec (lower_char c) (lower_char d)) as [E|E].
  - rewrite E, Ascii.eqb_refl. apply IH.
  - apply Ascii.eqb_neq in E. rewrite E. done.
Qed.

Lemma is_substring_any_suffix (t s : string) :
  is_substring t s = any_suffix (String.prefix t) s.
Proof. induction s as [|c s IH]; simpl; [done|]. by rewrite IH. Qed.

(** [s LIKE '%t%'] is containment of [lower t] in [lower s] when [t] holds
    no wildcard. *)
Theorem like_contains (t s : string) :
  no_wildcard t = true ->
  like ("%" ++ t ++ "%") s = is_substring (lower t) (lower s).
Proof.
  intros Hw. change (any_suffix (like (t ++ "%")) s = is_substring (lower t) (lower s)).
  rewrite is_substring_any_suffix, any_suffix_lower.
  apply any_suffix_ext. intros v.
  rewrite (like_literal_app t "%" v Hw), prefix_lower_strip.
  destruct (strip_ci t v); [apply like_percent|done].
Qed.

Lemma lower_char_eqb_percent (c : ascii) : Ascii.eqb (lower_char c) "%" = Ascii.eqb c "%".
Proof. destruct c as [[] [] [] [] [] [] [] []]; reflexivity. Qed.

Lemma lower_char_eqb_underscore (c : ascii) : Ascii.eqb (lower_char c) "_" = Ascii.eqb c "_".
Proof. destruct c as [[] [] [] [] [] [] [] []]; reflexivity. Qed.

Lemma char_in_lower_percent (t : string) : char_in "%" (lower t) = char_in "%" t.
Proof. induction t as [|c t IH]; simpl; [done|]. by rewrite lower_char_eqb_percent, IH. Qed.

Lemma char_in_lower_underscore (t : string) : char_in "_" (lower t) = char_in "_" t.
Proof. induction t as [|c t IH]; simpl; [done|]. by rewrite lower_char_eqb_underscore, IH. Qed.

Lemma no_wildcard_lower (t : string) : no_wildcard (lower t) = no_wildcard t.
Proof. unfold no_wildcard. by rewrite char_in_lower_percent, char_in_lower_underscore. Qed.

Lemma lower_percent_wrap (t : string) : lower ("%" ++ t ++ "%") = "%" ++ lower t ++ "%".
Proof. rewrite !lower_append. reflexivity. Qed.

(** The filter [func.lower(x).like(func.lower(f"%{t}%"))] of
    [person_search] is containment of [lower t] in [lower x]. *)
Lemma like_lower_contains (t x : string) :
  no_wildcard t = true ->
  like (lower ("%" ++ t ++ "%")) (lower x) = is_substring (lower t) (lower x).
Proof.
  intros Hw. rewrite lower_percent_wrap, like_contains by (by rewrite no_wildcard_lower).
  by rewrite !lower_idem.
Qed.

End SqlLike.
