(* ===== verification/Models.v ===== *)
(** * The entity store of src/api/models.py

  The three tables [persons], [shifts] and [overtimes] as Records (one
  Module per table, with the columns' names), the store as a Record of
  three lists in rowid order, and the store operations the handlers
  perform through the ORM: INSERT (with SQLite's rowid allocation and
  its UNIQUE and PRIMARY KEY checks, which raise [IntegrityError] at
  commit), DELETE ... WHERE and UPDATE ... WHERE.  The invariant [wf]
  says that keys are unique. *)

From S2P Require Import Prelude.

Local Open Scope Z_scope.

Module Person.
(** [class Person(Base)], table [persons]. *)
Record t := mk {
  id : Z;
  first_name : string;
  last_name : string;
  job_role : option string;
  birthday : option Z;
  created_at : Z;
  updated_at : Z;
  display_tag : option string;
  field_A : option string;
  field_B : option string;
  field_C : option string;
  field_D : option string;
  field_E : option string
}.
#[export] Instance eq_dec : EqDecision t.
Proof. solve_decision. Defined.
End Person.

Module Shift.
(** [class Shift(Base)], table [shifts]; [time_worked] is the deferred
    column [end_time - start_time]. *)
Record t := mk {
  id : Z;
  start_time : Z;
  end_time : Z;
  comment : option string;
  person_id : Z;
  created_at : Z;
  updated_at : Z;
  field_A : option string;
  field_B : option string;
  field_C : option string;
  field_D : option string;
  field_E : option string
}.
Definition time_worked (s : t) : Z := end_time s - start_time s.
#[export] Instance eq_dec : EqDecision t.
Proof. solve_decision. Defined.
End Shift.

Module Overtime.
(** [class Overtime(Base)], table [overtimes]; [shift_id] is the
    primary key. *)
Record t := mk {
  shift_id : Z;
  type : option string;
  hours : option Z;
  created_at : Z;
  updated_at : Z;
  field_A : option string;
  field_B : option string;
  field_C : option string;
  field_D : option string;
  field_E : option string
}.
#[export] Instance eq_dec : EqDecision t.
Proof. solve_decision. Defined.
End Overtime.

Module Store.

(** The database: each table's rows in rowid order. *)
Record DB := mkDB {
  persons : list Person.t;
  shifts : list Shift.t;
  overtimes : list Overtime.t
}.

Definition empty : DB := mkDB [] [] [].

Definition set_persons (ps : list Person.t) (db : DB) : DB :=
  mkDB ps (shifts db) (overtimes db).
Definition set_shifts (ss : list Shift.t) (db : DB) : DB :=
  mkDB (persons db) ss (overtimes db).
Definition set_overtimes (os : list Overtime.t) (db : DB) : DB :=
  mkDB (persons db) (shifts db) os.

(** SQLite's rowid for an [INTEGER PRIMARY KEY] declared without
    [AUTOINCREMENT]: one more than the largest rowid in the table, 1 for
    an empty table. *)
Definition next_rowid (ids : list Z) : Z := fold_right Z.max 0 ids + 1.

(** [db.add(models.Person(first_name=..., last_name=..., display_tag=...,
    job_role=..., birthday=...)); db.commit()]: the row gets the next
    rowid and [created_at = updated_at = now]; the UNIQUE constraint on
    [display_tag] fails the commit when another row has the same
    non-NULL tag. *)
Definition insert_person (now : Z) (first_name last_name : string)
    (display_tag : option string) (job_role : option string)
    (birthday : option Z) (db : DB) : result DB :=
  let row := Person.mk (next_rowid (map Person.id (persons db)))
               first_name last_name job_role birthday now now display_tag
               None None None None None in
  match display_tag with
  | Some tag =>
      if existsb (fun p => bool_decide (Person.display_tag p = Some tag)) (persons db)
      then Err (IntegrityError "UNIQUE constraint failed: persons.display_tag"%string)
      else Ok (set_persons (persons db ++ [row]) db)
  | None => Ok (set_persons (persons db ++ [row]) db)
  end.

(** [db.add(models.Shift(start_time=..., end_time=..., comment=...,
    person_id=...)); db.commit()]: SQLite does not check the foreign key
    [person_id]. *)
Definition insert_shift (now : Z) (start_time end_time : Z)
    (comment : option string) (person_id : Z) (db : DB) : DB :=
  let row := Shift.mk (next_rowid (map Shift.id (shifts db)))
               start_time end_time comment person_id now now
               None None None None None in
  set_shifts (shifts db ++ [row]) db.

(** [db.add(models.Overtime(type=..., hours=..., shift_id=...));
    db.commit()]: [shift_id] is the primary key (a rowid alias), so a
    second row for the same shift fails the commit; the foreign key to
    [shifts] is not checked. *)
Definition insert_overtime (now : Z) (type : option string) (hours : option Z)
    (shift_id : Z) (db : DB) : result DB :=
  let row := Overtime.mk shift_id type hours now now None None None None None in
  if existsb (fun o => bool_decide (Overtime.shift_id o = shift_id)) (overtimes db)
  then Err (IntegrityError "UNIQUE constraint failed: overtimes.shift_id"%string)
  else Ok (set_overtimes (overtimes db ++ [row]) db).

(** [db.query(T).filter(cond).delete()]: remove the rows where [cond]. *)
Definition delete_where {A} (cond : A -> bool) (rows : list A) : list A :=
  List.filter (fun r => negb (cond r)) rows.

(** [db.query(T).filter(cond).update({...})]: rewrite the rows where
    [cond] in place. *)
Definition update_where {A} (cond : A -> bool) (f : A -> A) (rows : list A) : list A :=
  map (fun r => if cond r then f r else r) rows.

(** ** The store invariant: every key is unique. *)

Definition tags (db : DB) : list string := omap Person.display_tag (persons db).

Record wf (db : DB) : Prop := {
  wf_person_ids : NoDup (map Person.id (persons db));
  wf_shift_ids : NoDup (map Shift.id (shifts db));
  wf_overtime_ids : NoDup (map Overtime.shift_id (overtimes db));
  wf_tags : NoDup (tags db)
}.

(** Every stored shift ends no earlier than it starts. *)
Definition shifts_ordered (db : DB) : Prop :=
  Forall (fun s => Shift.start_time s <= Shift.end_time s) (shifts db).

(** ** Lemmas *)

Lemma next_rowid_fresh (ids : list Z) : next_rowid ids ∉ ids.
Proof.
  unfold next_rowid. intros Hin.
  assert (forall x, x ∈ ids -> x <= fold_right Z.max 0 ids) as Hle.
  { clear Hin. induction ids as [|y ids IH]; intros x Hx; [inversion Hx|].
    simpl. apply elem_of_cons in Hx as [->|Hx]; [lia|]. apply IH in Hx. lia. }
  apply Hle in Hin. lia.
Qed.

Lemma NoDup_snoc_fresh {A} (l : list A) (x : A) :
  NoDup l -> x ∉ l -> NoDup (l ++ [x]).
Proof.
  intros Hl Hx. apply list.NoDup_app. split; [done|]. split; [|apply list.NoDup_singleton].
  intros y Hy ->%list_elem_of_singleton. done.
Qed.

Lemma NoDup_map_delete_where {A B} (f : A -> B) (cond : A -> bool) (rows : list A) :
  NoDup (map f rows) -> NoDup (map f (delete_where cond rows)).
Proof.
  intros H. apply NoDup_ListNoDup. apply NoDup_map_filter. by apply NoDup_ListNoDup.
Qed.

Lemma map_update_where {A B} (g : A -> B) (cond : A -> bool) (f : A -> A) (rows : list A) :
  (forall r, g (f r) = g r) -> map g (update_where cond f rows) = map g rows.
Proof.
  intros Hg. unfold update_where. rewrite map_map. apply map_ext.
  intros r. destruct (cond r); auto.
Qed.

Lemma in_tags (db : DB) (tag : string) :
  tag ∈ tags db <-> exists p, p ∈ persons db /\ Person.display_tag p = Some tag.
Proof. unfold tags. rewrite list_elem_of_omap. naive_solver. Qed.

Lemma insert_person_wf now fn ln tag role bday db db' :
  wf db -> insert_person now fn ln tag role bday db = Ok db' -> wf db'.
Proof.
  intros [Hp Hs Ho Ht] Hins. unfold insert_person in Hins.
  assert (Hids : NoDup (map Person.id (persons db ++
      [Person.mk (next_rowid (map Person.id (persons db))) fn ln role bday now now tag
         None None None None None]))).
  { rewrite map_app. apply NoDup_snoc_fresh; [done|apply next_rowid_fresh]. }
  destruct tag as [tag|].
  - destruct (existsb _ _) eqn:E; [discriminate|]. injection Hins as <-.
    split; simpl; try done. unfold tags; simpl. rewrite omap_app. simpl.
    apply NoDup_snoc_fresh; [done|].
    intros (p & Hp' & Htag)%list_elem_of_omap.
    assert (existsb (fun p => bool_decide (Person.display_tag p = Some tag)) (persons db) = true).
    { apply existsb_exists. exists p. split; [by apply list_elem_of_In|].
      by apply bool_decide_eq_true. }
    congruence.
  - injection Hins as <-. split; simpl; try done.
    unfold tags; simpl. rewrite omap_app. simpl. by rewrite app_nil_r.
Qed.

Lemma insert_shift_wf now st et c pid db :
  wf db -> wf (insert_shift now st et c pid db).
Proof.
  intros [Hp Hs Ho Ht]. split; simpl; try done.
  rewrite map_app. apply NoDup_snoc_fresh; [done|apply next_rowid_fresh].
Qed.

Lemma insert_overtime_wf now ty h sid db db' :
  wf db -> insert_overtime now ty h sid db = Ok db' -> wf db'.
Proof.
  intros [Hp Hs Ho Ht] Hins. unfold insert_overtime in Hins.
  destruct (existsb _ _) eqn:E; [discriminate|]. injection Hins as <-.
  split; simpl; try done. rewrite map_app. apply NoDup_snoc_fresh; [done|].
  intros (o & Hsid & Hin)%list_elem_of_In%in_map_iff.
  assert (existsb (fun o => bool_decide (Overtime.shift_id o = sid)) (overtimes db) = true).
  { apply existsb_exists. exists o. split; [done|].
    by apply bool_decide_eq_true. }
  congruence.
Qed.

Lemma omap_update_where {A B} (g : A -> option B) (cond : A -> bool) (f : A -> A) (rows : list A) :
  (forall r, g (f r) = g r) -> omap g (update_where cond f rows) = omap g rows.
Proof.
  intros Hg. apply list_omap_ext. unfold update_where.
  induction rows as [|r rows IH]; simpl; constructor; [|done].
  destruct (cond r); auto.
Qed.

(** Updating persons in place keeps [wf] when ids and tags are kept. *)
Lemma in_update_where {A} (cond : A -> bool) (f : A -> A) (rows : list A) (r : A) :
  In r rows -> In (if cond r then f r else r) (update_where cond f rows).
Proof. intros Hr. unfold update_where. apply (in_map (fun r => if cond r then f r else r)), Hr. Qed.

Lemma wf_update_persons (cond : Person.t -> bool) (f : Person.t -> Person.t) (db : DB) :
  (forall p, Person.id (f p) = Person.id p) ->
  (forall p, Person.display_tag (f p) = Person.display_tag p) ->
  wf db -> wf (set_persons (update_where cond f (persons db)) db).
Proof.
  intros Hid Htag [Hp Hs Ho Ht]. split; simpl; try done.
  - by rewrite map_update_where.
  - change (NoDup (omap Person.display_tag (update_where cond f (persons db)))).
    by rewrite omap_update_where.
Qed.

Lemma wf_update_shifts (cond : Shift.t -> bool) (f : Shift.t -> Shift.t) (db : DB) :
  (forall s, Shift.id (f s) = Shift.id s) ->
  wf db -> wf (set_shifts (update_where cond f (shifts db)) db).
Proof. intros Hid [Hp Hs Ho Ht]. split; simpl; try done. by rewrite map_update_where. Qed.

Lemma wf_delete_persons (cond : Person.t -> bool) (db : DB) :
  wf db -> wf (set_persons (delete_where cond (persons db)) db).
Proof.
  intros [Hp Hs Ho Ht]. split; simpl; try done.
  - by apply NoDup_map_delete_where.
  - by apply NoDup_omap_filter.
Qed.

Lemma wf_delete_shifts (cond : Shift.t -> bool) (db : DB) :
  wf db -> wf (set_shifts (delete_where cond (shifts db)) db).
Proof. intros [Hp Hs Ho Ht]. split; simpl; try done. by apply NoDup_map_delete_where. Qed.


End Store.
