(* ===== verification/Schemas.v ===== *)
(** * Request and response shapes of src/api/schemas.py

    The pydantic models the handlers accept ([Person], [Shift],
    [Overtime]) and return ([PersonOut], [ShiftOut], [OvertimeOut]), and
    the projections from store rows to the response shapes.  A datetime
    of a request body is its clock value and, when it is aware, its UTC
    offset. *)

From S2P Require Import Prelude Models.

Module Schemas.

(** [class Person(BaseModel)]; [birthday] is the clock value of the
    datetime (the column stores its calendar fields, not its offset). *)
Record PersonIn := mkPersonIn {
  pin_first_name : string;
  pin_last_name : string;
  pin_job_role : option string;
  pin_birthday : option Z
}.

(** [class Shift(BaseModel)]: each datetime field is its clock value
    ([DateTime.to_us] of its calendar fields) and its UTC offset in
    microseconds, [None] for a naive datetime. *)
Record ShiftIn := mkShiftInTz {
  sin_start_time : Z;
  sin_end_time : Z;
  sin_person_id : Z;
  sin_comment : option string;
  sin_start_tz : option Z;
  sin_end_tz : option Z
}.

(** A shift whose two datetimes are naive. *)
Definition mkShiftIn (start_time end_time person_id : Z) (comment : option string) : ShiftIn :=
  mkShiftInTz start_time end_time person_id comment None None.

(** The instants the two datetimes of a shift denote, when Python can
    compare them: their clock values when both are naive, clock minus
    offset when both are aware; [None] for a naive and an aware one. *)
Definition shift_instants (s : ShiftIn) : option (Z * Z) :=
  match sin_start_tz s, sin_end_tz s with
  | None, None => Some (sin_start_time s, sin_end_time s)
  | Some a, Some b => Some ((sin_start_time s - a)%Z, (sin_end_time s - b)%Z)
  | _, _ => None
  end.

(** [class Overtime(BaseModel)] *)
Record OvertimeIn := mkOvertimeIn {
  oin_type : string;
  oin_hours : Z;
  oin_shift_id : Z
}.

(** [class ShiftOut(BaseModel)]: the shift's columns with its person's
    names; also the dict [joined_shift_dict] of src/api/helpers.py. *)
Record ShiftOut := mkShiftOut {
  so_id : Z;
  so_start_time : Z;
  so_end_time : Z;
  so_comment : option string;
  so_person_id : Z;
  so_created_at : Z;
  so_updated_at : Z;
  so_field_A : option string;
  so_field_B : option string;
  so_field_C : option string;
  so_field_D : option string;
  so_field_E : option string;
  so_first_name : string;
  so_last_name : string
}.

#[export] Instance PersonIn_eq_dec : EqDecision PersonIn.
Proof. solve_decision. Defined.
#[export] Instance ShiftIn_eq_dec : EqDecision ShiftIn.
Proof. solve_decision. Defined.
#[export] Instance OvertimeIn_eq_dec : EqDecision OvertimeIn.
Proof. solve_decision. Defined.
#[export] Instance ShiftOut_eq_dec : EqDecision ShiftOut.
Proof. solve_decision. Defined.

(** [PersonOut] has the columns of a [persons] row; [OvertimeOut] those of
    an [overtimes] row: the handlers return the rows themselves. *)
Definition PersonOut := Person.t.
Definition OvertimeOut := Overtime.t.

End Schemas.
