(* ===== verification/Query.v ===== *)
(** * SQL queries as the helpers compose them

    A SQLAlchemy [Query] is a Record of its source rows, its WHERE
    conjuncts ([.filter]) and its ORDER BY terms ([.order_by]).  SQL
    evaluates WHERE before ORDER BY whatever the order of the builder
    calls, so [all] filters and then orders.  The order of rows a query
    returns is the store's business: the Class [OrderEngine] states what
    every SQL engine promises (a permutation of the selected rows, sorted
    by the ORDER BY terms), and [isort_engine], a stable insertion sort,
    is one instance.  The file ends with [sort_query_by] and
    [apply_date_filters] of src/api/helpers.py. *)

From S2P Require Import Prelude PyStr Models.
Import PyStr.

Local Open Scope Z_scope.

Module Query.

(** ** Column values and their order (SQLite: integers before text, text
    by the BINARY collation, i.e. byte order). *)

Inductive colval := CInt (z : Z) | CText (s : string).

Definition colval_compare (a b : colval) : comparison :=
  match a, b with
  | CInt x, CInt y => Z.compare x y
  | CText x, CText y => String.compare x y
  | CInt _, CText _ => Lt
  | CText _, CInt _ => Gt
  end.

Inductive direction := Asc | Desc.

(** [attribute.asc()] / [attribute.desc()] *)
Record order_term (A : Type) := OrderTerm { key : A -> colval; dir : direction }.
Arguments OrderTerm {A} key dir.
Arguments key {A} _ _.
Arguments dir {A} _.

Definition term_compare {A} (t : order_term A) (x y : A) : comparison :=
  match dir t with
  | Asc => colval_compare (key t x) (key t y)
  | Desc => colval_compare (key t y) (key t x)
  end.

(** ORDER BY t1, t2, ...: lexicographic. *)
Fixpoint lex_compare {A} (ts : list (order_term A)) (x y : A) : comparison :=
  match ts with
  | [] => Eq
  | t :: ts' => match term_compare t x y with
                | Eq => lex_compare ts' x y
                | c => c
                end
  end.

(** The laws of a comparison that sorting relies on. *)
Class CmpLaws {A} (cmp : A -> A -> comparison) := {
  cmp_antisym : forall x y, cmp x y = CompOpp (cmp y x);
  cmp_eq_subst : forall x y z, cmp x y = Eq -> cmp x z = cmp y z;
  cmp_le_trans : forall x y z, cmp x y <> Gt -> cmp y z <> Gt -> cmp x z <> Gt
}.

Definition cmp_le {A} (cmp : A -> A -> comparison) (x y : A) : Prop := cmp x y <> Gt.

(** ** The order engine: what the store promises about ORDER BY *)

Class OrderEngine := {
  order_rows : forall {A}, (A -> A -> comparison) -> list A -> list A;
  order_rows_perm : forall A (cmp : A -> A -> comparison) (l : list A),
    Permutation (order_rows cmp l) l;
  order_rows_sorted : forall A (cmp : A -> A -> comparison) (l : list A),
    CmpLaws cmp -> Sorted (cmp_le cmp) (order_rows cmp l)
}.

(** ** A stable insertion sort *)

Fixpoint insert_by {A} (cmp : A -> A -> comparison) (x : A) (l : list A) : list A :=
  match l with
  | [] => [x]
  | y :: l' => match cmp x y with
               | Gt => y :: insert_by cmp x l'
               | _ => x :: l
               end
  end.

Fixpoint isort {A} (cmp : A -> A -> comparison) (l : list A) : list A :=
  match l with
  | [] => []
  | x :: l' => insert_by cmp x (isort cmp l')
  end.

(** ** Queries *)

Record query (A : Type) := mkQuery {
  q_rows : list A;
  q_where : list (A -> bool);
  q_order : list (order_term A)
}.
Arguments mkQuery {A} q_rows q_where q_order.
Arguments q_rows {A} _.
Arguments q_where {A} _.
Arguments q_order {A} _.

(** [db.query(T)] *)
Definition select {A} (rows : list A) : query A := mkQuery rows [] [].

(** [query.filter(p)] *)
Definition filter {A} (q : query A) (p : A -> bool) : query A :=
  mkQuery (q_rows q) (q_where q ++ [p]) (q_order q).

(** [query.order_by(t)] *)
Definition order_by {A} (q : query A) (t : order_term A) : query A :=
  mkQuery (q_rows q) (q_where q) (q_order q ++ [t]).

Definition where_ok {A} (ws : list (A -> bool)) (x : A) : bool :=
  forallb (fun p => p x) ws.

Definition selected {A} (q : query A) : list A :=
  List.filter (where_ok (q_where q)) (q_rows q).

Section Exec.
Context `{OrderEngine}.

(** [query.all()] *)
Definition all {A} (q : query A) : list A :=
  order_rows (lex_compare (q_order q)) (selected q).

(** [query.first()]: LIMIT 1 *)
Definition first {A} (q : query A) : option A := head (all q).
End Exec.

(** ** [sort_query_by] and [apply_date_filters] (src/api/helpers.py) *)

(** The text of an f-string field: [None] prints as [None]. *)
Definition py_fmt_opt (o : option string) : string :=
  match o with Some s => s | None => "None"%string end.

Definition sort_query_by {A} (q : query A) (attribute : option (A -> colval))
    (order_type : option string) : result (query A) :=
  match attribute with
  | Some attr =>
      if bool_decide (order_type = Some "asc"%string) then Ok (order_by q (OrderTerm attr Asc))
      else if bool_decide (order_type = Some "desc"%string) then Ok (order_by q (OrderTerm attr Desc))
      else Err (HTTPException 400
             ("Order type is either asc or desc, you entered " ++ py_fmt_opt order_type)%string)
  | None => Ok q
  end.

(** A day in microseconds; [datetime.combine(d, time.min)] is the first
    and [datetime.combine(d, time.max)] (23:59:59.999999) the last
    microsecond of [d]'s day. *)
Definition day_us : Z := 86400000000.
Definition start_of_day (d : Z) : Z := d - d mod day_us.
Definition end_of_day (d : Z) : Z := start_of_day d + (day_us - 1).

(** [start_time] is the column [models.Shift.start_time] of the query's
    rows. *)
Definition apply_date_filters {A} (start_time : A -> Z) (q : query A)
    (start_date end_date : option Z) : query A :=
  let q := match start_date with
           | Some d => filter q (fun r => start_of_day d <=? start_time r)
           | None => q
           end in
  match end_date with
  | Some d => filter q (fun r => start_time r <=? end_of_day d)
  | None => q
  end.

(** ** Laws of the column order *)

Lemma string_compare_le_trans (x y z : string) :
  String.compare x y <> Gt -> String.compare y z <> Gt -> String.compare x z <> Gt.
Proof.
  revert y z. induction x as [|a x IH]; intros [|b y] [|c z]; simpl; try congruence.
  unfold Ascii.compare.
  destruct (N.compare_spec (N_of_ascii a) (N_of_ascii b)) as [Hab|Hab|Hab];
  destruct (N.compare_spec (N_of_ascii b) (N_of_ascii c)) as [Hbc|Hbc|Hbc];
  destruct (N.compare_spec (N_of_ascii a) (N_of_ascii c)) as [Hac|Hac|Hac];
  try congruence; try lia; eauto.
Qed.

Lemma colval_compare_antisym (a b : colval) :
  colval_compare a b = CompOpp (colval_compare b a).
Proof.
  destruct a, b; simpl; try done.
  - apply Z.compare_antisym.
  - apply String.compare_antisym.
Qed.

Lemma colval_compare_eq (a b : colval) : colval_compare a b = Eq -> a = b.
Proof.
  destruct a, b; simpl; try discriminate.
  - intros ->%Z.compare_eq. done.
  - intros ->%String.compare_eq_iff. done.
Qed.

Lemma colval_compare_le_trans (a b c : colval) :
  colval_compare a b <> Gt -> colval_compare b c <> Gt -> colval_compare a c <> Gt.
Proof.
  destruct a, b, c; simpl; try congruence.
  - exact (Z.le_trans _ _ _).
  - apply string_compare_le_trans.
Qed.

Section Comparisons.
Context {A : Type}.

Lemma term_compare_antisym (t : order_term A) x y :
  term_compare t x y = CompOpp (term_compare t y x).
Proof. unfold term_compare. destruct (dir t); apply colval_compare_antisym. Qed.

Lemma term_compare_eq (t : order_term A) x y :
  term_compare t x y = Eq -> key t x = key t y.
Proof.
  unfold term_compare. destruct (dir t); intros E%colval_compare_eq; done.
Qed.

Lemma term_compare_le_trans (t : order_term A) x y z :
  term_compare t x y <> Gt -> term_compare t y z <> Gt -> term_compare t x z <> Gt.
Proof.
  unfold term_compare. destruct (dir t); intros H1 H2.
  - eapply colval_compare_le_trans; eauto.
  - eapply colval_compare_le_trans; eauto.
Qed.

Lemma term_compare_key_l (t : order_term A) x y z :
  key t x = key t y -> term_compare t x z = term_compare t y z.
Proof. unfold term_compare. intros E. by rewrite E. Qed.

Lemma term_compare_key_r (t : order_term A) x y z :
  key t y = key t z -> term_compare t x y = term_compare t x z.
Proof. unfold term_compare. intros E. by rewrite E. Qed.

Lemma term_compare_lt_trans (t : order_term A) x y z :
  term_compare t x y = Lt -> term_compare t y z = Lt -> term_compare t x z = Lt.
Proof.
  intros H1 H2. destruct (term_compare t x z) eqn:E; [| done |].
  - apply term_compare_eq in E. rewrite (term_compare_key_l t x z y E) in H1.
    rewrite term_compare_antisym, H2 in H1. discriminate.
  - exfalso. eapply (term_compare_le_trans t y z x); [congruence| |].
    + rewrite term_compare_antisym, E. discriminate.
    + rewrite term_compare_antisym, H1. done.
Qed.

#[export] Instance lex_compare_laws (ts : list (order_term A)) : CmpLaws (lex_compare ts).
Proof.
  split.
  - intros x y. induction ts as [|t ts IH]; simpl; [done|].
    rewrite (term_compare_antisym t x y). destruct (term_compare t y x); simpl; done.
  - intros x y z. induction ts as [|t ts IH]; simpl; [done|].
    destruct (term_compare t x y) eqn:E; try discriminate. intros Hxy.
    rewrite (term_compare_key_l t x y z) by (by apply term_compare_eq). rewrite IH by done.
    done.
  - intros x y z. induction ts as [|t ts IH]; simpl; [done|].
    destruct (term_compare t x y) eqn:Exy; try congruence;
    destruct (term_compare t y z) eqn:Eyz; try congruence; intros H1 H2.
    + rewrite (term_compare_key_l t x y z) by (by apply term_compare_eq).
      rewrite Eyz. by apply IH.
    + rewrite (term_compare_key_l t x y z) by (by apply term_compare_eq). by rewrite Eyz.
    + rewrite <- (term_compare_key_r t x y z) by (by apply term_compare_eq). by rewrite Exy.
    + by rewrite (term_compare_lt_trans t x y z).
Qed.

End Comparisons.

(** ** The stable insertion sort *)

Section Sorting.
Context {A : Type} (cmp : A -> A -> comparison).

Lemma insert_by_perm (x : A) (l : list A) : Permutation (insert_by cmp x l) (x :: l).
Proof.
  induction l as [|y l IH]; simpl; [done|].
  destruct (cmp x y); try done.
  rewrite IH. apply perm_swap.
Qed.

Lemma isort_perm (l : list A) : Permutation (isort cmp l) l.
Proof.
  induction l as [|x l IH]; simpl; [done|].
  rewrite insert_by_perm, IH. done.
Qed.

Context `{!CmpLaws cmp}.

Lemma insert_by_hdrel (x y : A) (l : list A) :
  HdRel (cmp_le cmp) y l -> cmp_le cmp y x -> HdRel (cmp_le cmp) y (insert_by cmp x l).
Proof.
  destruct l as [|z l]; simpl; intros Hd Hyx; [by constructor|].
  destruct (cmp x z); constructor; try done. by inversion Hd.
Qed.

Lemma insert_by_sorted (x : A) (l : list A) :
  Sorted (cmp_le cmp) l -> Sorted (cmp_le cmp) (insert_by cmp x l).
Proof.
  induction l as [|y l IH]; simpl; intros Hs; [by repeat constructor|].
  apply Sorted_inv in Hs as [Hs Hd].
  destruct (cmp x y) eqn:E.
  - constructor; [by constructor|]. constructor. unfold cmp_le. congruence.
  - constructor; [by constructor|]. constructor. unfold cmp_le. congruence.
  - constructor; [by apply IH|]. apply insert_by_hdrel; [done|].
    unfold cmp_le. rewrite cmp_antisym, E. discriminate.
Qed.

Lemma isort_sorted (l : list A) : Sorted (cmp_le cmp) (isort cmp l).
Proof. induction l; simpl; [constructor|by apply insert_by_sorted]. Qed.

Lemma cmp_le_transitive : Relations_1.Transitive (cmp_le cmp).
Proof. intros x y z. apply cmp_le_trans. Qed.

End Sorting.

(** Without ORDER BY, the insertion sort keeps the rows' order. *)
Lemma isort_no_order {A} (l : list A) : isort (lex_compare []) l = l.
Proof. induction l as [|x l IH]; [done|]. cbn [isort]. rewrite IH. by destruct l. Qed.

#[export] Instance isort_engine : OrderEngine.
Proof.
  refine {| order_rows := @isort |}.
  - intros A cmp l. apply isort_perm.
  - intros A cmp l Hl. apply isort_sorted, Hl.
Defined.

(** ** Executing a query *)

Section ExecLemmas.
Context `{OrderEngine}.

Lemma all_perm {A} (q : query A) : Permutation (all q) (selected q).
Proof. apply order_rows_perm. Qed.

Lemma all_sorted {A} (q : query A) : Sorted (cmp_le (lex_compare (q_order q))) (all q).
Proof. apply order_rows_sorted, lex_compare_laws. Qed.

Lemma in_all {A} (q : query A) (x : A) :
  In x (all q) <-> In x (q_rows q) /\ where_ok (q_where q) x = true.
Proof.
  split.
  - intros Hx. apply (Permutation_in _ (all_perm q)) in Hx. by apply List.filter_In.
  - intros Hx. apply (Permutation_in _ (Permutation_sym (all_perm q))). by apply List.filter_In.
Qed.

Lemma where_ok_app {A} (ws1 ws2 : list (A -> bool)) (x : A) :
  where_ok (ws1 ++ ws2) x = where_ok ws1 x && where_ok ws2 x.
Proof. unfold where_ok. apply forallb_app. Qed.

Lemma where_ok_filter {A} (q : query A) (p : A -> bool) (x : A) :
  where_ok (q_where (filter q p)) x = where_ok (q_where q) x && p x.
Proof. simpl. rewrite where_ok_app. simpl. by rewrite andb_true_r. Qed.

End ExecLemmas.

Section FirstLemmas.
Context `{OrderEngine}.

(** [query.first()] on a query whose selected rows are all [x]. *)
Lemma first_unique {A} (q : query A) (x : A) :
  In x (selected q) -> (forall y, In y (selected q) -> y = x) -> first q = Some x.
Proof.
  intros Hx Hall. unfold first.
  pose proof (all_perm q) as Hp.
  destruct (all q) as [|y ys] eqn:E.
  - apply Permutation_nil in Hp. rewrite Hp in Hx. done.
  - simpl. f_equal. apply Hall. apply (Permutation_in _ Hp). by left.
Qed.

Lemma first_none {A} (q : query A) :
  (forall y, ~ In y (selected q)) -> first q = None.
Proof.
  intros Hn. unfold first. pose proof (all_perm q) as Hp.
  destruct (all q) as [|y ys]; [done|]. exfalso. apply (Hn y).
  apply (Permutation_in _ Hp). by left.
Qed.
Lemma first_in {A} (q : query A) (x : A) : first q = Some x -> In x (selected q).
Proof.
  unfold first. intros Hf. apply (Permutation_in _ (all_perm q)).
  destruct (all q); simpl in Hf; [discriminate|]. injection Hf as ->. by left.
Qed.

Lemma in_selected_filter {A} (q : query A) (p : A -> bool) (x : A) :
  In x (selected (filter q p)) <-> In x (selected q) /\ p x = true.
Proof.
  unfold selected. rewrite !List.filter_In, where_ok_filter, andb_true_iff. simpl. tauto.
Qed.

Lemma in_selected_select {A} (rows : list A) (x : A) : In x (selected (select rows)) <-> In x rows.
Proof. unfold selected. rewrite List.filter_In. simpl. tauto. Qed.
End FirstLemmas.

(** One ascending ORDER BY term on an integer key sorts by [<=]. *)
Lemma cmp_le_asc_int {A} (k : A -> Z) (x y : A) :
  cmp_le (lex_compare [OrderTerm (fun r => CInt (k r)) Asc]) x y -> k x <= k y.
Proof. unfold cmp_le, Z.le. simpl. unfold term_compare. simpl. destruct (k x ?= k y); simpl; congruence. Qed.

Lemma cmp_le_desc_int {A} (k : A -> Z) (x y : A) :
  cmp_le (lex_compare [OrderTerm (fun r => CInt (k r)) Desc]) x y -> k y <= k x.
Proof. unfold cmp_le, Z.le. simpl. unfold term_compare. simpl. destruct (k y ?= k x); simpl; congruence. Qed.

(** One ORDER BY term on a text key sorts by [String.compare]. *)
Lemma cmp_le_asc_text {A} (k : A -> string) (x y : A) :
  cmp_le (lex_compare [OrderTerm (fun r => CText (k r)) Asc]) x y ->
  String.compare (k x) (k y) <> Gt.
Proof. unfold cmp_le. simpl. unfold term_compare. simpl. by destruct (String.compare (k x) (k y)). Qed.

Lemma cmp_le_desc_text {A} (k : A -> string) (x y : A) :
  cmp_le (lex_compare [OrderTerm (fun r => CText (k r)) Desc]) x y ->
  String.compare (k y) (k x) <> Gt.
Proof. unfold cmp_le. simpl. unfold term_compare. simpl. by destruct (String.compare (k y) (k x)). Qed.

(** ** The helpers *)

(** [apply_date_filters] only adds WHERE conjuncts, [sort_query_by] only
    adds an ORDER BY term: composed in either order they build the same
    query. *)
Lemma apply_date_filters_order_by {A} (st : A -> Z) (q : query A) t sd ed :
  apply_date_filters st (order_by q t) sd ed = order_by (apply_date_filters st q sd ed) t.
Proof. destruct sd, ed; reflexivity. Qed.

Lemma apply_date_filters_rows {A} (st : A -> Z) (q : query A) sd ed :
  q_rows (apply_date_filters st q sd ed) = q_rows q /\
  q_order (apply_date_filters st q sd ed) = q_order q.
Proof. destruct sd, ed; done. Qed.

(** The day-range test [apply_date_filters] adds. *)
Definition in_day_range (start_date end_date : option Z) (t : Z) : bool :=
  match start_date with Some d => start_of_day d <=? t | None => true end &&
  match end_date with Some d => t <=? end_of_day d | None => true end.

Lemma where_ok_apply_date_filters {A} (st : A -> Z) (q : query A) sd ed (r : A) :
  where_ok (q_where (apply_date_filters st q sd ed)) r =
  where_ok (q_where q) r && in_day_range sd ed (st r).
Proof.
  unfold apply_date_filters, in_day_range.
  destruct sd, ed; rewrite ?where_ok_filter; simpl;
    rewrite ?andb_true_r, ?andb_assoc; done.
Qed.

Lemma start_of_day_le (d : Z) : start_of_day d <= d.
Proof. unfold start_of_day, day_us. pose proof (Z.mod_pos_bound d 86400000000). lia. Qed.

Lemma end_of_day_ge (d : Z) : d <= end_of_day d.
Proof.
  unfold end_of_day, start_of_day, day_us. pose proof (Z.mod_pos_bound d 86400000000). lia.
Qed.

Lemma sort_query_by_selected {A} (q q' : query A) attr ot :
  sort_query_by q attr ot = Ok q' -> selected q' = selected q /\ q_rows q' = q_rows q.
Proof.
  unfold sort_query_by. destruct attr as [a|]; [|by intros [= <-]].
  case_bool_decide; [by intros [= <-]|]. case_bool_decide; [by intros [= <-]|].
  discriminate.
Qed.

Lemma sort_query_by_asc {A} (q : query A) a :
  sort_query_by q (Some a) (Some "asc"%string) = Ok (order_by q (OrderTerm a Asc)).
Proof. reflexivity. Qed.

Lemma sort_query_by_desc {A} (q : query A) a :
  sort_query_by q (Some a) (Some "desc"%string) = Ok (order_by q (OrderTerm a Desc)).
Proof. reflexivity. Qed.

Lemma sort_query_by_invalid {A} (q : query A) a ot :
  ot <> Some "asc"%string -> ot <> Some "desc"%string ->
  sort_query_by q (Some a) ot =
  Err (HTTPException 400 ("Order type is either asc or desc, you entered " ++ py_fmt_opt ot)%string).
Proof.
  intros H1 H2. unfold sort_query_by.
  rewrite !bool_decide_eq_false_2 by done. done.
Qed.

(** The rows [apply_date_filters] keeps: those of the query in the day
    range. *)
Lemma selected_apply_date_filters {A} (st : A -> Z) (q : query A) sd ed :
  selected (apply_date_filters st q sd ed) =
  List.filter (fun r => in_day_range sd ed (st r)) (selected q).
Proof.
  unfold selected. rewrite (proj1 (apply_date_filters_rows st q sd ed)), <- filter_andb.
  apply List.filter_ext. intros r. apply where_ok_apply_date_filters.
Qed.


End Query.
