(* ===== verification/DateTime.v ===== *)
(** * Python datetimes: calendar fields, offsets, the microsecond axis, text

    A Python [datetime] is its calendar fields and, when it is aware, its
    UTC offset.  The model of [Query] and of the store reads a datetime as
    its clock value: the microseconds of its calendar fields since
    1970-01-01T00:00:00 on the proleptic Gregorian calendar ([to_us], with
    [days_from_civil]); the offset is not part of it, as the SQLite
    [DateTime] column stores the clock fields only.  [py_datetime_gt] is
    Python's [>] on datetimes: instants for two aware ones, clocks for two
    naive ones, [TypeError] for a naive and an aware one.  [parse_iso] is
    the parse of a datetime field by the request validation (pydantic, a
    library, modelled from the ISO 8601 forms it accepts), and
    [iso_format] the [strftime("%Y-%m-%dT%H:%M:%S")] of src/populate.py. *)

From S2P Require Import Prelude PyStr Query.
Import PyStr Query.

Module DateTime.

Local Open Scope Z_scope.

(** [datetime.datetime(year, month, day, hour, minute, second, microsecond)] *)
Record datetime := mkDatetime {
  year : Z; month : Z; day : Z;
  hour : Z; minute : Z; second : Z; microsecond : Z
}.

Definition is_leap (y : Z) : bool :=
  (y mod 4 =? 0) && (negb (y mod 100 =? 0) || (y mod 400 =? 0)).

Definition days_in_month (y m : Z) : Z :=
  if m =? 2 then (if is_leap y then 29 else 28)
  else if (m =? 4) || (m =? 6) || (m =? 9) || (m =? 11) then 30 else 31.

(** The checks of the [datetime] constructor ([MINYEAR = 1],
    [MAXYEAR = 9999]). *)
Definition valid (dt : datetime) : bool :=
  (1 <=? year dt) && (year dt <=? 9999) && (1 <=? month dt) && (month dt <=? 12) &&
  (1 <=? day dt) && (day dt <=? days_in_month (year dt) (month dt)) &&
  (0 <=? hour dt) && (hour dt <=? 23) && (0 <=? minute dt) && (minute dt <=? 59) &&
  (0 <=? second dt) && (second dt <=? 59) &&
  (0 <=? microsecond dt) && (microsecond dt <=? 999999).

(** Days from 1970-01-01 to [y-m-d] (H. Hinnant's [days_from_civil]). *)
Definition days_from_civil (y m d : Z) : Z :=
  let y := if m <=? 2 then y - 1 else y in
  let era := y / 400 in
  let yoe := y - era * 400 in
  let doy := (153 * ((m + 9) mod 12) + 2) / 5 + d - 1 in
  let doe := yoe * 365 + yoe / 4 - yoe / 100 + doy in
  era * 146097 + doe - 719468.

(** The time of day, in microseconds. *)
Definition time_us (dt : datetime) : Z :=
  ((hour dt * 60 + minute dt) * 60 + second dt) * 1000000 + microsecond dt.

(** The point of the microsecond axis a datetime denotes. *)
Definition to_us (dt : datetime) : Z :=
  days_from_civil (year dt) (month dt) (day dt) * day_us + time_us dt.

(** ** Text *)

Definition digit (n : Z) : Ascii.ascii := Ascii.ascii_of_nat (48 + Z.to_nat n).

(** [%m], [%d], [%H], [%M], [%S]: two digits, zero-padded. *)
Definition pad2 (n : Z) : string :=
  String (digit (n / 10)) (String (digit (n mod 10)) EmptyString).

(** [dt.strftime("%Y-%m-%dT%H:%M:%S")]; [%Y] prints the year's decimal
    digits. *)
Definition iso_format (dt : datetime) : string :=
  (py_str_int (year dt) ++ "-" ++ pad2 (month dt) ++ "-" ++ pad2 (day dt) ++ "T" ++
   pad2 (hour dt) ++ ":" ++ pad2 (minute dt) ++ ":" ++ pad2 (second dt))%string.

(** The parse of a datetime field by the request validation (pydantic's
    ISO 8601 grammar): [YYYY-MM-DD], optionally followed by [T], [t] or a
    space and [HH:MM], optional [:SS] and an optional fraction of one to
    six digits, and an optional offset [Z], [z], [+HH:MM], [-HH:MM],
    [+HHMM] or [-HHMM].  The result is the calendar fields and the UTC
    offset in microseconds ([None]: a naive datetime); a date without a
    time is midnight.  Unix timestamps are not modelled. *)

Definition digit_val (c : Ascii.ascii) : option Z :=
  let n := Z.of_nat (Ascii.nat_of_ascii c) - 48 in
  if (0 <=? n) && (n <=? 9) then Some n else None.

Fixpoint digits_acc (acc : Z) (l : list Ascii.ascii) : option Z :=
  match l with
  | [] => Some acc
  | c :: l' => v ← digit_val c; digits_acc (acc * 10 + v) l'
  end.

(** The value of a non-empty run of decimal digits. *)
Definition digits (l : list Ascii.ascii) : option Z :=
  match l with [] => None | _ => digits_acc 0 l end.

(** The longest prefix of digits and the rest. *)
Fixpoint span_digits (l : list Ascii.ascii) : list Ascii.ascii * list Ascii.ascii :=
  match l with
  | c :: l' =>
      match digit_val c with
      | Some _ => let '(ds, r) := span_digits l' in (c :: ds, r)
      | None => ([], l)
      end
  | [] => ([], [])
  end.

(** [.ffffff]: one to six digits, as microseconds. *)
Definition fraction (ds : list Ascii.ascii) : option Z :=
  if (1 <=? Z.of_nat (length ds)) && (Z.of_nat (length ds) <=? 6) then
    v ← digits ds; Some (v * 10 ^ (6 - Z.of_nat (length ds)))
  else None.

(** The offset: [Z] or [z] is UTC, [+HH:MM] / [+HHMM] east of UTC. *)
Definition offset (sg h1 h2 m1 m2 : Ascii.ascii) : option Z :=
  h ← digits [h1; h2]; m ← digits [m1; m2];
  if (h <=? 23) && (m <=? 59) then
    let v := (h * 3600 + m * 60) * 1000000 in
    if Ascii.eqb sg "+" then Some v else if Ascii.eqb sg "-" then Some (- v) else None
  else None.

Definition parse_tz (l : list Ascii.ascii) : option (option Z) :=
  match l with
  | [] => Some None
  | [c] => if Ascii.eqb c "Z" || Ascii.eqb c "z" then Some (Some 0) else None
  | [sg; h1; h2; c; m1; m2] => if Ascii.eqb c ":" then option_map Some (offset sg h1 h2 m1 m2) else None
  | [sg; h1; h2; m1; m2] => option_map Some (offset sg h1 h2 m1 m2)
  | _ => None
  end.

(** [HH:MM[:SS[.f]]] and the offset: hour, minute, second, microsecond,
    offset. *)
Definition parse_time (l : list Ascii.ascii) : option (Z * Z * Z * Z * option Z) :=
  match l with
  | h1 :: h2 :: c :: i1 :: i2 :: r =>
      if negb (Ascii.eqb c ":") then None else
      h ← digits [h1; h2]; mi ← digits [i1; i2];
      match r with
      | c2 :: s1 :: s2 :: r2 =>
          if Ascii.eqb c2 ":" then
            se ← digits [s1; s2];
            match r2 with
            | c3 :: r3 =>
                if Ascii.eqb c3 "." then
                  let '(ds, r4) := span_digits r3 in
                  us ← fraction ds; tz ← parse_tz r4; Some (h, mi, se, us, tz)
                else tz ← parse_tz r2; Some (h, mi, se, 0, tz)
            | [] => Some (h, mi, se, 0, None)
            end
          else tz ← parse_tz r; Some (h, mi, 0, 0, tz)
      | _ => tz ← parse_tz r; Some (h, mi, 0, 0, tz)
      end
  | _ => None
  end.

Definition parse_iso (s : string) : option (datetime * option Z) :=
  match list_ascii_of_string s with
  | y1 :: y2 :: y3 :: y4 :: c1 :: m1 :: m2 :: c2 :: d1 :: d2 :: rest =>
      if negb (Ascii.eqb c1 "-" && Ascii.eqb c2 "-") then None else
      y ← digits [y1; y2; y3; y4]; mo ← digits [m1; m2]; d ← digits [d1; d2];
      t ← match rest with
          | [] => Some (0, 0, 0, 0, None)
          | c :: r => if Ascii.eqb c "T" || Ascii.eqb c "t" || Ascii.eqb c " "
                      then parse_time r else None
          end;
      let '(h, mi, se, us, tz) := t in
      let dt := mkDatetime y mo d h mi se us in
      if valid dt then Some (dt, tz) else None
  | _ => None
  end.

(** ** Comparing Python datetimes *)

(** [a > b] for two datetimes given by their clock value and offset: two
    aware datetimes compare as instants, two naive ones by their clock,
    and a naive with an aware one raises [TypeError]. *)
Definition py_datetime_gt (a : Z) (ta : option Z) (b : Z) (tb : option Z) : result bool :=
  match ta, tb with
  | None, None => Ok (a >? b)
  | Some oa, Some ob => Ok (a - oa >? b - ob)
  | _, _ => Err (TypeError "can't compare offset-naive and offset-aware datetimes")
  end.

(** ** Theorems *)

Lemma valid_bounds (dt : datetime) :
  valid dt = true ->
  1 <= year dt <= 9999 /\ 1 <= month dt <= 12 /\
  1 <= day dt <= days_in_month (year dt) (month dt) /\ 0 <= hour dt <= 23 /\
  0 <= minute dt <= 59 /\ 0 <= second dt <= 59 /\ 0 <= microsecond dt <= 999999.
Proof. unfold valid. intros Hv. repeat rewrite andb_true_iff in Hv. rewrite !Z.leb_le in Hv. lia. Qed.

Lemma time_us_bounds (dt : datetime) : valid dt = true -> 0 <= time_us dt < day_us.
Proof. intros Hv. apply valid_bounds in Hv. unfold time_us, day_us. lia. Qed.

(** The microsecond axis of [Query] against the calendar: [start_of_day]
    and [end_of_day] of a valid datetime are midnight and the last
    microsecond of its day, the values of [datetime.combine(d, time.min)]
    and [datetime.combine(d, time.max)]. *)
Lemma day_bounds_calendar (dt : datetime) :
  valid dt = true ->
  start_of_day (to_us dt) = to_us (mkDatetime (year dt) (month dt) (day dt) 0 0 0 0) /\
  end_of_day (to_us dt) = to_us (mkDatetime (year dt) (month dt) (day dt) 23 59 59 999999).
Proof.
  intros Hv. pose proof (time_us_bounds dt Hv) as Ht.
  assert (Hmod : to_us dt mod day_us = time_us dt).
  { unfold to_us. rewrite Z.add_comm, Z_mod_plus_full. by apply Z.mod_small. }
  unfold end_of_day, start_of_day. rewrite Hmod.
  unfold to_us, time_us. cbn [year month day hour minute second microsecond]. unfold day_us. lia.
Qed.

End DateTime.
