(* ===== verification/Search.v ===== *)
(** * [person_search] of src/api/helpers.py

    The name search builds [db.query(models.Person).filter(...)]: with a
    space in the search string, the first two pieces of
    [search_string.split(" ")] must occur in the first and in the last
    name; without one, the whole string must occur in either name.
    Occurrence is SQL [LIKE '%t%'] on lower-cased text.  The theorems
    state the rows the query selects, as containment of strings, and
    show the quirks of wildcards and repeated spaces. *)

From S2P Require Import Prelude PyStr SqlLike Models Query.
Import PyStr SqlLike Query Store.

Module Search.

Local Open Scope string_scope.

Definition person_search (search_string : string) (db : DB) : result (query Person.t) :=
  let pattern := "%" ++ search_string ++ "%" in
  if char_in " " search_string then
    match firstn 2 (split_on " " search_string) with
    | [first_name; last_name] =>
        Ok (Query.filter (select (persons db)) (fun p =>
              like (lower ("%" ++ first_name ++ "%")) (lower (Person.first_name p)) &&
              like (lower ("%" ++ last_name ++ "%")) (lower (Person.last_name p))))
    | _ => Err (ValueError "not enough values to unpack (expected 2)")
    end
  else
    Ok (Query.filter (select (persons db)) (fun p =>
          like (lower pattern) (lower (Person.first_name p)) ||
          like (lower pattern) (lower (Person.last_name p)))).

(** [query = db.query(models.Person)] and, [if search_string:] (false
    for [None] and for the empty string), [query = person_search(
    search_string, db)]: the persons query both routers start from. *)
Definition search_query (search_string : option string) (db : DB) : result (query Person.t) :=
  match search_string with
  | Some s => if String.eqb s "" then Ok (select (persons db)) else person_search s db
  | None => Ok (select (persons db))
  end.

(** ** Theorems *)

(** The unpacking [first_name, last_name = ...[:2]] never fails: a string
    with a space splits into at least two pieces. *)
Lemma person_search_ok (s : string) (db : DB) :
  exists q, person_search s db = Ok q /\ q_rows q = persons db /\ q_order q = [].
Proof.
  unfold person_search. destruct (char_in " " s) eqn:Hsp; [|eauto].
  destruct (split_on_length " " s) as [_ H2]. specialize (H2 Hsp).
  destruct (split_on " " s) as [|a [|b rest]]; simpl in H2; try lia.
  simpl. eauto.
Qed.

(** Both branches query the whole [persons] table, without order. *)
Lemma search_query_rows (search_string : option string) (db : DB) (q : query Person.t) :
  search_query search_string db = Ok q -> q_rows q = persons db /\ q_order q = [].
Proof.
  unfold search_query. destruct search_string as [s|]; [|by intros [= <-]].
  destruct (String.eqb s "") eqn:E; [by intros [= <-]|].
  destruct (person_search_ok s db) as (q' & -> & Hr & Ho). intros [= <-]. done.
Qed.

Lemma selected_select {A} (rows : list A) : selected (select rows) = rows.
Proof. unfold selected. simpl. apply filter_all_true. done. Qed.

Lemma selected_filter_select {A} (rows : list A) (f : A -> bool) :
  selected (Query.filter (select rows) f) = List.filter f rows.
Proof.
  unfold selected. simpl. apply List.filter_ext. intros x.
  unfold where_ok. simpl. by rewrite andb_true_r.
Qed.

Lemma split_pieces_no_wildcard (s t : string) :
  no_wildcard s = true -> In t (split_on " " s) -> no_wildcard t = true.
Proof.
  unfold no_wildcard. intros Hw Ht.
  apply andb_true_iff in Hw as [H1 H2]. apply negb_true_iff in H1, H2.
  destruct (char_in "%" t) eqn:E1.
  { rewrite (split_on_char_in " " "%" s t Ht E1) in H1. discriminate. }
  destruct (char_in "_" t) eqn:E2.
  { rewrite (split_on_char_in " " "_" s t Ht E2) in H2. discriminate. }
  done.
Qed.

(** C2. A search string without a space and without [%] or [_] makes [person_search] select exactly the persons whose first name or last name contains it, ignoring ASCII case. *)
Theorem person_search_one_word (s : string) (db : DB) :
  char_in " " s = false -> no_wildcard s = true ->
  exists q, person_search s db = Ok q /\
    selected q = List.filter (fun p =>
      is_substring (lower s) (lower (Person.first_name p)) ||
      is_substring (lower s) (lower (Person.last_name p))) (persons db).
Proof.
  intros Hsp Hw. unfold person_search. rewrite Hsp.
  eexists. split; [reflexivity|]. rewrite selected_filter_select.
  apply List.filter_ext. intros p. by rewrite !like_lower_contains.
Qed.

(** C3. A search string with a space is split on [" "]; when it holds no [%] or [_], [person_search] selects exactly the persons whose first name contains the first piece and whose last name contains the second, ignoring ASCII case; later pieces are ignored. *)
Theorem person_search_two_words (s t1 t2 : string) (rest : list string) (db : DB) :
  split_on " " s = t1 :: t2 :: rest -> no_wildcard s = true ->
  exists q, person_search s db = Ok q /\
    selected q = List.filter (fun p =>
      is_substring (lower t1) (lower (Person.first_name p)) &&
      is_substring (lower t2) (lower (Person.last_name p))) (persons db).
Proof.
  intros Hsplit Hw.
  assert (Hsp : char_in " " s = true).
  { destruct (char_in " " s) eqn:E; [done|].
    rewrite split_on_no_sep in Hsplit by done. discriminate. }
  assert (no_wildcard t1 = true /\ no_wildcard t2 = true) as [Hw1 Hw2].
  { split; apply (split_pieces_no_wildcard s);
      [done| rewrite Hsplit; simpl; auto | done | rewrite Hsplit; simpl; auto]. }
  unfold person_search. rewrite Hsp, Hsplit. cbn [firstn].
  eexists. split; [reflexivity|]. rewrite selected_filter_select.
  apply List.filter_ext. intros p. by rewrite !like_lower_contains.
Qed.

(** C35. Wildcards in the search string are not escaped, as the spec documents: the search string ["%"] has no space, its pattern ["%%%"] matches every name, and [person_search] selects every person. *)
Theorem person_search_percent_all (db : DB) :
  exists q, person_search "%" db = Ok q /\ selected q = persons db.
Proof.
  eexists. split; [reflexivity|]. rewrite selected_filter_select.
  apply filter_all_true. intros p _. apply orb_true_intro. left.
  simpl. apply any_suffix_true, any_suffix_true, like_percent.
Qed.


End Search.
