(* ===== verification/DisplayTag.v ===== *)
(** * [generate_display_tag] of src/api/helpers.py

    The tag is the first three letters of the first name and the first
    two of the last name, lower-cased, followed by [str(random.randint(100,
    999))]; the [while] loop draws again while the tag is [in]
    [db.query(models.Person.display_tag).all()].  That query returns
    one-column [Row]s, and a [str] is never [==] to a [Row]: the loop
    test is always false, so the first candidate is returned whatever the
    store holds.  The draws of [random.randint] are a stream [randint],
    the [while] loop has fuel, and the result carries the index of the
    next draw. *)

From S2P Require Import Prelude PyStr Models Schemas.
Import PyStr Store Schemas.

Module DisplayTag.

Section Gen.

(** The [k]-th value [random.randint(100, 999)] returns. *)
Variable randint : nat -> Z.

(** [db.query(models.Person.display_tag).all()]: one-column rows. *)
Definition display_tag_rows (db : DB) : list pyval :=
  map (fun p => PyRow [match Person.display_tag p with
                       | Some t => PyString t
                       | None => PyNone
                       end]) (persons db).

(** [person.first_name[0:3] + person.last_name[0:2]] *)
Definition tag_prefix (person : PersonIn) : string :=
  (py_slice (pin_first_name person) 0 3 ++ py_slice (pin_last_name person) 0 2)%string.

(** The [while] loop, from the draw index [k] with the current [tag]; the
    body builds the new tag without [.lower()].  [None] when the fuel
    runs out. *)
Fixpoint tag_loop (fuel : nat) (person : PersonIn) (db : DB) (k : nat) (tag : string)
    : option (string * nat) :=
  if py_in (PyString tag) (display_tag_rows db) then
    match fuel with
    | O => None
    | S fuel' =>
        let prefix := tag_prefix person in
        let suffix := randint k in
        tag_loop fuel' person db (S k) (prefix ++ py_str_int suffix)%string
    end
  else Some (tag, k).

Definition generate_display_tag (fuel : nat) (person : PersonIn) (db : DB) (k : nat)
    : option (string * nat) :=
  let prefix := tag_prefix person in
  let suffix := randint k in
  let tag := (lower prefix ++ py_str_int suffix)%string in
  tag_loop fuel person db (S k) tag.

End Gen.

(** ** Theorems *)

Lemma display_tag_rows_rows (db : DB) :
  exists rows, display_tag_rows db = map PyRow rows.
Proof.
  unfold display_tag_rows. eexists. rewrite <- (map_map _ PyRow). reflexivity.
Qed.

(** The loop test [tag in db.query(models.Person.display_tag).all()] is
    false for every tag and store. *)
Lemma tag_in_rows_false (tag : string) (db : DB) :
  py_in (PyString tag) (display_tag_rows db) = false.
Proof.
  destruct (display_tag_rows_rows db) as [rows ->]. apply py_in_string_rows.
Qed.

(** The loop with any fuel returns the tag it starts with. *)
Lemma tag_loop_first (randint : nat -> Z) (fuel : nat) (person : PersonIn) (db : DB)
    (k : nat) (tag : string) :
  tag_loop randint fuel person db k tag = Some (tag, k).
Proof. destruct fuel; simpl; by rewrite tag_in_rows_false. Qed.

(** C5. [generate_display_tag] returns its first candidate (lower-cased prefix and the first draw) and consumes exactly one draw, with no fuel needed and whatever tags the store holds: the loop test compares a [str] with [Row]s and is always false. *)
Theorem generate_display_tag_first (randint : nat -> Z) (fuel : nat) (person : PersonIn)
    (db : DB) (k : nat) :
  generate_display_tag randint fuel person db k =
  Some ((lower (tag_prefix person) ++ py_str_int (randint k))%string, S k).
Proof.
  unfold generate_display_tag. apply tag_loop_first.
Qed.

Lemma py_str_int_3digits (z : Z) :
  (100 <= z <= 999)%Z -> String.length (py_str_int z) = 3.
Proof.
  intros Hz. apply Nat.eqb_eq.
  exact (Z_range_forallb (fun n => String.length (py_str_int n) =? 3) 100 900
           ltac:(vm_compute; reflexivity) z ltac:(lia)).
Qed.

Lemma length_tag_prefix (person : PersonIn) : String.length (tag_prefix person) <= 5.
Proof.
  unfold tag_prefix. rewrite length_append.
  pose proof (length_py_slice (pin_first_name person) 0 3).
  pose proof (length_py_slice (pin_last_name person) 0 2). lia.
Qed.

(** C18. With a draw in [100..999], the generated tag has at most 8 characters, the width of the column [display_tag = Column(String(8))]. *)
Theorem generate_display_tag_length (randint : nat -> Z) (fuel : nat) (person : PersonIn)
    (db : DB) (k : nat) (tag : string) (k' : nat) :
  (100 <= randint k <= 999)%Z ->
  generate_display_tag randint fuel person db k = Some (tag, k') ->
  String.length tag <= 8.
Proof.
  intros Hr. unfold generate_display_tag. rewrite tag_loop_first. intros [= <- _].
  rewrite length_append, length_lower, py_str_int_3digits by done.
  pose proof (length_tag_prefix person). lia.
Qed.

End DisplayTag.
