(* ===== verification/Joins.v ===== *)
(** * Joining a shift with its person: src/api/helpers.py

    [shift_join_with_shift_id] and [shift_join_with_person_id] query
    [db.query(models.Shift, models.Person).join(models.Person,
    models.Shift.person_id == models.Person.id)], an inner join: a shift
    whose [person_id] names no person yields no row.  Each joined row
    becomes the dict [joined_shift_dict] ([ShiftOut]). *)

From S2P Require Import Prelude PyStr Models Schemas Query.
Import Store Schemas Query.

Local Open Scope Z_scope.

Module Joins.

(** [joined_shift_dict] *)
Definition to_shift_out (s : Shift.t) (p : Person.t) : ShiftOut :=
  mkShiftOut (Shift.id s) (Shift.start_time s) (Shift.end_time s) (Shift.comment s)
    (Shift.person_id s) (Shift.created_at s) (Shift.updated_at s)
    (Shift.field_A s) (Shift.field_B s) (Shift.field_C s) (Shift.field_D s) (Shift.field_E s)
    (Person.first_name p) (Person.last_name p).

(** The rows of [db.query(Shift, Person).join(Person, Shift.person_id ==
    Person.id)]. *)
Definition shift_person_rows (db : DB) : list (Shift.t * Person.t) :=
  flat_map (fun s => map (fun p => (s, p))
             (List.filter (fun p => Person.id p =? Shift.person_id s) (persons db)))
           (shifts db).

Definition joined_start_time (r : Shift.t * Person.t) : Z := Shift.start_time (fst r).

Section WithEngine.
Context `{OrderEngine}.

Definition shift_join_with_shift_id (shift_id : Z) (db : DB) : option ShiftOut :=
  let shift_query := Query.filter (select (shift_person_rows db))
                       (fun r => Shift.id (fst r) =? shift_id) in
  match first shift_query with
  | Some (shift, person) => Some (to_shift_out shift person)
  | None => None
  end.

Definition shift_join_with_person_id (person_id : Z) (db : DB)
    (start_date end_date : option Z) (sort_by order_type : option string)
    : result (list ShiftOut) :=
  let shift_query := Query.filter (select (shift_person_rows db))
                       (fun r => Shift.person_id (fst r) =? person_id) in
  let shift_query := apply_date_filters joined_start_time shift_query start_date end_date in
  let sorted := if bool_decide (sort_by = Some "start_time"%string)
                then sort_query_by shift_query
                       (Some (fun r => CInt (joined_start_time r))) order_type
                else Ok shift_query in
  match sorted with
  | Ok shift_query =>
      Ok (map (fun r => to_shift_out (fst r) (snd r)) (all shift_query))
  | Err e => Err e
  end.

End WithEngine.

(** ** Theorems *)

Lemma in_shift_person_rows (db : DB) (s : Shift.t) (p : Person.t) :
  In (s, p) (shift_person_rows db) <->
  In s (shifts db) /\ In p (persons db) /\ Person.id p = Shift.person_id s.
Proof.
  unfold shift_person_rows. rewrite in_flat_map. split.
  - intros (s' & Hs' & Hin). apply in_map_iff in Hin as (p' & [= <- <-] & Hp').
    apply List.filter_In in Hp' as [Hp' E]. apply Z.eqb_eq in E. auto.
  - intros (Hs & Hp & E). exists s. split; [done|]. apply in_map_iff.
    exists p. split; [done|]. apply List.filter_In. split; [done|]. by apply Z.eqb_eq.
Qed.

(** The WHERE clause of [shift_join_with_person_id] before sorting. *)
Definition person_shift_filter (person_id : Z) (start_date end_date : option Z)
    (r : Shift.t * Person.t) : bool :=
  (Shift.person_id (fst r) =? person_id) && in_day_range start_date end_date (joined_start_time r).

Section WithEngineLemmas.
Context `{OrderEngine}.

(** [shift_join_with_shift_id] finds a shift whose person exists: the
    join has exactly one row for it, since shift ids and person ids are
    unique. *)
Theorem shift_join_with_shift_id_found (db : DB) (s : Shift.t) (p : Person.t) :
  wf db -> In s (shifts db) -> In p (persons db) -> Person.id p = Shift.person_id s ->
  shift_join_with_shift_id (Shift.id s) db = Some (to_shift_out s p).
Proof.
  intros [Hpid Hsid _ _] Hs Hp Hid. unfold shift_join_with_shift_id.
  rewrite (first_unique _ (s, p)); [done| |].
  - apply List.filter_In. split; [by apply in_shift_person_rows|].
    unfold where_ok. simpl. by rewrite Z.eqb_refl.
  - intros [s' p'] Hin. apply List.filter_In in Hin as [Hin Hw].
    apply in_shift_person_rows in Hin as (Hs' & Hp' & Hid').
    unfold where_ok in Hw. simpl in Hw. rewrite andb_true_r in Hw. apply Z.eqb_eq in Hw.
    assert (s' = s) as -> by (eapply NoDup_map_inj; [exact Hsid|..]; eauto).
    assert (p' = p) as -> by (eapply NoDup_map_inj; [exact Hpid|..]; eauto; congruence).
    done.
Qed.

(** A shift whose [person_id] names no person is not found by the
    join (inner-join semantics). *)
Theorem shift_join_with_shift_id_dangling (db : DB) (sid : Z) :
  (forall s p, In s (shifts db) -> Shift.id s = sid -> In p (persons db) ->
               Person.id p <> Shift.person_id s) ->
  shift_join_with_shift_id sid db = None.
Proof.
  intros Hd. unfold shift_join_with_shift_id. rewrite first_none; [done|].
  intros [s p] Hin. apply List.filter_In in Hin as [Hin Hw].
  apply in_shift_person_rows in Hin as (Hs & Hp & Hid).
  unfold where_ok in Hw. simpl in Hw. rewrite andb_true_r in Hw. apply Z.eqb_eq in Hw.
  exact (Hd s p Hs Hw Hp Hid).
Qed.

Lemma person_id_query_selected (person_id : Z) (db : DB) (sd ed : option Z) :
  selected (apply_date_filters joined_start_time
              (Query.filter (select (shift_person_rows db))
                 (fun r => Shift.person_id (fst r) =? person_id)) sd ed) =
  List.filter (person_shift_filter person_id sd ed) (shift_person_rows db).
Proof.
  unfold selected. destruct (apply_date_filters_rows joined_start_time
    (Query.filter (select (shift_person_rows db)) (fun r => Shift.person_id (fst r) =? person_id))
    sd ed) as [-> _].
  apply List.filter_ext. intros r. rewrite where_ok_apply_date_filters, where_ok_filter.
  done.
Qed.

Lemma person_id_query_order (person_id : Z) (db : DB) (sd ed : option Z) :
  q_order (apply_date_filters joined_start_time
             (Query.filter (select (shift_person_rows db))
                (fun r => Shift.person_id (fst r) =? person_id)) sd ed) = [].
Proof. apply apply_date_filters_rows. Qed.

(** C10. The shifts [shift_join_with_person_id] lists are, up to order, the joined rows of that person whose start time lies in the inclusive day range of [start_date] and [end_date]. *)
Theorem shift_join_with_person_id_rows (person_id : Z) (db : DB) (sd ed : option Z)
    (sort_by order_type : option string) (rows : list ShiftOut) :
  shift_join_with_person_id person_id db sd ed sort_by order_type = Ok rows ->
  Permutation rows (map (fun r => to_shift_out (fst r) (snd r))
                     (List.filter (person_shift_filter person_id sd ed) (shift_person_rows db))).
Proof.
  unfold shift_join_with_person_id.
  destruct (if bool_decide _ then _ else _) as [q'|e] eqn:Hq; [|discriminate].
  intros [= <-]. apply Permutation_map.
  rewrite <- person_id_query_selected.
  case_bool_decide; [apply sort_query_by_selected in Hq as [<- _]|injection Hq as <-];
    apply all_perm.
Qed.

(** C9. The shifts [shift_join_with_person_id] lists with [sort_by = "start_time"] and [order_type = "desc"] have non-increasing start times. *)
Theorem shift_join_with_person_id_desc (person_id : Z) (db : DB) (sd ed : option Z)
    (rows : list ShiftOut) :
  shift_join_with_person_id person_id db sd ed (Some "start_time"%string) (Some "desc"%string)
    = Ok rows ->
  Sorted (fun a b => so_start_time b <= so_start_time a) rows.
Proof.
  unfold shift_join_with_person_id. rewrite bool_decide_eq_true_2 by done.
  rewrite sort_query_by_desc. intros [= <-].
  eapply Sorted_map_impl; [|apply all_sorted].
  intros x y Hxy. simpl in Hxy. rewrite person_id_query_order in Hxy.
  apply (cmp_le_desc_int joined_start_time) in Hxy. done.
Qed.

Theorem shift_join_with_person_id_asc (person_id : Z) (db : DB) (sd ed : option Z)
    (rows : list ShiftOut) :
  shift_join_with_person_id person_id db sd ed (Some "start_time"%string) (Some "asc"%string)
    = Ok rows ->
  Sorted (fun a b => so_start_time a <= so_start_time b) rows.
Proof.
  unfold shift_join_with_person_id. rewrite bool_decide_eq_true_2 by done.
  rewrite sort_query_by_asc. intros [= <-].
  eapply Sorted_map_impl; [|apply all_sorted].
  intros x y Hxy. simpl in Hxy. rewrite person_id_query_order in Hxy.
  apply (cmp_le_asc_int joined_start_time) in Hxy. done.
Qed.

(** An [order_type] other than ["asc"] or ["desc"] with [sort_by =
    "start_time"] is a 400 error. *)
Lemma shift_join_with_person_id_invalid (person_id : Z) (db : DB) (sd ed : option Z)
    (order_type : option string) :
  order_type <> Some "asc"%string -> order_type <> Some "desc"%string ->
  shift_join_with_person_id person_id db sd ed (Some "start_time"%string) order_type =
  Err (HTTPException 400
         ("Order type is either asc or desc, you entered " ++ py_fmt_opt order_type)%string).
Proof.
  intros H1 H2. unfold shift_join_with_person_id. rewrite bool_decide_eq_true_2 by done.
  by rewrite sort_query_by_invalid.
Qed.


End WithEngineLemmas.


End Joins.
