(* ===== verification/Pagination.v ===== *)
(** * The pagination wrapper (fastapi_pagination)

    The routers return [paginate(...)] of a query or of a list with the
    request's [page] and [size] parameters (defaults 1 and 50).  The
    library is not part of the repository: [paginate] is modelled from
    the spec ("paginate(sequence, page, size) -> Page": the items of the
    page, the total, the page and its size).  For a query, the library
    applies [LIMIT]/[OFFSET] to the same ordered rows, which is slicing
    the list of all rows. *)

From S2P Require Import Prelude.

Module Pagination.

(** [Params]: [page >= 1], [size >= 1] (validated by the library). *)
Record Params := mkParams { page : nat; size : nat }.

Definition default_params : Params := mkParams 1 50.

(** [Page[T]]: the page's items and the paging metadata. *)
Record Page (A : Type) := mkPage {
  items : list A;
  total : nat;
  page_no : nat;
  page_size : nat;
  pages : nat
}.
Arguments mkPage {A}.
Arguments items {A}.
Arguments total {A}.
Arguments page_no {A}.
Arguments page_size {A}.
Arguments pages {A}.

(** The number of pages: [ceil(total / size)]. *)
Definition num_pages (total size : nat) : nat :=
  match size with O => O | S _ => (total + size - 1) / size end.

Definition paginate {A} (params : Params) (l : list A) : Page A :=
  let off := (page params - 1) * size params in
  mkPage (firstn (size params) (skipn off l)) (length l) (page params) (size params)
    (num_pages (length l) (size params)).

(** ** Theorems *)

Lemma length_items {A} (params : Params) (l : list A) :
  length (items (paginate params l)) <= size params.
Proof. simpl. rewrite length_firstn. lia. Qed.

(** The pages [1 .. n] of a list, concatenated. *)
Fixpoint pages_from {A} (size : nat) (l : list A) (fuel : nat) : list A :=
  match fuel with
  | O => []
  | S fuel' => firstn size l ++ pages_from size (skipn size l) fuel'
  end.

Lemma pages_from_all {A} (size : nat) (l : list A) (n : nat) :
  length l <= n * size -> pages_from size l n = l.
Proof.
  revert l. induction n as [|n IH]; intros l Hl; simpl.
  - simpl in Hl. by destruct l; [|simpl in Hl; lia].
  - rewrite IH; [apply take_drop|]. rewrite length_skipn. lia.
Qed.

Lemma paginate_page_items {A} (size : nat) (l : list A) (i : nat) :
  items (paginate (mkParams (S i) size) l) = firstn size (skipn (i * size) l).
Proof. simpl. by rewrite Nat.sub_0_r. Qed.

Lemma concat_pages {A} (size : nat) (l : list A) (n k : nat) :
  concat (map (fun i => firstn size (skipn (i * size) l)) (seq k n)) =
  pages_from size (skipn (k * size) l) n.
Proof.
  revert k. induction n as [|n IH]; intros k; simpl; [done|].
  rewrite IH, skipn_skipn. repeat f_equal. all: lia.
Qed.

Lemma num_pages_covers (total size : nat) :
  1 <= size -> total <= num_pages total size * size.
Proof.
  intros Hs. destruct size as [|s]; [lia|]. unfold num_pages.
  pose proof (Nat.div_mod_eq (total + S s - 1) (S s)).
  pose proof (Nat.mod_upper_bound (total + S s - 1) (S s)). lia.
Qed.

(** Round trip: the items of pages [1 .. pages], concatenated, are the
    whole list. *)
Theorem paginate_concat {A} (size : nat) (l : list A) :
  1 <= size ->
  concat (map (fun i => items (paginate (mkParams (S i) size) l))
              (seq 0 (num_pages (length l) size))) = l.
Proof.
  intros Hs. erewrite map_ext; [|intros i; apply paginate_page_items].
  rewrite concat_pages. simpl. apply pages_from_all. by apply num_pages_covers.
Qed.

End Pagination.
