(* ===== verification/Auth.v ===== *)
(** * The API-key dependency [get_api_key] of src/dependencies.py

    Every router depends on [get_api_key].  Its argument is the value of
    the security scheme [APIKeyHeader(name="access_token",
    auto_error=False)] ([api_key_header]): the header's value, or [None]
    when the header is absent or empty (FastAPI's [if not api_key: return
    None]).  It must equal [os.environ.get("API_KEY")] (unset: [None]),
    else 403.  Both sides are optional, so a request without the header
    passes when the server has no [API_KEY]; and no request passes when
    [API_KEY] is set to the empty string. *)

From S2P Require Import Prelude.

Module Auth.

(** [APIKeyHeader(name="access_token", auto_error=False)]: the header, an
    empty one read as missing. *)
Definition api_key_header (access_token : option string) : option string :=
  match access_token with
  | Some EmptyString => None
  | _ => access_token
  end.

Definition get_api_key (api_key_header : option string) (env_api_key : option string)
    : result (option string) :=
  if bool_decide (api_key_header = env_api_key) then Ok api_key_header
  else Err (HTTPException 403 "Could not validate API KEY"%string).

Lemma api_key_header_nonempty (t : option string) : api_key_header t <> Some EmptyString.
Proof. destruct t as [[|c s]|]; done. Qed.

Lemma get_api_key_ok (h env : option string) : h = env -> get_api_key h env = Ok h.
Proof. intros Hk. unfold get_api_key. by rewrite bool_decide_eq_true_2. Qed.

Lemma get_api_key_fail (h env : option string) :
  h <> env -> get_api_key h env = Err (HTTPException 403 "Could not validate API KEY"%string).
Proof. intros Hk. unfold get_api_key. by rewrite bool_decide_eq_false_2. Qed.

End Auth.
