(* ===== verification/PersonRouter.v ===== *)
(** * The person router, src/api/routers/person.py

    Every handler is a computation in [St DB] (the store), run by [App]
    inside a [session]; [HTTPException]s are [Err] results.  The handlers
    share the lookup [db.query(models.Person).filter(models.Person.id ==
    person_id).first()] ([person_by_id]).  [create_person] draws its tag
    suffix from the stream [randint] at index [k] and returns the index of
    the next draw with the echoed body. *)

From S2P Require Import Prelude PyStr Models Schemas Query Search DisplayTag Joins Pagination.
Import Store Schemas Query Search DisplayTag Joins Pagination.

Local Open Scope Z_scope.

Module PersonRouter.

(** [db.query(models.Person).filter(models.Person.id == person_id)] *)
Definition person_query (person_id : Z) (db : DB) : query Person.t :=
  Query.filter (select (persons db)) (fun p => Person.id p =? person_id).

(** The row after [.update({"first_name": ..., "last_name": ...,
    "job_role": ..., "birthday": ...})]; [updated_at] has [onupdate=
    datetime.now]. *)
Definition update_person_row (now : Z) (person : PersonIn) (p : Person.t) : Person.t :=
  Person.mk (Person.id p) (pin_first_name person) (pin_last_name person)
    (pin_job_role person) (pin_birthday person) (Person.created_at p) now
    (Person.display_tag p) (Person.field_A p) (Person.field_B p) (Person.field_C p)
    (Person.field_D p) (Person.field_E p).

(** [sort_by_map.get(sort_by)] *)
Definition sort_by_map (sort_by : option string) : option (Person.t -> colval) :=
  if bool_decide (sort_by = Some "last_name"%string) then Some (fun p => CText (Person.last_name p))
  else if bool_decide (sort_by = Some "first_name"%string) then Some (fun p => CText (Person.first_name p))
  else None.

Section Handlers.
Context `{OrderEngine}.

(** The draws of [random.randint(100, 999)] and the fuel of the tag loop. *)
Variable randint : nat -> Z.
Variable fuel : nat.

Definition person_by_id (person_id : Z) (db : DB) : option Person.t :=
  first (person_query person_id db).

Definition create_person (now : Z) (k : nat) (person : PersonIn) : St DB (PersonIn * nat) :=
  db <- st_get ;;
  let first_name := pin_first_name person in
  let last_name := pin_last_name person in
  match generate_display_tag randint fuel person db k with
  | None => st_raise Loops
  | Some (display_tag, k') =>
      match insert_person now first_name last_name (Some display_tag)
              (pin_job_role person) (pin_birthday person) db with
      | Ok db' => st_put db' ;;; st_ret (person, k')
      | Err e => st_raise e
      end
  end.

Definition get_person_by_id (person_id : Z) : St DB PersonOut :=
  db <- st_get ;;
  match person_by_id person_id db with
  | Some person => st_ret person
  | None => st_raise (HTTPException 404 "Person not found"%string)
  end.

Definition get_all_persons (search_string order_type sort_by : option string)
    (params : Params) : St DB (Page PersonOut) :=
  db <- st_get ;;
  match search_query search_string db with
  | Err e => st_raise e
  | Ok query =>
      match sort_by_map sort_by with
      | Some attribute =>
          if bool_decide (order_type = Some "asc"%string) then
            st_ret (paginate params (all (order_by query (OrderTerm attribute Asc))))
          else if bool_decide (order_type = Some "desc"%string) then
            st_ret (paginate params (all (order_by query (OrderTerm attribute Desc))))
          else st_raise (HTTPException 400
                 ("Order type is either asc or desc, you entered " ++ py_fmt_opt order_type)%string)
      | None => st_ret (paginate params (all query))
      end
  end.

Definition update_person (now : Z) (person : PersonIn) (person_id : Z) : St DB PersonIn :=
  db <- st_get ;;
  match person_by_id person_id db with
  | Some _ =>
      st_put (set_persons (update_where (fun p => Person.id p =? person_id)
                             (update_person_row now person) (persons db)) db) ;;;
      st_ret person
  | None => st_raise (HTTPException 404 "Person not found"%string)
  end.

Definition get_shifts (person_id : Z) (start_date end_date : option Z)
    (sort_by order_type : option string) (params : Params) : St DB (Page ShiftOut) :=
  db <- st_get ;;
  match person_by_id person_id db with
  | Some _ =>
      match shift_join_with_person_id person_id db start_date end_date sort_by order_type with
      | Ok shifts => st_ret (paginate params shifts)
      | Err e => st_raise e
      end
  | None => st_raise (HTTPException 404 "Person not found"%string)
  end.

Definition delete_person (person_id : Z) : St DB string :=
  db <- st_get ;;
  match person_by_id person_id db with
  | Some _ =>
      st_modify (fun db => set_shifts
                   (delete_where (fun s => Shift.person_id s =? person_id) (shifts db)) db) ;;;
      st_modify (fun db => set_persons
                   (delete_where (fun p => Person.id p =? person_id) (persons db)) db) ;;;
      st_ret "Person deleted successfully"%string
  | None => st_raise (HTTPException 404 "Person not found"%string)
  end.

End Handlers.

(** ** Theorems *)

Section Lemmas.
Context `{OrderEngine}.

Lemma in_person_query (pid : Z) (db : DB) (p : Person.t) :
  In p (selected (person_query pid db)) <-> In p (persons db) /\ Person.id p = pid.
Proof.
  unfold person_query. rewrite in_selected_filter, in_selected_select, Z.eqb_eq. done.
Qed.

Lemma person_by_id_some (pid : Z) (db : DB) (p : Person.t) :
  wf db -> In p (persons db) -> Person.id p = pid -> person_by_id pid db = Some p.
Proof.
  intros Hwf Hp Hid. apply first_unique; [by apply in_person_query|].
  intros q [Hq Hqid]%in_person_query.
  eapply NoDup_map_inj; [apply (wf_person_ids _ Hwf)|done|done|congruence].
Qed.

Lemma person_by_id_none (pid : Z) (db : DB) :
  (forall p, In p (persons db) -> Person.id p <> pid) -> person_by_id pid db = None.
Proof.
  intros Hn. apply first_none. intros p [Hp Hid]%in_person_query. by apply (Hn p).
Qed.

Lemma person_by_id_in (pid : Z) (db : DB) (p : Person.t) :
  person_by_id pid db = Some p -> In p (persons db) /\ Person.id p = pid.
Proof. intros Hp. apply in_person_query, first_in, Hp. Qed.

(** The tag [create_person] stores: its first candidate. *)
Definition first_tag (randint : nat -> Z) (k : nat) (person : PersonIn) : string :=
  (PyStr.lower (tag_prefix person) ++ PyStr.py_str_int (randint k))%string.

Lemma create_person_unfold randint fuel now k person db :
  create_person randint fuel now k person db =
  match insert_person now (pin_first_name person) (pin_last_name person)
          (Some (first_tag randint k person)) (pin_job_role person) (pin_birthday person) db with
  | Ok db' => (Ok (person, S k), db')
  | Err e => (Err e, db)
  end.
Proof.
  unfold create_person, st_bind, st_get. simpl.
  unfold generate_display_tag. rewrite tag_loop_first. unfold first_tag.
  case_match; reflexivity.
Qed.

(** C4. When the first candidate tag of [create_person] (name prefix and draw) is already stored, the commit fails with the UNIQUE violation of [display_tag] (HTTP 500) and the store is unchanged: the collision check of [generate_display_tag] never triggers a retry. *)
Theorem create_person_collision randint fuel now k person db :
  first_tag randint k person ∈ tags db ->
  session (create_person randint fuel now k person) db =
  (Err (IntegrityError "UNIQUE constraint failed: persons.display_tag"%string), db).
Proof.
  intros Hin. unfold session. rewrite create_person_unfold. unfold insert_person.
  apply in_tags in Hin as (p & Hp & Htag).
  replace (existsb _ (persons db)) with true; [done|]. symmetry.
  apply existsb_exists. exists p. split; [by apply list_elem_of_In|].
  by apply bool_decide_eq_true.
Qed.

(** C19. When the first candidate tag is not stored, [create_person] commits the store with the person appended under the next rowid and that tag, and returns the request body. *)
Theorem create_person_fresh randint fuel now k person db :
  first_tag randint k person ∉ tags db ->
  session (create_person randint fuel now k person) db =
  (Ok (person, S k),
   set_persons (persons db ++
     [Person.mk (next_rowid (map Person.id (persons db))) (pin_first_name person)
        (pin_last_name person) (pin_job_role person) (pin_birthday person) now now
        (Some (first_tag randint k person)) None None None None None]) db).
Proof.
  intros Hnin. unfold session. rewrite create_person_unfold. unfold insert_person.
  replace (existsb _ (persons db)) with false; [done|]. symmetry.
  apply not_true_iff_false. intros (p & Hp & Htag)%existsb_exists.
  apply Hnin, in_tags. exists p. split; [by apply list_elem_of_In|].
  by apply bool_decide_eq_true in Htag.
Qed.

(** C6. Deleting an existing person commits a store without that person and without any shift whose [person_id] is theirs, keeps every other person and shift, and leaves the overtime rows as they were. *)
Theorem delete_person_cascade (pid : Z) (db : DB) (p : Person.t) :
  wf db -> In p (persons db) -> Person.id p = pid ->
  session (delete_person pid) db =
  (Ok "Person deleted successfully"%string,
   mkDB (List.filter (fun q => negb (Person.id q =? pid)) (persons db))
        (List.filter (fun s => negb (Shift.person_id s =? pid)) (shifts db))
        (overtimes db)).
Proof.
  intros Hwf Hp Hid. unfold session, delete_person, st_bind, st_get.
  rewrite (person_by_id_some pid db p) by done. reflexivity.
Qed.

(** C31. Updating an existing person replaces first name, last name, job role and birthday under the same id, keeps the display tag and [created_at], and sets [updated_at] to the request's clock ([onupdate=datetime.now]), leaving every other person as it was. *)
Theorem update_person_fields (now : Z) (body : PersonIn) (pid : Z) (db : DB) (p : Person.t) :
  wf db -> In p (persons db) -> Person.id p = pid ->
  exists db' q, session (update_person now body pid) db = (Ok body, db') /\
    person_by_id pid db' = Some q /\
    Person.first_name q = pin_first_name body /\ Person.last_name q = pin_last_name body /\
    Person.job_role q = pin_job_role body /\ Person.birthday q = pin_birthday body /\
    Person.display_tag q = Person.display_tag p /\ Person.created_at q = Person.created_at p /\
    Person.updated_at q = now /\
    (forall u, In u (persons db) -> Person.id u <> pid -> In u (persons db')).
Proof.
  intros Hwf Hp Hid. unfold session, update_person. st_unfold.
  rewrite (person_by_id_some pid db p) by done.
  eexists. exists (update_person_row now body p). split; [reflexivity|].
  split; [|repeat split; try done].
  - apply person_by_id_some; [by apply wf_update_persons| |done].
    pose proof (in_update_where (fun t => Person.id t =? pid) (update_person_row now body) _ p Hp)
      as Hin. simpl in Hin. rewrite Hid, Z.eqb_refl in Hin. exact Hin.
  - intros u Hu Hne. pose proof (in_update_where (fun t => Person.id t =? pid)
      (update_person_row now body) _ u Hu) as Hin. simpl in Hin.
    by rewrite (proj2 (Z.eqb_neq _ _) Hne) in Hin.
Qed.

(** C26. [get_all_persons] with [sort_by] a key of [sort_by_map] and [order_type = "asc"] returns, paginated, the persons the search selects, sorted by that name column. *)
Theorem get_all_persons_sorted (ss sb : option string) (proj : Person.t -> string)
    (params : Params) (db : DB) (q : query Person.t) :
  search_query ss db = Ok q -> sort_by_map sb = Some (fun p => CText (proj p)) ->
  exists L, session (get_all_persons ss (Some "asc"%string) sb params) db =
              (Ok (paginate params L), db) /\
    Sorted (fun a b => String.compare (proj a) (proj b) <> Gt) L /\
    Permutation L (List.filter (where_ok (q_where q)) (persons db)).
Proof.
  intros Hq Hsb. destruct (search_query_rows ss db q Hq) as [Hrows Hord].
  unfold session, get_all_persons. st_unfold. rewrite Hq, Hsb.
  rewrite bool_decide_eq_true_2 by reflexivity. eexists. split; [reflexivity|]. split.
  - eapply Sorted_weaken; [|apply all_sorted]. intros x y Hxy. simpl in Hxy.
    rewrite Hord in Hxy. exact (cmp_le_asc_text proj x y Hxy).
  - rewrite all_perm. unfold selected. simpl. by rewrite Hrows.
Qed.

(** C27. [get_all_persons] with [sort_by] a key of [sort_by_map] and an [order_type] other than ["asc"] and ["desc"] (absent included) answers 400 and names the order type it got. *)
Theorem get_all_persons_bad_order (ss sb ot : option string) (attr : Person.t -> colval)
    (params : Params) (db : DB) (q : query Person.t) :
  search_query ss db = Ok q -> sort_by_map sb = Some attr ->
  ot <> Some "asc"%string -> ot <> Some "desc"%string ->
  session (get_all_persons ss ot sb params) db =
  (Err (HTTPException 400 ("Order type is either asc or desc, you entered " ++ py_fmt_opt ot)), db).
Proof.
  intros Hq Hsb Ha Hd. unfold session, get_all_persons. st_unfold. rewrite Hq, Hsb.
  by rewrite !bool_decide_eq_false_2.
Qed.

(** C34. Deleting a person id that names no person answers 404 "Person not found" and changes nothing. *)
Theorem delete_person_missing (pid : Z) (db : DB) :
  (forall p, In p (persons db) -> Person.id p <> pid) ->
  session (delete_person pid) db = (Err (HTTPException 404 "Person not found"%string), db).
Proof.
  intros Hn. unfold session, delete_person, st_bind, st_get.
  rewrite person_by_id_none by done. reflexivity.
Qed.

(** ** Invariants *)

Lemma create_person_wf randint fuel now k person :
  preserves wf (create_person randint fuel now k person).
Proof.
  intros db a db' Hwf Heq. rewrite create_person_unfold in Heq.
  revert Heq. case_match eqn:E; intros Heq; simplify_eq. by eapply insert_person_wf.
Qed.

Lemma create_person_ordered randint fuel now k person :
  preserves shifts_ordered (create_person randint fuel now k person).
Proof.
  intros db a db' Hord Heq. rewrite create_person_unfold in Heq. unfold insert_person in Heq.
  revert Heq. repeat case_match; intros Heq; simplify_eq; done.
Qed.

Lemma update_person_wf now person pid : preserves wf (update_person now person pid).
Proof.
  intros db a db' Hwf Heq. revert Heq. unfold update_person. st_unfold.
  case_match; intros Heq; simplify_eq. by apply wf_update_persons.
Qed.

Lemma update_person_ordered now person pid : preserves shifts_ordered (update_person now person pid).
Proof.
  intros db a db' Hord Heq. revert Heq. unfold update_person. st_unfold.
  case_match; intros Heq; simplify_eq. done.
Qed.

Lemma delete_person_wf pid : preserves wf (delete_person pid).
Proof.
  intros db a db' Hwf Heq. revert Heq. unfold delete_person. st_unfold.
  case_match; intros Heq; simplify_eq. by apply wf_delete_persons, wf_delete_shifts.
Qed.

Lemma delete_person_ordered pid : preserves shifts_ordered (delete_person pid).
Proof.
  intros db a db' Hord Heq. revert Heq. unfold delete_person. st_unfold.
  case_match; intros Heq; simplify_eq. by apply Forall_filter_in.
Qed.

Lemma get_person_by_id_read_only pid : read_only (get_person_by_id pid).
Proof. unfold get_person_by_id. prove_read_only. Qed.

Lemma get_all_persons_read_only ss ot sb params : read_only (get_all_persons ss ot sb params).
Proof. unfold get_all_persons. prove_read_only. Qed.

Lemma get_shifts_read_only pid sd ed sb ot params : read_only (get_shifts pid sd ed sb ot params).
Proof. unfold get_shifts. prove_read_only. Qed.

End Lemmas.


End PersonRouter.
