(* ===== verification/ShiftRouter.v ===== *)
(** * The shift router, src/api/routers/shift.py

    Handlers in [St DB], run by [App] inside a [session].  [get_all_shifts]
    joins [shifts] with the subquery of the persons the search selects
    (their [id] and [first_name]), orders, applies the day range, and then
    re-fetches every shift through [shift_join_with_shift_id], keeping the
    ones found.  [create_shift] and [update_shift] compare the two
    datetimes of the body as Python does ([start_after_end]: instants
    when both are aware, clocks when both are naive, [TypeError]
    otherwise) and store their clock values. *)

From S2P Require Import Prelude PyStr Models Schemas Query DateTime Search Joins Pagination PersonRouter.
Import Store Schemas Query DateTime Search Joins Pagination PersonRouter.

Local Open Scope Z_scope.

Module ShiftRouter.

(** [db.query(models.Shift).filter(models.Shift.id == shift_id)] *)
Definition shift_query (shift_id : Z) (db : DB) : query Shift.t :=
  Query.filter (select (shifts db)) (fun s => Shift.id s =? shift_id).

(** The row after [.update({"start_time": ..., "end_time": ...,
    "comment": ...})]; [person_id] is not updated; [updated_at] has
    [onupdate=datetime.now]. *)
Definition update_shift_row (now : Z) (shift : ShiftIn) (s : Shift.t) : Shift.t :=
  Shift.mk (Shift.id s) (sin_start_time shift) (sin_end_time shift) (sin_comment shift)
    (Shift.person_id s) (Shift.created_at s) now
    (Shift.field_A s) (Shift.field_B s) (Shift.field_C s) (Shift.field_D s) (Shift.field_E s).

(** [query.with_entities(models.Person.id,
    models.Person.first_name).subquery()]: the [(id, first_name)] rows of
    the persons the query selects. *)
Definition subquery_rows (ps : list Person.t) : list (Z * string) :=
  map (fun p => (Person.id p, Person.first_name p)) ps.

(** The rows of [db.query(models.Shift).join(person_alias,
    models.Shift.person_id == person_alias.id).filter(
    models.Shift.person_id.in_(db.query(person_alias.id)))], where the
    alias rows are [(id, first_name)] of the persons subquery. *)
Definition shift_alias_query (subquery : list (Z * string)) (db : DB)
    : query (Shift.t * (Z * string)) :=
  Query.filter
    (select (flat_map (fun s => map (fun a => (s, a))
                         (List.filter (fun a => fst a =? Shift.person_id s) subquery))
                      (shifts db)))
    (fun r => existsb (fun a => fst a =? Shift.person_id (fst r)) subquery).

Definition alias_start_time (r : Shift.t * (Z * string)) : Z := Shift.start_time (fst r).

Section Handlers.
Context `{OrderEngine}.

Definition shift_by_id (shift_id : Z) (db : DB) : option Shift.t :=
  first (shift_query shift_id db).

(** [shift.start_time > shift.end_time] on the two datetimes of the body. *)
Definition start_after_end (shift : ShiftIn) : result bool :=
  py_datetime_gt (sin_start_time shift) (sin_start_tz shift) (sin_end_time shift) (sin_end_tz shift).

(** The row stores the clock values: the offsets are dropped. *)
Definition create_shift (now : Z) (shift : ShiftIn) : St DB ShiftIn :=
  match start_after_end shift with
  | Err e => st_raise e
  | Ok true => st_raise (HTTPException 400 "End time cannot be before start time"%string)
  | Ok false =>
      st_modify (insert_shift now (sin_start_time shift) (sin_end_time shift)
                   (sin_comment shift) (sin_person_id shift)) ;;;
      st_ret shift
  end.

Definition get_all_shifts (order_type sort_by search_string : option string)
    (start_date end_date : option Z) (params : Params) : St DB (Page ShiftOut) :=
  db <- st_get ;;
  match search_query search_string db with
  | Err e => st_raise e
  | Ok query =>
      let subquery := subquery_rows (selected query) in
      let shift_q := shift_alias_query subquery db in
      let sorted :=
        if bool_decide (sort_by = Some "first_name"%string) then
          sort_query_by shift_q (Some (fun r => CText (snd (snd r)))) order_type
        else if bool_decide (sort_by = Some "start_time"%string) then
          sort_query_by shift_q (Some (fun r => CInt (alias_start_time r))) order_type
        else Ok shift_q in
      match sorted with
      | Err e => st_raise e
      | Ok shift_q =>
          let shift_q := apply_date_filters alias_start_time shift_q start_date end_date in
          let unjoined_shifts := map fst (all shift_q) in
          let shifts := omap (fun s => shift_join_with_shift_id (Shift.id s) db) unjoined_shifts in
          st_ret (paginate params shifts)
      end
  end.

Definition get_shift_by_id (shift_id : Z) : St DB ShiftOut :=
  db <- st_get ;;
  match shift_by_id shift_id db with
  | Some _ =>
      match shift_join_with_shift_id shift_id db with
      | Some joined_shift => st_ret joined_shift
      | None => st_raise (HTTPException 404 "Shift not found"%string)
      end
  | None => st_raise (HTTPException 404 "Shift not found"%string)
  end.

Definition update_shift (now : Z) (shift : ShiftIn) (shift_id : Z) : St DB ShiftIn :=
  db <- st_get ;;
  let s := shift_by_id shift_id db in
  match start_after_end shift with
  | Err e => st_raise e
  | Ok true => st_raise (HTTPException 400 "End time cannot be before start time"%string)
  | Ok false =>
      match s with
      | Some _ =>
          st_put (set_shifts (update_where (fun s => Shift.id s =? shift_id)
                                (update_shift_row now shift) (shifts db)) db) ;;;
          st_ret shift
      | None => st_raise (HTTPException 404 "Shift not found"%string)
      end
  end.

Definition delete_shift (shift_id : Z) : St DB string :=
  db <- st_get ;;
  match shift_by_id shift_id db with
  | Some _ =>
      st_modify (fun db => set_shifts
                   (delete_where (fun s => Shift.id s =? shift_id) (shifts db)) db) ;;;
      st_ret "Shift deleted successfully"%string
  | None => st_raise (HTTPException 404 "Shift not found"%string)
  end.

End Handlers.

(** ** Theorems *)

(** The comparison of the handlers on comparable datetimes is the order
    of their instants. *)
Lemma start_after_end_instants (shift : ShiftIn) (st et : Z) :
  shift_instants shift = Some (st, et) -> start_after_end shift = Ok (st >? et).
Proof.
  unfold shift_instants, start_after_end, py_datetime_gt.
  destruct (sin_start_tz shift), (sin_end_tz shift); by intros [= <- <-].
Qed.

(** A naive and an aware datetime do not compare. *)
Lemma start_after_end_mixed (shift : ShiftIn) :
  shift_instants shift = None ->
  start_after_end shift = Err (TypeError "can't compare offset-naive and offset-aware datetimes").
Proof.
  unfold shift_instants, start_after_end, py_datetime_gt.
  by destruct (sin_start_tz shift), (sin_end_tz shift).
Qed.

Section Lemmas.
Context `{OrderEngine}.

Lemma in_shift_query (sid : Z) (db : DB) (s : Shift.t) :
  In s (selected (shift_query sid db)) <-> In s (shifts db) /\ Shift.id s = sid.
Proof.
  unfold shift_query. rewrite in_selected_filter, in_selected_select, Z.eqb_eq. done.
Qed.

Lemma shift_by_id_some (sid : Z) (db : DB) (s : Shift.t) :
  wf db -> In s (shifts db) -> Shift.id s = sid -> shift_by_id sid db = Some s.
Proof.
  intros Hwf Hs Hid. apply first_unique; [by apply in_shift_query|].
  intros t [Ht Htid]%in_shift_query.
  eapply NoDup_map_inj; [apply (wf_shift_ids _ Hwf)|done|done|congruence].
Qed.

Lemma shift_by_id_none (sid : Z) (db : DB) :
  (forall s, In s (shifts db) -> Shift.id s <> sid) -> shift_by_id sid db = None.
Proof. intros Hn. apply first_none. intros s [Hs Hid]%in_shift_query. by apply (Hn s). Qed.

(** C7. [create_shift] with a start after its end (two naive datetimes by their clocks, two aware ones by their instants) fails with HTTP 400 "End time cannot be before start time" and leaves the store unchanged. *)
Theorem create_shift_rejects (now : Z) (shift : ShiftIn) (db : DB) (st et : Z) :
  shift_instants shift = Some (st, et) -> et < st ->
  session (create_shift now shift) db =
  (Err (HTTPException 400 "End time cannot be before start time"%string), db).
Proof.
  intros Hi Hlt. unfold session, create_shift. rewrite (start_after_end_instants _ _ _ Hi).
  replace (st >? et) with true by lia. done.
Qed.

(** C8. [create_shift] accepts every shift whose start is not after its end (by clocks for naive datetimes, by instants for aware ones), a zero-length shift included, and appends it with the next rowid and the clock values of its two datetimes. *)
Theorem create_shift_accepts (now : Z) (shift : ShiftIn) (db : DB) (st et : Z) :
  shift_instants shift = Some (st, et) -> st <= et ->
  session (create_shift now shift) db =
  (Ok shift, insert_shift now (sin_start_time shift) (sin_end_time shift)
               (sin_comment shift) (sin_person_id shift) db).
Proof.
  intros Hi Hle. unfold session, create_shift. rewrite (start_after_end_instants _ _ _ Hi).
  replace (st >? et) with false by lia. done.
Qed.

(** C16. [update_shift] checks the times before it looks the shift up: a start after the end (by clocks or by instants) answers 400 even when no shift has that id. *)
Theorem update_shift_checks_times_first (now : Z) (shift : ShiftIn) (sid : Z) (db : DB) (st et : Z) :
  shift_instants shift = Some (st, et) -> et < st ->
  session (update_shift now shift sid) db =
  (Err (HTTPException 400 "End time cannot be before start time"%string), db).
Proof.
  intros Hi Hlt. unfold session, update_shift. st_unfold. rewrite (start_after_end_instants _ _ _ Hi).
  replace (st >? et) with true by lia. done.
Qed.

(** A store with a shift stored after [create_shift] of reversed clock
    values has a shift that starts after it ends. *)
Lemma insert_shift_unordered (now st et : Z) (c : option string) (pid : Z) (db : DB) :
  et < st -> ~ shifts_ordered (insert_shift now st et c pid db).
Proof.
  intros Hlt Hord. unfold shifts_ordered in Hord. simpl in Hord.
  apply Forall_app in Hord as [_ Hl]. inversion Hl; simpl in *; lia.
Qed.

(** C20. Offsets are compared and then dropped: [create_shift] accepts an aware shift whose start instant is not after its end instant, and stores the clock fields of the two datetimes; when the offsets reverse their order (10:00+05:00 to 08:00+00:00), the committed store holds a shift that starts after it ends. *)
Theorem create_shift_aware_reversed (now : Z) (shift : ShiftIn) (db : DB) (a b : Z) :
  sin_start_tz shift = Some a -> sin_end_tz shift = Some b ->
  sin_start_time shift - a <= sin_end_time shift - b -> sin_end_time shift < sin_start_time shift ->
  exists db', session (create_shift now shift) db = (Ok shift, db') /\ ~ shifts_ordered db'.
Proof.
  intros Ha Hb Hle Hlt. unfold session, create_shift, start_after_end, py_datetime_gt.
  rewrite Ha, Hb. replace (_ >? _) with false by lia.
  eexists. split; [reflexivity|]. by apply insert_shift_unordered.
Qed.

(** C29. A shift body with one naive and one aware datetime makes both [create_shift] and [update_shift] raise Python's [TypeError] on [shift.start_time > shift.end_time], which the server answers 500; nothing is stored. *)
Theorem shift_mixed_tz_error (now : Z) (shift : ShiftIn) (sid : Z) (db : DB) :
  shift_instants shift = None ->
  let e := TypeError "can't compare offset-naive and offset-aware datetimes" in
  session (create_shift now shift) db = (Err e, db) /\
  session (update_shift now shift sid) db = (Err e, db) /\ status_of_exc e = 500.
Proof.
  intros Hi e. unfold session, create_shift, update_shift. st_unfold.
  by rewrite (start_after_end_mixed _ Hi).
Qed.

(** C25. Updating an existing shift with a start not after its end (by clocks or by instants) commits the new start time, end time and comment under the same id, keeps the shift's [person_id] whatever the request body says, and leaves every other shift as it was. *)
Theorem update_shift_keeps_person (now : Z) (shift : ShiftIn) (sid : Z) (db : DB) (s : Shift.t) :
  wf db -> In s (shifts db) -> Shift.id s = sid ->
  forall st et, shift_instants shift = Some (st, et) -> st <= et ->
  exists db' t, session (update_shift now shift sid) db = (Ok shift, db') /\
    shift_by_id sid db' = Some t /\
    Shift.start_time t = sin_start_time shift /\ Shift.end_time t = sin_end_time shift /\
    Shift.comment t = sin_comment shift /\ Shift.person_id t = Shift.person_id s /\
    (forall u, In u (shifts db) -> Shift.id u <> sid -> In u (shifts db')).
Proof.
  intros Hwf Hs Hid st et Hi Hle. unfold session, update_shift. st_unfold.
  rewrite (shift_by_id_some sid db s) by done. rewrite (start_after_end_instants _ _ _ Hi).
  replace (st >? et) with false by lia.
  eexists. exists (update_shift_row now shift s). split; [reflexivity|].
  split; [|repeat split; try done].
  - apply shift_by_id_some; [by apply wf_update_shifts| |done].
    pose proof (in_update_where (fun t => Shift.id t =? sid) (update_shift_row now shift) _ s Hs)
      as Hin. simpl in Hin. rewrite Hid, Z.eqb_refl in Hin. exact Hin.
  - intros u Hu Hne. pose proof (in_update_where (fun t => Shift.id t =? sid)
      (update_shift_row now shift) _ u Hu) as Hin. simpl in Hin.
    by rewrite (proj2 (Z.eqb_neq _ _) Hne) in Hin.
Qed.

(** C11. For a stored shift whose [person_id] names no person, the bare lookup of [get_shift_by_id] finds the row but the handler still answers 404 "Shift not found". *)
Theorem get_shift_by_id_dangling (sid : Z) (db : DB) (s : Shift.t) :
  wf db -> In s (shifts db) -> Shift.id s = sid ->
  (forall p, In p (persons db) -> Person.id p <> Shift.person_id s) ->
  shift_by_id sid db = Some s /\
  session (get_shift_by_id sid) db = (Err (HTTPException 404 "Shift not found"%string), db).
Proof.
  intros Hwf Hs Hid Hnp. assert (Hb : shift_by_id sid db = Some s) by
    (by apply shift_by_id_some). split; [done|].
  unfold session, get_shift_by_id. st_unfold. rewrite Hb.
  rewrite shift_join_with_shift_id_dangling; [done|].
  intros s' p Hs' Hid' Hp. assert (s' = s) as ->.
  { eapply NoDup_map_inj; [apply (wf_shift_ids _ Hwf)|done|done|congruence]. }
  by apply Hnp.
Qed.

(** C12. Deleting an existing shift removes that row only: the overtime rows that name it stay in the store. *)
Theorem delete_shift_keeps_overtimes (sid : Z) (db : DB) (s : Shift.t) :
  wf db -> In s (shifts db) -> Shift.id s = sid ->
  session (delete_shift sid) db =
  (Ok "Shift deleted successfully"%string,
   mkDB (persons db) (List.filter (fun t => negb (Shift.id t =? sid)) (shifts db))
        (overtimes db)).
Proof.
  intros Hwf Hs Hid. unfold session, delete_shift. st_unfold.
  by rewrite (shift_by_id_some sid db s).
Qed.

(** ** The listing of [get_all_shifts] *)

(** The rows the alias join and the day range keep, for the shifts [ss]. *)
Definition alias_rows (sub : list (Z * string)) (sd ed : option Z) (ss : list Shift.t)
    : list (Shift.t * (Z * string)) :=
  List.filter (fun r => existsb (fun a => fst a =? Shift.person_id (fst r)) sub &&
                        in_day_range sd ed (alias_start_time r))
    (flat_map (fun s => map (fun a => (s, a))
                 (List.filter (fun a => fst a =? Shift.person_id s) sub)) ss).

Lemma in_alias_query_rows (sub : list (Z * string)) (db : DB) (s : Shift.t) (a : Z * string) :
  In (s, a) (q_rows (shift_alias_query sub db)) ->
  In s (shifts db) /\ In a sub /\ fst a = Shift.person_id s.
Proof.
  simpl. rewrite in_flat_map. intros (s' & Hs' & Hin).
  apply in_map_iff in Hin as (a' & [= <- <-] & Ha). apply List.filter_In in Ha as [Ha E].
  apply Z.eqb_eq in E. auto.
Qed.

(** Every row of the alias join names a person of the subquery, so the
    re-join by shift id finds it, with the shift's start time. *)
Lemma alias_rejoin (ps : list Person.t) (db : DB) (r : Shift.t * (Z * string)) :
  wf db -> incl ps (persons db) -> In r (q_rows (shift_alias_query (subquery_rows ps) db)) ->
  exists p, shift_join_with_shift_id (Shift.id (fst r)) db = Some (to_shift_out (fst r) p) /\
            snd r = (Person.id p, Person.first_name p).
Proof.
  destruct r as [s a]. intros Hwf Hps (Hs & Ha & Ea)%in_alias_query_rows.
  apply in_map_iff in Ha as (p & <- & Hp). simpl in *.
  exists p. split; [|done]. apply shift_join_with_shift_id_found; auto.
Qed.

Lemma selected_alias_query (ps : list Person.t) (db : DB) t (sd ed : option Z) :
  selected (apply_date_filters alias_start_time
              (order_by (shift_alias_query (subquery_rows ps) db) t) sd ed) =
  alias_rows (subquery_rows ps) sd ed (shifts db).
Proof.
  unfold selected. rewrite (proj1 (apply_date_filters_rows _ _ _ _)).
  apply List.filter_ext. intros r. rewrite where_ok_apply_date_filters.
  unfold where_ok. simpl. by rewrite andb_true_r.
Qed.

(** The alias rows of one shift [s], re-joined by shift id, are the inner
    join of [s] with its person when [P] keeps that person. *)
Lemma alias_rows_one (P : Person.t -> bool) (db : DB) (sd ed : option Z) (s : Shift.t) :
  wf db -> In s (shifts db) ->
  let sub := subquery_rows (List.filter P (persons db)) in
  omap (fun s => shift_join_with_shift_id (Shift.id s) db)
    (map fst (List.filter (fun r => existsb (fun a => fst a =? Shift.person_id (fst r)) sub &&
                                    in_day_range sd ed (alias_start_time r))
       (map (fun a => (s, a)) (List.filter (fun a => fst a =? Shift.person_id s) sub)))) =
  map (fun r => to_shift_out (fst r) (snd r))
    (List.filter (fun r => P (snd r) && in_day_range sd ed (joined_start_time r))
       (map (fun p => (s, p)) (List.filter (fun p => Person.id p =? Shift.person_id s) (persons db)))).
Proof.
  intros Hwf Hs sub.
  assert (Hsub : List.filter (fun a => fst a =? Shift.person_id s) sub =
    subquery_rows (List.filter P (List.filter (fun p => Person.id p =? Shift.person_id s) (persons db)))).
  { unfold sub, subquery_rows. rewrite filter_map_swap. f_equal. apply filter_comm. }
  rewrite Hsub.
  destruct (filter_key_unique Person.id (Shift.person_id s) (persons db) (wf_person_ids _ Hwf))
    as [->|(p & -> & Hp & Ep)]; [done|]. simpl.
  destruct (P p) eqn:HP; [|done]. simpl.
  replace (existsb _ sub) with true.
  2:{ symmetry. apply existsb_exists. exists (Person.id p, Person.first_name p).
      split; [|by apply Z.eqb_eq]. unfold sub, subquery_rows.
      apply (in_map (fun p => (Person.id p, Person.first_name p))), List.filter_In. auto. }
  unfold alias_start_time, joined_start_time. simpl.
  destruct (in_day_range sd ed (Shift.start_time s)); [|done]. simpl.
  by rewrite (shift_join_with_shift_id_found db s p).
Qed.

Lemma alias_rows_rejoin (P : Person.t -> bool) (db : DB) (sd ed : option Z) (ss : list Shift.t) :
  wf db -> incl ss (shifts db) ->
  omap (fun s => shift_join_with_shift_id (Shift.id s) db)
    (map fst (alias_rows (subquery_rows (List.filter P (persons db))) sd ed ss)) =
  map (fun r => to_shift_out (fst r) (snd r))
    (List.filter (fun r => P (snd r) && in_day_range sd ed (joined_start_time r))
       (flat_map (fun s => map (fun p => (s, p))
                    (List.filter (fun p => Person.id p =? Shift.person_id s) (persons db))) ss)).
Proof.
  intros Hwf. unfold alias_rows. induction ss as [|s ss IH]; intros Hss; [done|]. simpl.
  rewrite !List.filter_app, !map_app, omap_app.
  f_equal; [apply alias_rows_one; [done|apply Hss; by left]|].
  apply IH. intros x Hx. apply Hss. by right.
Qed.

(** The listing of [get_all_shifts] for an ORDER BY term [t] is sorted by
    the term's key, read on the re-joined rows through [g]. *)
Lemma listing_sorted {C} (ps : list Person.t) (db : DB) t (sd ed : option Z)
    (R : C -> C -> Prop) (kr : Shift.t * (Z * string) -> C) (g : ShiftOut -> C) :
  wf db -> incl ps (persons db) ->
  (forall s p, g (to_shift_out s p) = kr (s, (Person.id p, Person.first_name p))) ->
  (forall x y, cmp_le (lex_compare [t]) x y -> R (kr x) (kr y)) ->
  Sorted (fun a b => R (g a) (g b))
    (omap (fun s => shift_join_with_shift_id (Shift.id s) db)
       (map fst (all (apply_date_filters alias_start_time
                        (order_by (shift_alias_query (subquery_rows ps) db) t) sd ed)))).
Proof.
  intros Hwf Hps Hg HR. rewrite omap_map. apply (Sorted_omap R _ kr g).
  - intros r Hr. apply in_all in Hr as [Hr _].
    rewrite (proj1 (apply_date_filters_rows _ _ _ _)) in Hr.
    destruct (alias_rejoin ps db r Hwf Hps Hr) as (p & Hj & Ha).
    eexists. split; [exact Hj|]. rewrite Hg, <- Ha. by destruct r.
  - eapply Sorted_weaken; [|apply all_sorted]. intros x y Hxy. apply HR.
    by rewrite (proj2 (apply_date_filters_rows _ _ _ _)) in Hxy.
Qed.

(** Whatever the order, the listing is the inner join of the shifts with
    the persons the search selects, restricted to the day range. *)
Lemma listing_rows (q : query Person.t) (db : DB) t (sd ed : option Z) :
  wf db -> q_rows q = persons db ->
  Permutation
    (omap (fun s => shift_join_with_shift_id (Shift.id s) db)
       (map fst (all (apply_date_filters alias_start_time
                        (order_by (shift_alias_query (subquery_rows (selected q)) db) t) sd ed))))
    (map (fun r => to_shift_out (fst r) (snd r))
      (List.filter (fun r => where_ok (q_where q) (snd r) && in_day_range sd ed (joined_start_time r))
         (shift_person_rows db))).
Proof.
  intros Hwf Hrows. unfold selected at 1. rewrite Hrows.
  by rewrite all_perm, selected_alias_query, alias_rows_rejoin by (done || apply incl_refl).
Qed.

Lemma selected_incl (q : query Person.t) (db : DB) :
  q_rows q = persons db -> incl (selected q) (persons db).
Proof. intros Hrows p Hp. unfold selected in Hp. rewrite Hrows in Hp. by apply List.filter_In in Hp as []. Qed.

(** C22. With [sort_by = "start_time"] and [order_type = "asc"], [get_all_shifts] returns, paginated, a list sorted by start time that is, up to order, the inner join of the shifts with the persons the search selects, restricted to the inclusive day range; shifts whose person does not exist are left out. *)
Theorem get_all_shifts_start_time_asc (ss : option string) (sd ed : option Z) (params : Params)
    (db : DB) (q : query Person.t) :
  wf db -> search_query ss db = Ok q ->
  exists L,
    session (get_all_shifts (Some "asc"%string) (Some "start_time"%string) ss sd ed params) db
      = (Ok (paginate params L), db) /\
    Sorted (fun a b => so_start_time a <= so_start_time b) L /\
    Permutation L (map (fun r => to_shift_out (fst r) (snd r))
      (List.filter (fun r => where_ok (q_where q) (snd r) && in_day_range sd ed (joined_start_time r))
         (shift_person_rows db))).
Proof.
  intros Hwf Hq. destruct (search_query_rows ss db q Hq) as [Hrows _].
  unfold session, get_all_shifts. st_unfold. rewrite Hq.
  rewrite bool_decide_eq_false_2 by discriminate.
  rewrite bool_decide_eq_true_2 by reflexivity. rewrite sort_query_by_asc.
  eexists. split; [reflexivity|]. split; [|by apply listing_rows].
  apply (listing_sorted _ _ _ _ _ Z.le alias_start_time); [done|by apply selected_incl|done|].
  intros x y. apply cmp_le_asc_int.
Qed.

(** C36. With [sort_by = "first_name"] and [order_type = "desc"], [get_all_shifts] orders by the first name of the aliased persons subquery, which is the first name of the person each listed shift is re-joined with: the list is sorted by [first_name], descending, and is, up to order, the same inner join as in C22. *)
Theorem get_all_shifts_first_name_desc (ss : option string) (sd ed : option Z) (params : Params)
    (db : DB) (q : query Person.t) :
  wf db -> search_query ss db = Ok q ->
  exists L,
    session (get_all_shifts (Some "desc"%string) (Some "first_name"%string) ss sd ed params) db
      = (Ok (paginate params L), db) /\
    Sorted (fun a b => String.compare (so_first_name b) (so_first_name a) <> Gt) L /\
    Permutation L (map (fun r => to_shift_out (fst r) (snd r))
      (List.filter (fun r => where_ok (q_where q) (snd r) && in_day_range sd ed (joined_start_time r))
         (shift_person_rows db))).
Proof.
  intros Hwf Hq. destruct (search_query_rows ss db q Hq) as [Hrows _].
  unfold session, get_all_shifts. st_unfold. rewrite Hq.
  rewrite bool_decide_eq_true_2 by reflexivity. rewrite sort_query_by_desc.
  eexists. split; [reflexivity|]. split; [|by apply listing_rows].
  apply (listing_sorted _ _ _ _ _ (fun a b => String.compare b a <> Gt) (fun r => snd (snd r)));
    [done|by apply selected_incl|done|].
  intros x y. apply (cmp_le_desc_text (fun r => snd (snd r))).
Qed.

(** ** Invariants *)

Lemma create_shift_wf now shift : preserves wf (create_shift now shift).
Proof.
  intros db a db' Hwf Heq. revert Heq. unfold create_shift. st_unfold.
  repeat case_match; intros Heq; simplify_eq. by apply insert_shift_wf.
Qed.

(** A naive shift that is stored starts before it ends. *)
Lemma create_shift_ordered now shift :
  shift_instants shift = Some (sin_start_time shift, sin_end_time shift) ->
  preserves shifts_ordered (create_shift now shift).
Proof.
  intros Hi db a db' Hord Heq. revert Heq. unfold create_shift. st_unfold.
  rewrite (start_after_end_instants _ _ _ Hi).
  case_match eqn:E; intros Heq; simplify_eq.
  unfold shifts_ordered. simpl. apply Forall_app. split; [done|].
  constructor; [simpl; lia|constructor].
Qed.

Lemma update_shift_wf now shift sid : preserves wf (update_shift now shift sid).
Proof.
  intros db a db' Hwf Heq. revert Heq. unfold update_shift. st_unfold.
  repeat case_match; intros Heq; simplify_eq. by apply wf_update_shifts.
Qed.

Lemma update_shift_ordered now shift sid :
  shift_instants shift = Some (sin_start_time shift, sin_end_time shift) ->
  preserves shifts_ordered (update_shift now shift sid).
Proof.
  intros Hi db a db' Hord Heq. revert Heq. unfold update_shift. st_unfold.
  rewrite (start_after_end_instants _ _ _ Hi).
  repeat case_match; intros Heq; simplify_eq.
  unfold shifts_ordered, update_where. simpl. apply Forall_map.
  refine (List.Forall_impl _ _ Hord). intros x Hx. case_match; simpl; [lia|done].
Qed.

Lemma delete_shift_wf sid : preserves wf (delete_shift sid).
Proof.
  intros db a db' Hwf Heq. revert Heq. unfold delete_shift. st_unfold.
  case_match; intros Heq; simplify_eq. by apply wf_delete_shifts.
Qed.

Lemma delete_shift_ordered sid : preserves shifts_ordered (delete_shift sid).
Proof.
  intros db a db' Hord Heq. revert Heq. unfold delete_shift. st_unfold.
  case_match; intros Heq; simplify_eq. by apply Forall_filter_in.
Qed.

Lemma get_all_shifts_read_only ot sb ss sd ed params :
  read_only (get_all_shifts ot sb ss sd ed params).
Proof. unfold get_all_shifts. prove_read_only. Qed.

Lemma get_shift_by_id_read_only sid : read_only (get_shift_by_id sid).
Proof. unfold get_shift_by_id. prove_read_only. Qed.

End Lemmas.


End ShiftRouter.
