(* ===== verification/OvertimeRouter.v ===== *)
(** * The overtime router, src/api/routers/overtime.py

    [create_overtime] inserts without looking at [shifts]; the store
    rejects a second overtime for the same [shift_id] (its primary key).
    [get_overtime_by_shift] first looks the shift up. *)

From S2P Require Import Prelude Models Schemas Query Search Pagination ShiftRouter.
Import Store Schemas Query Search Pagination ShiftRouter.

Local Open Scope Z_scope.

Module OvertimeRouter.

(** [db.query(models.Overtime).filter(models.Overtime.shift_id ==
    shift_id)] *)
Definition overtime_query (shift_id : Z) (db : DB) : query Overtime.t :=
  Query.filter (select (overtimes db)) (fun o => Overtime.shift_id o =? shift_id).

Section Handlers.
Context `{OrderEngine}.

Definition create_overtime (now : Z) (overtime : OvertimeIn) : St DB OvertimeIn :=
  db <- st_get ;;
  match insert_overtime now (Some (oin_type overtime)) (Some (oin_hours overtime))
          (oin_shift_id overtime) db with
  | Ok db' => st_put db' ;;; st_ret overtime
  | Err e => st_raise e
  end.

Definition get_all_overtimes (params : Params) : St DB (Page OvertimeOut) :=
  db <- st_get ;;
  st_ret (paginate params (all (select (overtimes db)))).

Definition get_overtime_by_shift (shift_id : Z) : St DB (list OvertimeOut) :=
  db <- st_get ;;
  match shift_by_id shift_id db with
  | Some _ => st_ret (all (overtime_query shift_id db))
  | None => st_raise (HTTPException 404 "Shift not found"%string)
  end.

End Handlers.

(** ** Theorems *)

Section Lemmas.
Context `{OrderEngine}.

(** The rows of [overtime_query], in whatever order the store returns. *)
Lemma overtime_query_all (sid : Z) (db : DB) :
  Permutation (all (overtime_query sid db))
    (List.filter (fun t => Overtime.shift_id t =? sid) (overtimes db)).
Proof. rewrite all_perm. unfold overtime_query. by rewrite selected_filter_select. Qed.

(** C14. [create_overtime] stores an overtime for a shift id that names no shift, as long as no overtime has that id yet: there is no existence check and SQLite does not enforce the foreign key. *)
Theorem create_overtime_no_shift_check (now : Z) (o : OvertimeIn) (db : DB) :
  (forall t, In t (overtimes db) -> Overtime.shift_id t <> oin_shift_id o) ->
  session (create_overtime now o) db =
  (Ok o, set_overtimes (overtimes db ++
     [Overtime.mk (oin_shift_id o) (Some (oin_type o)) (Some (oin_hours o)) now now
        None None None None None]) db).
Proof.
  intros Hfree. unfold session, create_overtime, insert_overtime. st_unfold.
  replace (existsb _ (overtimes db)) with false; [done|]. symmetry.
  apply not_true_iff_false. intros (t & Ht & Hid)%existsb_exists.
  apply bool_decide_eq_true in Hid. by apply (Hfree t).
Qed.

(** C15. A second overtime for the same [shift_id] fails at commit with the primary-key violation (HTTP 500) and leaves the store unchanged. *)
Theorem create_overtime_duplicate (now : Z) (o : OvertimeIn) (db : DB) (t : Overtime.t) :
  In t (overtimes db) -> Overtime.shift_id t = oin_shift_id o ->
  session (create_overtime now o) db =
  (Err (IntegrityError "UNIQUE constraint failed: overtimes.shift_id"%string), db).
Proof.
  intros Ht Hid. unfold session, create_overtime, insert_overtime. st_unfold.
  replace (existsb _ (overtimes db)) with true; [done|]. symmetry.
  apply existsb_exists. exists t. split; [done|]. by apply bool_decide_eq_true.
Qed.

(** C37. [get_overtime_by_shift] for an id that names no shift answers 404 "Shift not found", whatever overtime rows carry that id. *)
Theorem get_overtime_by_shift_missing (sid : Z) (db : DB) :
  (forall s, In s (shifts db) -> Shift.id s <> sid) ->
  session (get_overtime_by_shift sid) db =
  (Err (HTTPException 404 "Shift not found"%string), db).
Proof.
  intros Hn. unfold session, get_overtime_by_shift. st_unfold.
  by rewrite shift_by_id_none.
Qed.

(** C21. For a stored shift, [get_overtime_by_shift] answers, up to order, exactly the overtime rows with that [shift_id], and changes nothing. *)
Theorem get_overtime_by_shift_found (sid : Z) (db : DB) (s : Shift.t) :
  wf db -> In s (shifts db) -> Shift.id s = sid ->
  exists l, session (get_overtime_by_shift sid) db = (Ok l, db) /\
    Permutation l (List.filter (fun t => Overtime.shift_id t =? sid) (overtimes db)).
Proof.
  intros Hwf Hs Hid. unfold session, get_overtime_by_shift. st_unfold.
  rewrite (shift_by_id_some sid db s) by done. eexists. split; [reflexivity|].
  apply overtime_query_all.
Qed.

Lemma create_overtime_wf now o : preserves wf (create_overtime now o).
Proof.
  intros db a db' Hwf Heq. revert Heq. unfold create_overtime. st_unfold.
  case_match eqn:E; intros Heq; simplify_eq. by eapply insert_overtime_wf.
Qed.

Lemma create_overtime_ordered now o : preserves shifts_ordered (create_overtime now o).
Proof.
  intros db a db' Hord Heq. revert Heq. unfold create_overtime, insert_overtime. st_unfold.
  repeat case_match; intros Heq; simplify_eq; done.
Qed.

(** Paging through [GET /overtime] with any page size: every page is read from the same ordered rows without changing the store, and pages [1 .. pages] together list every overtime row exactly once. *)
Theorem get_all_overtimes_pages (size : nat) (db : DB) :
  (1 <= size)%nat ->
  let L := all (select (overtimes db)) in
  (forall i, session (get_all_overtimes (mkParams (S i) size)) db =
             (Ok (paginate (mkParams (S i) size) L), db)) /\
  Permutation (concat (map (fun i => items (paginate (mkParams (S i) size) L))
                        (seq 0 (pages (paginate (mkParams 1 size) L)))))
              (overtimes db).
Proof.
  intros Hs L. split; [done|]. simpl pages. rewrite paginate_concat by done.
  unfold L. rewrite all_perm. apply Permutation_refl'. apply selected_select.
Qed.

Lemma get_all_overtimes_read_only params : read_only (get_all_overtimes params).
Proof. unfold get_all_overtimes. prove_read_only. Qed.

Lemma get_overtime_by_shift_read_only sid : read_only (get_overtime_by_shift sid).
Proof. unfold get_overtime_by_shift. prove_read_only. Qed.

End Lemmas.


End OvertimeRouter.
