(* ===== verification/App.v ===== *)
(** * The application, src/main.py

    The routes of the three routers and [GET /] as one request type, the
    response of each, and [handle]: one request against the store.  The
    routers' requests go through [get_api_key] first; each handler runs in
    a [session].  The nondeterminism of a request is an input: the clock
    [now] and the draws [randint] of [random.randint].  The stores the
    service can reach from the empty one are an inductive closure of
    [handle]; every one of them has unique keys, and those reached
    through naive shift bodies also have ordered shifts, which aware
    bodies can break. *)

From S2P Require Import Prelude Models Schemas Query DateTime Pagination Auth PersonRouter ShiftRouter OvertimeRouter.
Import Store Schemas Query Pagination Auth PersonRouter ShiftRouter OvertimeRouter.

Local Open Scope Z_scope.

Module App.

Inductive request :=
| HelloWorld
| PostPerson (person : PersonIn)
| GetPerson (person_id : Z)
| ListPersons (search_string order_type sort_by : option string) (params : Params)
| PutPerson (person_id : Z) (person : PersonIn)
| GetPersonShifts (person_id : Z) (start_date end_date : option Z)
    (sort_by order_type : option string) (params : Params)
| DeletePerson (person_id : Z)
| PostShift (shift : ShiftIn)
| ListShifts (order_type sort_by search_string : option string)
    (start_date end_date : option Z) (params : Params)
| GetShift (shift_id : Z)
| PutShift (shift_id : Z) (shift : ShiftIn)
| DeleteShift (shift_id : Z)
| PostOvertime (overtime : OvertimeIn)
| ListOvertimes (params : Params)
| GetOvertimes (shift_id : Z).

Inductive response :=
| RText (s : string)
| RPersonIn (p : PersonIn)
| RPerson (p : PersonOut)
| RPersonPage (pg : Page PersonOut)
| RShiftIn (s : ShiftIn)
| RShift (s : ShiftOut)
| RShiftPage (pg : Page ShiftOut)
| ROvertimeIn (o : OvertimeIn)
| ROvertimePage (pg : Page OvertimeOut)
| ROvertimes (l : list OvertimeOut)
| RError (status : Z) (e : exc).

Section App.
Context `{OrderEngine}.

(** The fuel of the display-tag loop and [os.environ.get("API_KEY")]. *)
Variable fuel : nat.
Variable env_api_key : option string.

(** Run a handler in a session and wrap its result. *)
Definition run {A} (m : St DB A) (wrap : A -> response) (db : DB) : response * DB :=
  match session m db with
  | (Ok a, db') => (wrap a, db')
  | (Err e, db') => (RError (status_of_exc e) e, db')
  end.

Definition dispatch (now : Z) (randint : nat -> Z) (req : request) (db : DB) : response * DB :=
  match req with
  | HelloWorld => (RText "Hello World!"%string, db)
  | PostPerson p => run (create_person randint fuel now 0 p) (fun r => RPersonIn (fst r)) db
  | GetPerson pid => run (get_person_by_id pid) RPerson db
  | ListPersons ss ot sb params => run (get_all_persons ss ot sb params) RPersonPage db
  | PutPerson pid p => run (update_person now p pid) RPersonIn db
  | GetPersonShifts pid sd ed sb ot params =>
      run (get_shifts pid sd ed sb ot params) RShiftPage db
  | DeletePerson pid => run (delete_person pid) RText db
  | PostShift s => run (create_shift now s) RShiftIn db
  | ListShifts ot sb ss sd ed params => run (get_all_shifts ot sb ss sd ed params) RShiftPage db
  | GetShift sid => run (get_shift_by_id sid) RShift db
  | PutShift sid s => run (update_shift now s sid) RShiftIn db
  | DeleteShift sid => run (delete_shift sid) RText db
  | PostOvertime o => run (create_overtime now o) ROvertimeIn db
  | ListOvertimes params => run (get_all_overtimes params) ROvertimePage db
  | GetOvertimes sid => run (get_overtime_by_shift sid) ROvertimes db
  end.

(** [GET /] has no dependency; the routers depend on [get_api_key]. *)
Definition handle (now : Z) (randint : nat -> Z) (access_token : option string)
    (req : request) (db : DB) : response * DB :=
  match req with
  | HelloWorld => dispatch now randint req db
  | _ => match get_api_key (api_key_header access_token) env_api_key with
         | Ok _ => dispatch now randint req db
         | Err e => (RError (status_of_exc e) e, db)
         end
  end.

(** The stores reachable from the empty store. *)
Inductive reachable : DB -> Prop :=
| reachable_empty : reachable empty
| reachable_step (db : DB) (now : Z) (randint : nat -> Z) (token : option string) (req : request) :
    reachable db -> reachable (snd (handle now randint token req db)).

(** A request whose shift body, if any, has two naive datetimes. *)
Definition naive_request (req : request) : bool :=
  match req with
  | PostShift s | PutShift _ s =>
      match sin_start_tz s, sin_end_tz s with None, None => true | _, _ => false end
  | _ => true
  end.

(** The stores reachable through naive requests only. *)
Inductive reachable_naive : DB -> Prop :=
| reachable_naive_empty : reachable_naive empty
| reachable_naive_step (db : DB) (now : Z) (randint : nat -> Z) (token : option string)
    (req : request) :
    naive_request req = true -> reachable_naive db ->
    reachable_naive (snd (handle now randint token req db)).

(** Requests served one after the other, with one token, clock and draw
    stream. *)
Fixpoint serve (now : Z) (randint : nat -> Z) (token : option string) (reqs : list request)
    (db : DB) : DB :=
  match reqs with
  | [] => db
  | req :: reqs => serve now randint token reqs (snd (handle now randint token req db))
  end.

End App.

(** [delete_records] of src/clear_database.py: one session that deletes
    every overtime, then every shift, then every person. *)
Definition delete_records : St DB unit :=
  st_modify (fun db => set_overtimes (delete_where (fun _ => true) (overtimes db)) db) ;;;
  st_modify (fun db => set_shifts (delete_where (fun _ => true) (shifts db)) db) ;;;
  st_modify (fun db => set_persons (delete_where (fun _ => true) (persons db)) db).

(** ** Theorems *)

Lemma wf_empty : wf empty.
Proof. split; constructor. Qed.

(** C28. [delete_records] of src/clear_database.py, run in one session from any store, commits the empty store: the overtimes, then the shifts, then the persons are deleted. *)
Lemma delete_records_empty (db : DB) : session delete_records db = (Ok tt, empty).
Proof.
  unfold session, delete_records. st_unfold. unfold delete_where.
  rewrite !filter_all_false by done. reflexivity.
Qed.

Section Lemmas.
Context `{OrderEngine}.

Lemma run_state {A} (m : St DB A) (wrap : A -> response) (db : DB) :
  snd (run m wrap db) = snd (session m db).
Proof. unfold run. destruct (session m db) as [[a|e] db']; done. Qed.

Lemma run_preserves {A} (P : DB -> Prop) (m : St DB A) (wrap : A -> response) (db : DB) :
  preserves P m -> P db -> P (snd (run m wrap db)).
Proof. intros Hm Hdb. rewrite run_state. by apply session_preserves. Qed.

Lemma run_read_only {A} (P : DB -> Prop) (m : St DB A) (wrap : A -> response) (db : DB) :
  read_only m -> P db -> P (snd (run m wrap db)).
Proof. intros Hr. apply run_preserves. by apply read_only_preserves. Qed.

(** Each route preserves [wf]. *)
Lemma dispatch_wf fuel now randint req db :
  wf db -> wf (snd (dispatch fuel now randint req db)).
Proof.
  intros Hdb. destruct req; simpl dispatch.
  - done.
  - by apply run_preserves; [apply create_person_wf|].
  - by apply run_read_only; [apply get_person_by_id_read_only|].
  - by apply run_read_only; [apply get_all_persons_read_only|].
  - by apply run_preserves; [apply update_person_wf|].
  - by apply run_read_only; [apply get_shifts_read_only|].
  - by apply run_preserves; [apply delete_person_wf|].
  - by apply run_preserves; [apply create_shift_wf|].
  - by apply run_read_only; [apply get_all_shifts_read_only|].
  - by apply run_read_only; [apply get_shift_by_id_read_only|].
  - by apply run_preserves; [apply update_shift_wf|].
  - by apply run_preserves; [apply delete_shift_wf|].
  - by apply run_preserves; [apply create_overtime_wf|].
  - by apply run_read_only; [apply get_all_overtimes_read_only|].
  - by apply run_read_only; [apply get_overtime_by_shift_read_only|].
Qed.

Lemma naive_instants (s : ShiftIn) :
  match sin_start_tz s, sin_end_tz s with None, None => true | _, _ => false end = true ->
  shift_instants s = Some (sin_start_time s, sin_end_time s).
Proof. unfold shift_instants. by destruct (sin_start_tz s), (sin_end_tz s). Qed.

(** Each naive request preserves [shifts_ordered]. *)
Lemma dispatch_ordered fuel now randint req db :
  naive_request req = true -> shifts_ordered db ->
  shifts_ordered (snd (dispatch fuel now randint req db)).
Proof.
  intros Hn Hdb. destruct req; simpl dispatch; simpl in Hn.
  - done.
  - by apply run_preserves; [apply create_person_ordered|].
  - by apply run_read_only; [apply get_person_by_id_read_only|].
  - by apply run_read_only; [apply get_all_persons_read_only|].
  - by apply run_preserves; [apply update_person_ordered|].
  - by apply run_read_only; [apply get_shifts_read_only|].
  - by apply run_preserves; [apply delete_person_ordered|].
  - by apply run_preserves; [apply create_shift_ordered, naive_instants|].
  - by apply run_read_only; [apply get_all_shifts_read_only|].
  - by apply run_read_only; [apply get_shift_by_id_read_only|].
  - by apply run_preserves; [apply update_shift_ordered, naive_instants|].
  - by apply run_preserves; [apply delete_shift_ordered|].
  - by apply run_preserves; [apply create_overtime_ordered|].
  - by apply run_read_only; [apply get_all_overtimes_read_only|].
  - by apply run_read_only; [apply get_overtime_by_shift_read_only|].
Qed.

(** A property of stores every route keeps is kept by [handle]. *)
Lemma handle_keeps (P : DB -> Prop) fuel env now randint token req db :
  (P db -> P (snd (dispatch fuel now randint req db))) ->
  P db -> P (snd (handle fuel env now randint token req db)).
Proof.
  intros Hd Hdb. unfold handle.
  destruct req; try (apply Hd; done); (case_match; [apply Hd|]; done).
Qed.

(** C1. Every store the service reaches from the empty store, through any sequence of requests with any clock, random draws and access tokens, is well formed: its person, shift and overtime keys are unique, and so are the display tags of its persons. *)
Theorem reachable_inv (fuel : nat) (env : option string) (db : DB) :
  reachable fuel env db -> wf db.
Proof.
  induction 1 as [|db now randint token req _ IH]; [apply wf_empty|].
  apply handle_keeps; [apply dispatch_wf|done].
Qed.

(** C33. Every store the service reaches from the empty store through requests whose shift bodies carry naive datetimes is well formed and has no shift that starts after it ends. *)
Theorem reachable_naive_ordered (fuel : nat) (env : option string) (db : DB) :
  reachable_naive fuel env db -> wf db /\ shifts_ordered db.
Proof.
  induction 1 as [|db now randint token req Hn _ [IHw IHo]]; [split; [apply wf_empty|constructor]|].
  split; apply handle_keeps; try done; [apply dispatch_wf|by apply dispatch_ordered].
Qed.


(** C17. A request to a router whose [access_token] header, read by [APIKeyHeader] (empty as missing), differs from the configured key answers 403 "Could not validate API KEY" and changes nothing. *)
Theorem handle_forbidden (fuel : nat) (env : option string) (now : Z) (randint : nat -> Z)
    (token : option string) (req : request) (db : DB) :
  req <> HelloWorld -> api_key_header token <> env ->
  handle fuel env now randint token req db =
  (RError 403 (HTTPException 403 "Could not validate API KEY"%string), db).
Proof.
  intros Hreq Htok. unfold handle. rewrite (get_api_key_fail _ _ Htok). by destruct req.
Qed.

(** C23. A request whose [access_token] header, read by [APIKeyHeader], equals the configured key is served by its handler; in particular, when [API_KEY] is unset ([None]) a request that sends no [access_token] header, or an empty one, is served: [None == None] passes the check. *)
Theorem handle_authorized (fuel : nat) (env : option string) (now : Z) (randint : nat -> Z)
    (token : option string) (req : request) (db : DB) :
  api_key_header token = env -> handle fuel env now randint token req db = dispatch fuel now randint req db.
Proof.
  intros Hk. unfold handle, get_api_key. rewrite bool_decide_eq_true_2 by done. by destruct req.
Qed.

(** C30. With [API_KEY] set to the empty string every request to a router answers 403, whatever [access_token] it sends: [APIKeyHeader] reads an empty header as missing, and [None] is not the empty string. *)
Theorem handle_empty_key_locked (fuel : nat) (now : Z) (randint : nat -> Z)
    (token : option string) (req : request) (db : DB) :
  req <> HelloWorld ->
  handle fuel (Some EmptyString) now randint token req db =
  (RError 403 (HTTPException 403 "Could not validate API KEY"%string), db).
Proof.
  intros Hreq. unfold handle, get_api_key.
  rewrite bool_decide_eq_false_2 by apply api_key_header_nonempty. by destruct req.
Qed.

(** The shift [create_shift] appends after [delete_shift] removed the
    shift of the largest id gets that id again. *)
Lemma insert_shift_reuses (now st et : Z) (c : option string) (pid sid : Z) (db : DB) :
  next_rowid (map Shift.id (delete_where (fun t => Shift.id t =? sid) (shifts db))) = sid ->
  In (Shift.mk sid st et c pid now now None None None None None)
    (shifts (insert_shift now st et c pid
               (set_shifts (delete_where (fun t => Shift.id t =? sid) (shifts db)) db))).
Proof. intros Hnext. simpl. rewrite Hnext. apply in_or_app. right. by left. Qed.

(** C24. Ordering of requests and SQLite's rowid reuse: after [DELETE /shift/{sid}] of the shift with the largest id, which leaves its overtime rows in place, a new valid [POST /shift] is stored under the same id, and [GET /overtime/{sid}] then answers the overtime rows of the deleted shift as the new shift's. *)
Theorem shift_rowid_reuse (fuel : nat) (env : option string) (now : Z) (randint : nat -> Z)
    (token : option string) (sid : Z) (s : Shift.t) (shift : ShiftIn) (db : DB) (st et : Z) :
  api_key_header token = env ->
  wf db -> In s (shifts db) -> Shift.id s = sid ->
  next_rowid (map Shift.id (delete_where (fun t => Shift.id t =? sid) (shifts db))) = sid ->
  shift_instants shift = Some (st, et) -> st <= et ->
  let db1 := snd (handle fuel env now randint token (DeleteShift sid) db) in
  let db2 := snd (handle fuel env now randint token (PostShift shift) db1) in
  In (Shift.mk sid (sin_start_time shift) (sin_end_time shift) (sin_comment shift)
        (sin_person_id shift) now now None None None None None) (shifts db2) /\
  exists l, fst (handle fuel env now randint token (GetOvertimes sid) db2) = ROvertimes l /\
    Permutation l (List.filter (fun o => Overtime.shift_id o =? sid) (overtimes db)).
Proof.
  intros Hk Hwf Hs Hid Hnext Hi Hle db1 db2.
  unfold db2, db1, handle. rewrite !(get_api_key_ok _ _ Hk).
  unfold dispatch, run, session, delete_shift. st_unfold. rewrite (shift_by_id_some sid db s) by done.
  unfold create_shift. rewrite (start_after_end_instants _ _ _ Hi). replace (st >? et) with false by lia.
  st_unfold. simpl snd. pose proof (insert_shift_reuses now (sin_start_time shift)
    (sin_end_time shift) (sin_comment shift) (sin_person_id shift) sid db Hnext) as Hin.
  split; [done|]. unfold get_overtime_by_shift. st_unfold.
  rewrite (shift_by_id_some sid _ _ (insert_shift_wf _ _ _ _ _ _ (wf_delete_shifts _ _ Hwf)) Hin)
    by done.
  eexists. split; [reflexivity|]. by rewrite overtime_query_all.
Qed.

Lemma serve_app fuel env now randint token (reqs1 reqs2 : list request) (db : DB) :
  serve fuel env now randint token (reqs1 ++ reqs2) db =
  serve fuel env now randint token reqs2 (serve fuel env now randint token reqs1 db).
Proof. revert db. induction reqs1 as [|r reqs1 IH]; intros db; [done|]. apply IH. Qed.

Lemma length_filter_lt {A} (p : A -> bool) (x : A) (l : list A) :
  In x l -> p x = false -> (length (List.filter p l) < length l)%nat.
Proof.
  induction l as [|y l IH]; [done|]. intros [->|Hx] Hp; simpl.
  - rewrite Hp. pose proof (filter_length_le p l) as Hle. lia.
  - destruct (p y); simpl; specialize (IH Hx Hp); lia.
Qed.

(** [DELETE /person/{id}] of a stored person, with the server's key. *)
Lemma handle_delete_person fuel env now randint token (db : DB) (p : Person.t) :
  api_key_header token = env -> wf db -> In p (persons db) ->
  snd (handle fuel env now randint token (DeletePerson (Person.id p)) db) =
  mkDB (delete_where (fun q => Person.id q =? Person.id p) (persons db))
       (delete_where (fun s => Shift.person_id s =? Person.id p) (shifts db)) (overtimes db).
Proof.
  intros Hk Hwf Hp. unfold handle. rewrite (get_api_key_ok _ _ Hk).
  simpl dispatch. rewrite run_state. unfold session, delete_person. st_unfold.
  by rewrite (person_by_id_some _ db p).
Qed.

(** [DELETE /shift/{id}] of a stored shift, with the server's key. *)
Lemma handle_delete_shift fuel env now randint token (db : DB) (s : Shift.t) :
  api_key_header token = env -> wf db -> In s (shifts db) ->
  snd (handle fuel env now randint token (DeleteShift (Shift.id s)) db) =
  mkDB (persons db) (delete_where (fun t => Shift.id t =? Shift.id s) (shifts db)) (overtimes db).
Proof.
  intros Hk Hwf Hs. unfold handle. rewrite (get_api_key_ok _ _ Hk).
  simpl dispatch. rewrite run_state. unfold session, delete_shift. st_unfold.
  by rewrite (shift_by_id_some _ db s).
Qed.

Section Clear.
Variables (fuel : nat) (env : option string) (now : Z) (randint : nat -> Z).
Variable token : option string.
Hypothesis Hk : api_key_header token = env.

Abbreviation serve' := (serve fuel env now randint token).

Lemma handle_wf req (db : DB) : wf db -> wf (snd (handle fuel env now randint token req db)).
Proof. apply handle_keeps, dispatch_wf. Qed.

(** Deleting the first person, again and again, empties [persons]. *)
Lemma serve_clears_persons (n : nat) (db : DB) :
  (length (persons db) <= n)%nat -> wf db ->
  exists reqs, persons (serve' reqs db) = [] /\ overtimes (serve' reqs db) = overtimes db /\
    wf (serve' reqs db).
Proof.
  revert db. induction n as [|n IH]; intros db Hl Hinv.
  - exists []. simpl. destruct (persons db) eqn:Ep; [auto|simpl in Hl; lia].
  - destruct (persons db) as [|p ps] eqn:Ep; [exists []; simpl; rewrite Ep; auto|].
    assert (Hp : In p (persons db)) by (rewrite Ep; left; done).
    set (db1 := snd (handle fuel env now randint token (DeletePerson (Person.id p)) db)).
    pose proof (handle_delete_person fuel env now randint token db p Hk Hinv Hp) as Hd. fold db1 in Hd.
    assert (Hlen : (length (persons db1) <= n)%nat).
    { rewrite Hd. cbn [persons]. unfold delete_where.
      pose proof (length_filter_lt (fun q => negb (Person.id q =? Person.id p)%Z) p (persons db) Hp
        ltac:(cbv beta; by rewrite Z.eqb_refl)). rewrite Ep in *. lia. }
    destruct (IH db1 Hlen (handle_wf _ _ Hinv)) as (reqs & H1 & H2 & H3).
    exists (DeletePerson (Person.id p) :: reqs).
    change (serve' (DeletePerson (Person.id p) :: reqs) db) with (serve' reqs db1).
    split_and!; [exact H1| by rewrite H2, Hd | exact H3].
Qed.

(** With no persons, deleting the first shift, again and again, empties
    [shifts]. *)
Lemma serve_clears_shifts (n : nat) (db : DB) :
  (length (shifts db) <= n)%nat -> wf db -> persons db = [] ->
  exists reqs, persons (serve' reqs db) = [] /\ shifts (serve' reqs db) = [] /\
    overtimes (serve' reqs db) = overtimes db.
Proof.
  revert db. induction n as [|n IH]; intros db Hl Hinv Hp0.
  - exists []. simpl. destruct (shifts db) eqn:Es; [auto|simpl in Hl; lia].
  - destruct (shifts db) as [|s ss] eqn:Es; [exists []; simpl; rewrite Es; auto|].
    assert (Hs : In s (shifts db)) by (rewrite Es; left; done).
    set (db1 := snd (handle fuel env now randint token (DeleteShift (Shift.id s)) db)).
    pose proof (handle_delete_shift fuel env now randint token db s Hk Hinv Hs) as Hd. fold db1 in Hd.
    assert (Hlen : (length (shifts db1) <= n)%nat).
    { rewrite Hd. cbn [shifts]. unfold delete_where.
      pose proof (length_filter_lt (fun t => negb (Shift.id t =? Shift.id s)%Z) s (shifts db) Hs
        ltac:(cbv beta; by rewrite Z.eqb_refl)). rewrite Es in *. lia. }
    assert (Hp1 : persons db1 = []) by (rewrite Hd; exact Hp0).
    destruct (IH db1 Hlen (handle_wf _ _ Hinv) Hp1) as (reqs & H1 & H2 & H3).
    exists (DeleteShift (Shift.id s) :: reqs).
    change (serve' (DeleteShift (Shift.id s) :: reqs) db) with (serve' reqs db1).
    split_and!; [exact H1| exact H2 | by rewrite H3, Hd].
Qed.

End Clear.

(** C13. Liveness of clearing through the API: from every well-formed store (every reachable store is one), some finite sequence of requests with an [access_token] that passes [get_api_key] ([DELETE /person/{id}] for each person, then [DELETE /shift/{id}] for each remaining shift) reaches a store with no persons and no shifts; the overtimes are then still all there, since no route deletes an overtime. *)
Theorem serve_clears (fuel : nat) (env : option string) (now : Z) (randint : nat -> Z)
    (token : option string) (db : DB) :
  api_key_header token = env -> wf db ->
  exists reqs, let db' := serve fuel env now randint token reqs db in
    persons db' = [] /\ shifts db' = [] /\ overtimes db' = overtimes db.
Proof.
  intros Hk Hinv.
  destruct (serve_clears_persons fuel env now randint token Hk _ db (le_n _) Hinv) as (r1 & Hp & Ho & Hi).
  destruct (serve_clears_shifts fuel env now randint token Hk _ _ (le_n _) Hi Hp) as (r2 & Hp' & Hs & Ho').
  exists (r1 ++ r2). simpl. rewrite serve_app. rewrite Ho' in *. auto.
Qed.

End Lemmas.

End App.
