(* ===== verification/Populate.v ===== *)
(** * The population script, src/populate.py

    A client of the service: it pings [GET /], then posts [size] persons
    with names drawn by [random.randint] from three lists, then the shifts
    of [add_shifts]: one shift 08:00-17:00 on 2024-01-30 for each
    [person_id] [i] in [range(size)], and for every [i] divisible by 3 three
    more, the last of which ends before it starts.  [add_overtime] is
    defined but not called by [__main__].  Each request goes to
    [App.handle] with the client's [access_token] header; the times travel
    as the text of [strftime("%Y-%m-%dT%H:%M:%S")], parsed by the request
    validation ([DateTime.parse_iso]).  The [world] is the server's store
    with the index of the next request (the server's clock and draws are
    streams indexed by it), the index of the client's next draw, and the
    status codes the client has received. *)

From S2P Require Import Prelude Models Schemas Query DateTime Auth PersonRouter ShiftRouter App.
Import Store Schemas DateTime Auth PersonRouter ShiftRouter App.

Module Populate.

Local Open Scope Z_scope.

Definition first_names : list string :=
  ["Darth"; "Obi-Wan"; "Anakin"; "Leia"; "Kylo"; "Boba"; "Han"; "Ahsoka"; "Luke"]%string.
Definition last_names : list string :=
  ["Vader"; "Kenobi"; "Skywalker"; "Organa"; "Ren"; "Fett"; "Solo"; "Tano"]%string.
Definition job_role : list string :=
  ["Bartender"; "Kock"; "Servitör"; "Chef"; "Hovmästare"; "Bagare"]%string.

(** [random.randint(a, b)] from the generator's raw draw [r]: a value of
    [[a, b]], every one of them reached by some draw. *)
Definition randint (a b r : Z) : Z := a + r mod (b - a + 1).

(** [l[i]]: negative indices count from the end; [None] is the
    [IndexError]. *)
Definition py_index {A} (l : list A) (i : Z) : option A :=
  if i <? 0 then
    (if - Z.of_nat (length l) <=? i then nth_error l (Z.to_nat (Z.of_nat (length l) + i)) else None)
  else nth_error l (Z.to_nat i).

(** [response.status_code]: 200 for every answer that is not an error. *)
Definition status_code (r : response) : Z :=
  match r with RError c _ => c | _ => 200 end.

(** [datetime.datetime(y, m, d, h, mi, s)] *)
Definition dt (y m d h mi s : Z) : datetime := mkDatetime y m d h mi s 0.

(** The shift of the JSON body [data]: the two times as [strftime] text,
    read back by the validation of [ShiftIn]; [None] is a 422 answer. *)
Definition shift_body (start_time end_time : datetime) (comment : option string) (person_id : Z)
    : option request :=
  match parse_iso (iso_format start_time), parse_iso (iso_format end_time) with
  | Some (st, tst), Some (et, tet) =>
      Some (PostShift (mkShiftInTz (to_us st) (to_us et) person_id comment tst tet))
  | _, _ => None
  end.

(** The person of the JSON body of [add_persons], its [birthday] the text
    ["2024-05-02T20:00:00.000Z"] read by the validation of [PersonIn]. *)
Definition person_body (first_name last_name role : string) : option request :=
  match parse_iso "2024-05-02T20:00:00.000Z" with
  | Some (b, _) => Some (PostPerson (mkPersonIn first_name last_name (Some role) (Some (to_us b))))
  | None => None
  end.

Record world := mkWorld {
  server : DB;
  tick : nat;
  used : nat;
  statuses : list Z
}.

(** [for i in range(n): body(i)], stopped by the first exception. *)
Definition for_range (n : nat) (body : nat -> world -> option world) (w : world) : option world :=
  fold_left (fun acc i => acc ≫= body i) (seq 0 n) (Some w).

(** The items of the [i] of [range(n)] with [i % 3 == 0]. *)
Definition thirds {A} (f : nat -> list A) (n : nat) : list A :=
  flat_map (fun j => if Z.of_nat j mod 3 =? 0 then f j else []) (seq 0 n).

Section Script.
Context `{Query.OrderEngine}.

(** The server: the fuel of the display-tag loop and its [API_KEY]; its
    clock and its draws at each request. *)
Variable fuel : nat.
Variable env_api_key : option string.
Variable now : nat -> Z.
Variable server_draws : nat -> nat -> Z.
(** The client: [header = {"access_token": os.environ.get("API_KEY")}]
    and the raw draws of its generator. *)
Variable header : option string.
Variable draw : nat -> Z.

(** [requests.post(...)] (or [get]): the answer's status code and the
    world after it. *)
Definition send (body : option request) (w : world) : Z * world :=
  let '(code, db') :=
    match body with
    | None => (422, server w)
    | Some req =>
        let '(resp, db') := handle fuel env_api_key (now (tick w)) (server_draws (tick w))
                              header req (server w) in
        (status_code resp, db')
    end in
  (code, mkWorld db' (S (tick w)) (used w) (statuses w ++ [code])).

Definition post (body : option request) (w : world) : world := snd (send body w).

(** [random.randint(a, b)] on the client. *)
Definition rand (a b : Z) (w : world) : Z * world :=
  (randint a b (draw (used w)), mkWorld (server w) (tick w) (S (used w)) (statuses w)).

Definition ping_application (w : world) : bool * world :=
  let '(code, w') := send (Some HelloWorld) w in (code =? 200, w').

(** One iteration of [add_persons]: three draws, each indexing its list. *)
Definition add_person (w : world) : option world :=
  let '(a, w) := rand 0 (Z.of_nat (length first_names) - 1) w in
  first_name ← py_index first_names a;
  let '(b, w) := rand 0 (Z.of_nat (length last_names) - 1) w in
  last_name ← py_index last_names b;
  let '(c, w) := rand 0 (Z.of_nat (length job_role) - 1) w in
  role ← py_index job_role c;
  Some (post (person_body first_name last_name role) w).

Definition add_persons (size : Z) (w : world) : option world :=
  for_range (Z.to_nat size) (fun _ => add_person) w.

Definition data (i : nat) : option request :=
  shift_body (dt 2024 1 30 8 0 0) (dt 2024 1 30 17 0 0) None (Z.of_nat i).
Definition data1 (i : nat) : option request :=
  shift_body (dt 2024 2 17 8 0 0) (dt 2024 2 17 17 0 0) (Some "Jobbade 2 timmar övertid"%string) (Z.of_nat i).
Definition data2 (i : nat) : option request :=
  shift_body (dt 2024 5 1 10 0 0) (dt 2024 5 1 19 0 0) (Some "Bytte pass med Anakin"%string) (Z.of_nat i).
Definition data3 (i : nat) : option request :=
  shift_body (dt 2024 4 5 18 0 0) (dt 2024 4 5 2 0 0) None (Z.of_nat i).

Definition add_shifts (size : Z) (w : world) : option world :=
  w ← for_range (Z.to_nat size) (fun i w => Some (post (data i) w)) w;
  for_range (Z.to_nat size)
    (fun i w => if Z.of_nat i mod 3 =? 0 then Some (post (data3 i) (post (data2 i) (post (data1 i) w)))
                else Some w) w.

Definition add_overtime (size : Z) (w : world) : option world :=
  for_range (Z.to_nat size)
    (fun i w => if Z.of_nat i mod 4 =? 0 then
                  let '(hours, w) := rand 1 4 w in
                  Some (post (Some (PostOvertime (mkOvertimeIn "Kompledigt" hours (Z.of_nat i)))) w)
                else Some w) w.

(** [__main__] with the [size] typed in. *)
Definition main (size : Z) (w : world) : option world :=
  let '(alive, w) := ping_application w in
  if alive then (w ← add_persons size w; add_shifts size w) else Some w.

End Script.

(** ** Theorems *)

Lemma for_range_S (n : nat) (body : nat -> world -> option world) (w : world) :
  for_range (S n) body w = for_range n body w ≫= body n.
Proof. unfold for_range. by rewrite seq_S, fold_left_app. Qed.

(** A loop invariant: [P i w] after [i] iterations. *)
Lemma for_range_ind (P : nat -> world -> Prop) (n : nat) (body : nat -> world -> option world)
    (w : world) :
  P 0%nat w ->
  (forall i w, (i < n)%nat -> P i w -> exists w', body i w = Some w' /\ P (S i) w') ->
  exists w', for_range n body w = Some w' /\ P n w'.
Proof.
  induction n as [|n IH]; intros H0 Hstep; [by exists w|].
  destruct IH as (w1 & E1 & HP1); [done|intros i w' Hi; apply Hstep; lia|].
  destruct (Hstep n w1) as (w2 & E2 & HP2); [lia|done|].
  exists w2. rewrite for_range_S, E1. done.
Qed.

Lemma repeat_snoc {A} (x : A) (n : nat) : repeat x (S n) = repeat x n ++ [x].
Proof. induction n as [|n IH]; [done|]. simpl in *. by rewrite <- IH. Qed.

Lemma thirds_step (n : nat) :
  ((S n + 2) / 3 = (n + 2) / 3 + if (Z.of_nat n mod 3 =? 0)%Z then 1 else 0)%nat.
Proof.
  pose proof (Nat.div_mod (n + 2) 3 ltac:(lia)). pose proof (Nat.mod_upper_bound (n + 2) 3 ltac:(lia)).
  pose proof (Nat.div_mod (S n + 2) 3 ltac:(lia)).
  pose proof (Nat.mod_upper_bound (S n + 2) 3 ltac:(lia)).
  pose proof (Z.div_mod (Z.of_nat n) 3 ltac:(lia)). pose proof (Z.mod_pos_bound (Z.of_nat n) 3 ltac:(lia)).
  destruct (Z.eqb_spec (Z.of_nat n mod 3) 0); lia.
Qed.

(** The [i] of [range(n)] with [i % 3 == 0] are [(n + 2) / 3]. *)
Lemma length_thirds {A} (f : nat -> list A) (k n : nat) :
  (forall j, length (f j) = k) -> length (thirds f n) = (k * ((n + 2) / 3))%nat.
Proof.
  intros Hk. induction n as [|n IH]; [simpl; lia|].
  unfold thirds in *. rewrite seq_S, flat_map_app, length_app, IH, thirds_step. simpl.
  rewrite app_nil_r. case_match; simpl; rewrite ?Hk; lia.
Qed.

(** An index drawn by [random.randint(0, len(l) - 1)] is in range. *)
Lemma py_index_randint {A} (l : list A) (r : Z) :
  l <> [] -> exists x, py_index l (randint 0 (Z.of_nat (length l) - 1) r) = Some x.
Proof.
  intros Hl. unfold py_index, randint.
  assert (Hlen : (0 < length l)%nat) by (destruct l; [done|simpl; lia]).
  pose proof (Z.mod_pos_bound r (Z.of_nat (length l) - 1 - 0 + 1)) as B.
  rewrite (proj2 (Z.ltb_ge _ _)) by lia.
  destruct (nth_error l _) eqn:E; [by eexists|].
  apply nth_error_None in E. lia.
Qed.

Lemma insert_shift_person_ids (now st et : Z) (c : option string) (pid : Z) (db : DB) :
  map Shift.person_id (shifts (insert_shift now st et c pid db)) =
  map Shift.person_id (shifts db) ++ [pid].
Proof. simpl. by rewrite map_app. Qed.

Lemma insert_person_shape (now : Z) fn ln tag role bday (db db' : DB) :
  insert_person now fn ln tag role bday db = Ok db' ->
  shifts db' = shifts db /\ overtimes db' = overtimes db /\
  length (persons db') = S (length (persons db)).
Proof.
  unfold insert_person. destruct tag; [case_match|]; intros [= <-]; simpl;
    rewrite length_app; simpl; split_and!; done || lia.
Qed.

(** The body [data] of a shift whose two times print and parse back as
    naive datetimes. *)
Lemma shift_body_eq (st et : datetime) (c : option string) (pid : Z) :
  parse_iso (iso_format st) = Some (st, None) -> parse_iso (iso_format et) = Some (et, None) ->
  shift_body st et c pid = Some (PostShift (mkShiftIn (to_us st) (to_us et) pid c)).
Proof. unfold shift_body. by intros -> ->. Qed.

(** The [birthday] text is 2024-05-02 20:00 UTC; the stored value is its
    clock. *)
Lemma person_body_eq (fn ln role : string) :
  person_body fn ln role =
  Some (PostPerson (mkPersonIn fn ln (Some role) (Some (to_us (dt 2024 5 2 20 0 0))))).
Proof. unfold person_body. by vm_compute (parse_iso _). Qed.

Section Runs.
Context `{Query.OrderEngine}.
Variable fuel : nat.
Variable env_api_key : option string.
Variable now : nat -> Z.
Variable server_draws : nat -> nat -> Z.
Variable draw : nat -> Z.

Abbreviation send' header := (send fuel env_api_key now server_draws header).
Abbreviation post' header := (post fuel env_api_key now server_draws header).

Section Keyed.
(** A header that passes [get_api_key]. *)
Variable key : option string.
Hypothesis Hkey : api_key_header key = env_api_key.

(** A naive shift posted with a passing key: 400 and no change when it
    starts after it ends, else 200 and the row appended. *)
Lemma post_shift (st et pid : Z) (c : option string) (w : world) :
  post' key (Some (PostShift (mkShiftIn st et pid c))) w =
  let bad := st >? et in
  mkWorld (if bad then server w else insert_shift (now (tick w)) st et c pid (server w))
          (S (tick w)) (used w) (statuses w ++ [if bad then 400 else 200]).
Proof.
  unfold post, send, handle. rewrite (get_api_key_ok _ _ Hkey).
  simpl. unfold run, session, create_shift, start_after_end, py_datetime_gt. simpl.
  by destruct (_ >? _).
Qed.

(** A person posted with any header changes neither shifts nor
    overtimes and adds at most one person. *)
Lemma post_person (header : option string) (p : PersonIn) (w : world) :
  let w' := post' header (Some (PostPerson p)) w in
  shifts (server w') = shifts (server w) /\ overtimes (server w') = overtimes (server w) /\
  (length (persons (server w')) <= S (length (persons (server w))))%nat /\
  used w' = used w /\ length (statuses w') = S (length (statuses w)).
Proof.
  unfold post, send, handle. simpl.
  destruct (Auth.get_api_key (api_key_header header) env_api_key); simpl;
    [|rewrite length_app; simpl; split_and!; done || lia].
  unfold run, session. rewrite create_person_unfold.
  destruct (insert_person _ _ _ _ _ _ _) as [db'|e] eqn:E; simpl;
    rewrite length_app; simpl; [|split_and!; done || lia].
  apply insert_person_shape in E as (-> & -> & ->). split_and!; done || lia.
Qed.

(** A shift body of two printable times, posted with the server's key. *)
Lemma post_shift_body (st et : datetime) (c : option string) (pid : Z) (w : world) :
  parse_iso (iso_format st) = Some (st, None) -> parse_iso (iso_format et) = Some (et, None) ->
  post' key (shift_body st et c pid) w =
  mkWorld (if to_us st >? to_us et then server w
           else insert_shift (now (tick w)) (to_us st) (to_us et) c pid (server w))
          (S (tick w)) (used w) (statuses w ++ [if to_us st >? to_us et then 400 else 200]).
Proof. intros Hs He. by rewrite shift_body_eq, post_shift. Qed.

Ltac post_data :=
  rewrite post_shift_body by (vm_compute; reflexivity);
  match goal with |- context [if ?b then _ else _] =>
    let v := eval vm_compute in b in change b with v
  end; cbv beta iota; cbn [server used statuses tick].

Section Loops.
Variable w : world.

(** The first loop of [add_shifts]: [size] shifts for the person ids
    [0 .. size - 1], each answered 200. *)
Lemma add_shifts_loop1 (n : nat) :
  exists w1, for_range n (fun i w => Some (post' key (data i) w)) w = Some w1 /\
    persons (server w1) = persons (server w) /\ overtimes (server w1) = overtimes (server w) /\
    map Shift.person_id (shifts (server w1)) =
      map Shift.person_id (shifts (server w)) ++ map Z.of_nat (seq 0 n) /\
    statuses w1 = statuses w ++ repeat 200 n /\ used w1 = used w.
Proof.
  apply (for_range_ind (fun i w1 =>
    persons (server w1) = persons (server w) /\ overtimes (server w1) = overtimes (server w) /\
    map Shift.person_id (shifts (server w1)) =
      map Shift.person_id (shifts (server w)) ++ map Z.of_nat (seq 0 i) /\
    statuses w1 = statuses w ++ repeat 200 i /\ used w1 = used w)).
  { simpl. by rewrite !app_nil_r. }
  intros i w' _ (Hp & Ho & Hs & Hst & Hu). eexists. split; [reflexivity|]. unfold data.
  post_data. rewrite insert_shift_person_ids, Hs, Hst, seq_S, map_app, repeat_snoc, !app_assoc.
  cbn [insert_shift set_shifts persons overtimes]. done.
Qed.

Lemma thirds_S {A} (f : nat -> list A) (n : nat) :
  thirds f (S n) = thirds f n ++ if Z.of_nat n mod 3 =? 0 then f n else [].
Proof. unfold thirds. rewrite seq_S, flat_map_app. simpl. by rewrite app_nil_r. Qed.

(** The second loop of [add_shifts]: for each [i] with [i % 3 == 0],
    [data1] and [data2] are stored for person [i] (200, 200) and [data3]
    is rejected (400). *)
Lemma add_shifts_loop2 (n : nat) :
  exists w2, for_range n (fun i w => if Z.of_nat i mod 3 =? 0 then
       Some (post' key (data3 i) (post' key (data2 i) (post' key (data1 i) w)))
     else Some w) w = Some w2 /\
    persons (server w2) = persons (server w) /\ overtimes (server w2) = overtimes (server w) /\
    map Shift.person_id (shifts (server w2)) =
      map Shift.person_id (shifts (server w)) ++ thirds (fun j => [Z.of_nat j; Z.of_nat j]) n /\
    statuses w2 = statuses w ++ thirds (fun _ => [200; 200; 400]) n /\ used w2 = used w.
Proof.
  apply (for_range_ind (fun i w2 =>
    persons (server w2) = persons (server w) /\ overtimes (server w2) = overtimes (server w) /\
    map Shift.person_id (shifts (server w2)) =
      map Shift.person_id (shifts (server w)) ++ thirds (fun j => [Z.of_nat j; Z.of_nat j]) i /\
    statuses w2 = statuses w ++ thirds (fun _ => [200; 200; 400]) i /\ used w2 = used w)).
  { simpl. by rewrite !app_nil_r. }
  intros i w' _ (Hp & Ho & Hs & Hst & Hu). rewrite !thirds_S.
  destruct (Z.of_nat i mod 3 =? 0); eexists; (split; [reflexivity|]); [|by rewrite !app_nil_r].
  unfold data1, data2, data3. do 3 post_data.
  rewrite !insert_shift_person_ids, Hs, Hst, <- !app_assoc.
  cbn [insert_shift set_shifts persons overtimes]. done.
Qed.

End Loops.

End Keyed.

(** One iteration of [add_persons] never raises: each [randint] range
    is the index range of its list. *)
Lemma add_person_step (header : option string) (w : world) :
  exists w', add_person fuel env_api_key now server_draws header draw w = Some w' /\
    shifts (server w') = shifts (server w) /\ overtimes (server w') = overtimes (server w) /\
    (length (persons (server w')) <= S (length (persons (server w))))%nat.
Proof.
  unfold add_person, rand. cbv beta iota. cbn [used].
  destruct (py_index_randint first_names (draw (used w))) as [x1 E1]; [done|]. rewrite E1.
  destruct (py_index_randint last_names (draw (S (used w)))) as [x2 E2]; [done|]. rewrite E2.
  destruct (py_index_randint job_role (draw (S (S (used w))))) as [x3 E3]; [done|]. rewrite E3.
  simpl. eexists. split; [reflexivity|].
  rewrite person_body_eq.
  match goal with |- context [post _ _ _ _ _ (Some (PostPerson ?p)) ?w'] =>
    pose proof (post_person header p w') as (Hs & Ho & Hl & _) end.
  cbn [server] in Hs, Ho, Hl. split_and!; done || lia.
Qed.

(** [add_persons] never raises, changes neither shifts nor overtimes, and
    adds at most [size] persons. *)
Lemma add_persons_run (header : option string) (size : Z) (w : world) :
  exists w', add_persons fuel env_api_key now server_draws header draw size w = Some w' /\
    shifts (server w') = shifts (server w) /\ overtimes (server w') = overtimes (server w) /\
    (length (persons (server w')) <= length (persons (server w)) + Z.to_nat size)%nat.
Proof.
  apply (for_range_ind (fun i w' =>
    shifts (server w') = shifts (server w) /\ overtimes (server w') = overtimes (server w) /\
    (length (persons (server w')) <= length (persons (server w)) + i)%nat)); [split_and!; done || lia|].
  intros i w' _ (Hs & Ho & Hl).
  destruct (add_person_step header w') as (w'' & E & Hs' & Ho' & Hl').
  exists w''. split; [done|]. rewrite Hs', Ho'. split_and!; done || lia.
Qed.

(** C38. [add_shifts(size)] run with a header that passes [get_api_key] stores, after the shifts already there, one shift for each [person_id] [0 .. size - 1] and then two more for each [i] with [i % 3 == 0]; every request is answered 200 except the third body [data3] of each such [i], which ends before it starts and is answered 400; persons and overtimes are untouched. *)
Theorem add_shifts_run (header : option string) (size : Z) (w : world) :
  api_key_header header = env_api_key ->
  exists w', add_shifts fuel env_api_key now server_draws header size w = Some w' /\
    persons (server w') = persons (server w) /\ overtimes (server w') = overtimes (server w) /\
    map Shift.person_id (shifts (server w')) =
      map Shift.person_id (shifts (server w)) ++ map Z.of_nat (seq 0 (Z.to_nat size)) ++
      thirds (fun j => [Z.of_nat j; Z.of_nat j]) (Z.to_nat size) /\
    statuses w' = statuses w ++ repeat 200 (Z.to_nat size) ++
                  thirds (fun _ => [200; 200; 400]) (Z.to_nat size).
Proof.
  intros Hk. destruct (add_shifts_loop1 header Hk w (Z.to_nat size)) as (w1 & E1 & Hp1 & Ho1 & Hs1 & Hst1 & _).
  destruct (add_shifts_loop2 header Hk w1 (Z.to_nat size)) as (w2 & E2 & Hp2 & Ho2 & Hs2 & Hst2 & _).
  exists w2. unfold add_shifts. rewrite E1. simpl. rewrite E2.
  rewrite Hp2, Ho2, Hs2, Hst2, Hs1, Hst1, <- !app_assoc. done.
Qed.

(** C39. [__main__] with a header that passes [get_api_key], for every [size] typed in and all client draws, runs to its end without an exception (every [randint] index is in range), leaves the overtimes as they were, adds at most [size] persons, and adds exactly [size + 2 * ((size + 2) // 3)] shifts (for a negative [size], none). *)
Theorem main_run (header : option string) (size : Z) (w : world) :
  api_key_header header = env_api_key ->
  exists w', main fuel env_api_key now server_draws header draw size w = Some w' /\
    overtimes (server w') = overtimes (server w) /\
    (length (persons (server w')) <= length (persons (server w)) + Z.to_nat size)%nat /\
    length (shifts (server w')) =
      (length (shifts (server w)) + Z.to_nat size + 2 * ((Z.to_nat size + 2) / 3))%nat.
Proof.
  intros Hh. unfold main, ping_application, send, handle. simpl.
  set (w0 := mkWorld (server w) (S (tick w)) (used w) (statuses w ++ [200])).
  destruct (add_persons_run header size w0) as (w1 & E1 & Hs1 & Ho1 & Hl1).
  destruct (add_shifts_loop1 header Hh w1 (Z.to_nat size)) as (w2 & E2 & Hp2 & Ho2 & Hs2 & _).
  destruct (add_shifts_loop2 header Hh w2 (Z.to_nat size)) as (w3 & E3 & Hp3 & Ho3 & Hs3 & _).
  exists w3. rewrite E1. simpl. unfold add_shifts. rewrite E2. simpl. rewrite E3.
  split; [done|]. rewrite Ho3, Ho2, Ho1, Hp3, Hp2. split_and!; [done|done|].
  apply (f_equal length) in Hs3, Hs2. rewrite !length_app, !length_map in Hs3, Hs2.
  rewrite length_map, length_seq in Hs2.
  rewrite Hs3, Hs2, Hs1, (length_thirds _ 2) by done.
  change (Nat.divmod (Z.to_nat size + 2) 2 0 2).1 with ((Z.to_nat size + 2) / 3)%nat.
  subst w0. cbn [server]. lia.
Qed.

End Runs.

End Populate.
