(* ===== verification/Tests.v ===== *)
(** * The test suite, src/tests/test_main.py

    The tests run in the order of the file against one in-memory SQLite
    store (a [StaticPool] engine shared by every test), through the
    application with [get_db] overridden; each test is a list of steps:
    the request it sends, with or without the [access_token] header, and
    the assertions on the answer.  A JSON body the validation rejects is
    [None] (422).  The environment of the tests has an [API_KEY]: the
    tests expect 403 for a request without the header.  [suite_passes]
    runs the whole suite on the model with the stable sort as the order
    engine, for every fuel, clock and stream of draws. *)

From S2P Require Import Prelude Models Schemas Query DateTime Pagination App Populate.
Import Store Schemas DateTime Pagination App.

Module Tests.

Local Open Scope string_scope.
Local Open Scope Z_scope.

(** [os.environ.get("API_KEY")] in the test environment, and [header]. *)
Definition api_key : option string := Some "test-key".
Definition header : option string := api_key.

(** What the client receives: a 422 of the validation, or the answer of
    the application. *)
Inductive outcome :=
| Rejected422
| Answer (r : response).

Definition status (o : outcome) : Z :=
  match o with Rejected422 => 422 | Answer r => Populate.status_code r end.

(** [response.json() == {"detail": d}] *)
Definition detail (o : outcome) : option string :=
  match o with Answer (RError _ (HTTPException _ d)) => Some d | _ => None end.

Record step := mkStep {
  token : option string;
  body : option request;
  check : outcome -> bool
}.

(** [assert response.status_code == c] *)
Definition expect (c : Z) : outcome -> bool := fun o => status o =? c.

(** [assert response.status_code == c] and [response.json() == {"detail": d}] *)
Definition expect_detail (c : Z) (d : string) : outcome -> bool :=
  fun o => (status o =? c) && bool_decide (detail o = Some d).

(** The JSON body of a person, and [response.json() == data]. *)
Definition person (first_name last_name : string) : PersonIn :=
  mkPersonIn first_name last_name None None.
Definition expect_person (p : PersonIn) : outcome -> bool :=
  fun o => match o with Answer (RPersonIn q) => bool_decide (q = p) | _ => false end.

(** The JSON body of a shift: the times as text, read by the validation. *)
Definition shift_in (start_time end_time : string) (comment : string) (person_id : Z)
    : option ShiftIn :=
  match parse_iso start_time, parse_iso end_time with
  | Some (st, tst), Some (et, tet) =>
      Some (mkShiftInTz (to_us st) (to_us et) person_id (Some comment) tst tet)
  | _, _ => None
  end.
Definition post_shift (st et c : string) (pid : Z) : option request :=
  option_map PostShift (shift_in st et c pid).
Definition put_shift (sid : Z) (st et c : string) (pid : Z) : option request :=
  option_map (PutShift sid) (shift_in st et c pid).
Definition expect_shift (s : option ShiftIn) : outcome -> bool :=
  fun o => match o, s with Answer (RShiftIn t), Some u => bool_decide (t = u) | _, _ => false end.

Definition expect_overtime (ov : OvertimeIn) : outcome -> bool :=
  fun o => match o with Answer (ROvertimeIn t) => bool_decide (t = ov) | _ => false end.

(** The items of a page of persons or shifts. *)
Definition person_items (o : outcome) : list PersonOut :=
  match o with Answer (RPersonPage pg) => items pg | _ => [] end.
Definition shift_items (o : outcome) : list ShiftOut :=
  match o with Answer (RShiftPage pg) => items pg | _ => [] end.

Definition ok (c : Z) (o : outcome) (b : bool) : bool := (status o =? c) && b.

Definition st (tok : option string) (r : option request) (c : outcome -> bool) : step :=
  mkStep tok r c.
Definition get (r : request) (c : outcome -> bool) : step := st header (Some r) c.
Definition noauth (r : request) : step := st None (Some r) (expect 403).
Definition any : outcome -> bool := fun _ => true.

Definition d := default_params.

(** ** The tests, in the order of the file *)

Definition test_hello_world : list step :=
  [st None (Some HelloWorld)
     (fun o => ok 200 o match o with Answer (RText t) => String.eqb t "Hello World!" | _ => false end)].

Definition test_valid_post_person : list step :=
  [get (PostPerson (person "Anders" "Postman"))
     (fun o => ok 200 o (expect_person (person "Anders" "Postman") o))].

Definition test_invalid_post_person : list step := [st header None (expect 422)].

Definition test_valid_post_shift : list step :=
  [st header (post_shift "2024-02-17T18:39:00" "2024-02-17T20:39:00" "work" 1)
     (fun o => ok 200 o (expect_shift (shift_in "2024-02-17T18:39:00" "2024-02-17T20:39:00" "work" 1) o))].

Definition test_post_shift_end_time_before_start_time : list step :=
  [st header (post_shift "2024-02-17T18:39:00" "2024-01-17T20:39:00" "work" 1)
     (expect_detail 400 "End time cannot be before start time")].

Definition test_valid_post_overtime : list step :=
  [get (PostOvertime (mkOvertimeIn "Fix issues" 1 1))
     (fun o => ok 200 o (expect_overtime (mkOvertimeIn "Fix issues" 1 1) o))].

Definition test_invalid_post_overtime : list step :=
  [get (PostOvertime (mkOvertimeIn "Fix issues" 1 123456))
     (fun o => ok 200 o (expect_overtime (mkOvertimeIn "Fix issues" 1 123456) o))].

Definition test_valid_put_person : list step :=
  [get (PutPerson 1 (person "Peter" "Postman"))
     (fun o => ok 200 o (expect_person (person "Peter" "Postman") o))].

Definition test_invalid_put_person : list step :=
  [get (PutPerson 123456 (person "Lars" "Olof")) (expect_detail 404 "Person not found")].

Definition test_valid_put_shift : list step :=
  [st header (put_shift 1 "2024-02-17T20:39:00" "2024-02-17T22:39:00" "code" 1)
     (fun o => ok 200 o (expect_shift (shift_in "2024-02-17T20:39:00" "2024-02-17T22:39:00" "code" 1) o))].

Definition test_put_sift_end_before_start : list step :=
  [st header (put_shift 1 "2024-02-17T20:39:00" "2024-01-17T22:39:00" "code" 1)
     (expect_detail 400 "End time cannot be before start time")].

Definition test_invalid_put_shift : list step :=
  [st header (put_shift 123456 "2024-02-17T20:39:00" "2024-02-17T22:39:00" "code" 1)
     (expect_detail 404 "Shift not found")].

Definition test_valid_get_person : list step := [get (GetPerson 1) (expect 200)].
Definition test_valid_get_shift : list step := [get (GetShift 1) (expect 200)].
Definition test_invalid_get_shift : list step := [get (GetShift 99) (expect 404)].

Definition test_valid_get_persons : list step :=
  [noauth (ListPersons None None None d); get (ListPersons None None None d) (expect 200)].

Definition test_valid_get_shift_from_person : list step :=
  [get (GetPersonShifts 1 None None None None d)
     (fun o => ok 200 o match shift_items o with
                        | s :: _ => String.eqb (so_first_name s) "Peter" &&
                                    String.eqb (so_last_name s) "Postman"
                        | [] => false
                        end)].

Definition test_valid_get_shifts : list step :=
  [get (ListShifts None None None None None d) (expect 200)].

Definition test_valid_get_shift_by_name : list step :=
  [noauth (ListShifts None None (Some "Boba") None None d);
   get (PostPerson (person "Bob" "Postman"))
     (fun o => ok 200 o (expect_person (person "Bob" "Postman") o));
   get (PostPerson (person "Alice" "Test"))
     (fun o => ok 200 o (expect_person (person "Alice" "Test") o));
   st header (post_shift "2024-02-17T18:39:00" "2024-02-17T20:39:00" "work" 1)
     (fun o => ok 200 o (expect_shift (shift_in "2024-02-17T18:39:00" "2024-02-17T20:39:00" "work" 1) o));
   st header (post_shift "2024-02-17T18:39:00" "2024-02-17T20:39:00" "work" 1)
     (fun o => ok 200 o (expect_shift (shift_in "2024-02-17T18:39:00" "2024-02-17T20:39:00" "work" 1) o));
   get (ListShifts None None (Some "Postman") None None d)
     (fun o => ok 200 o (forallb (fun s => String.eqb (so_last_name s) "Postman") (shift_items o)))].

Definition test_invalid_get_person_by_id : list step :=
  [get (GetPerson 123456) (expect_detail 404 "Person not found")].

Definition test_invalid_get_shift_by_person_id : list step :=
  [get (GetPersonShifts 123456 None None None None d) (expect_detail 404 "Person not found")].

Definition test_valid_get_person_by_name : list step :=
  [noauth (ListPersons (Some "Anders Postman") None None d);
   get (ListPersons (Some "Peter Postman") None None d)
     (fun o => ok 200 o (1 <=? Z.of_nat (length (person_items o))))].

Definition test_invalid_get_person_by_name : list step :=
  [noauth (ListPersons (Some "NotExisting") None None d);
   get (ListPersons (Some "Notmatchinganything") None None d)
     (fun o => ok 200 o (Nat.eqb (length (person_items o)) 0))].

Definition test_valid_get_person_order : list step :=
  [get (ListPersons None None (Some "asc") d) (expect 200);
   get (ListPersons None None (Some "desc") d) (expect 200)].

Definition test_valid_get_all_overtimes : list step :=
  [noauth (ListOvertimes d); get (ListOvertimes d) (expect 200)].

Definition test_valid_get_overtime_by_shift_id : list step :=
  [noauth (GetOvertimes 1); get (GetOvertimes 1) (expect 200)].

Definition test_invalid_get_overtime_by_shift_id : list step :=
  [noauth (GetOvertimes 123456); get (GetOvertimes 123456) (expect_detail 404 "Shift not found")].

Definition test_valid_delete_person : list step :=
  [st header (post_shift "2024-02-17T18:39:00" "2024-02-17T20:39:00" "test1" 1) any;
   st header (post_shift "2024-02-17T18:39:00" "2024-02-17T20:39:00" "test2" 1) any;
   get (GetPersonShifts 1 None None None None d)
     (fun o => ok 200 o (2 <=? Z.of_nat (length (shift_items o))));
   get (DeletePerson 1) (expect 200);
   get (GetPersonShifts 1 None None None None d) (expect_detail 404 "Person not found")].

Definition test_invalid_delete_person : list step :=
  [get (DeletePerson 123456) (expect_detail 404 "Person not found")].

Definition test_valid_delete_shift : list step :=
  [get (PostPerson (person "Hannes" "Lundberg")) any;
   st header (post_shift "2024-02-17T18:39:00" "2024-02-17T20:39:00" "work" 1) any;
   get (DeleteShift 1) (expect 200)].

Definition test_invalid_delete_shift : list step :=
  [get (DeleteShift 123456) (expect_detail 404 "Shift not found")].

Definition suite : list step :=
  test_hello_world ++ test_valid_post_person ++ test_invalid_post_person ++
  test_valid_post_shift ++ test_post_shift_end_time_before_start_time ++
  test_valid_post_overtime ++ test_invalid_post_overtime ++
  test_valid_put_person ++ test_invalid_put_person ++ test_valid_put_shift ++
  test_put_sift_end_before_start ++ test_invalid_put_shift ++
  test_valid_get_person ++ test_valid_get_shift ++ test_invalid_get_shift ++
  test_valid_get_persons ++ test_valid_get_shift_from_person ++ test_valid_get_shifts ++
  test_valid_get_shift_by_name ++ test_invalid_get_person_by_id ++
  test_invalid_get_shift_by_person_id ++ test_valid_get_person_by_name ++
  test_invalid_get_person_by_name ++ test_valid_get_person_order ++
  test_valid_get_all_overtimes ++ test_valid_get_overtime_by_shift_id ++
  test_invalid_get_overtime_by_shift_id ++ test_valid_delete_person ++
  test_invalid_delete_person ++ test_valid_delete_shift ++ test_invalid_delete_shift.

(** ** Running the suite *)

Section Run.
Context `{Query.OrderEngine}.
Variable fuel : nat.
Variable now : nat -> Z.
Variable draws : nat -> nat -> Z.

(** The [n]-th request of the suite against the store. *)
Definition exec (n : nat) (s : step) (db : DB) : outcome * DB :=
  match body s with
  | None => (Rejected422, db)
  | Some req =>
      let '(r, db') := handle fuel api_key (now n) (draws n) (token s) req db in (Answer r, db')
  end.

(** Every assertion of the steps, in order, with the store threaded. *)
Fixpoint run_steps (n : nat) (steps : list step) (db : DB) : bool :=
  match steps with
  | [] => true
  | s :: rest => let '(o, db') := exec n s db in check s o && run_steps (S n) rest db'
  end.

End Run.

(** ** The suite on the model *)

(** The model passes the repository's test suite: run in the order of src/tests/test_main.py on one store from the empty one, every assertion of every test holds (status codes, the JSON bodies echoed back, the error details, the names and counts of listed items), for every fuel of the display-tag loop, every clock and every stream of draws. *)
Theorem suite_passes (fuel : nat) (now : nat -> Z) (draws : nat -> nat -> Z) :
  @run_steps Query.isort_engine fuel now draws 0 suite empty = true.
Proof. destruct fuel; vm_compute; reflexivity. Qed.

End Tests.
