(* ===== verification/Scenarios.v ===== *)
(** * Concrete runs

    Sample stores and requests, the scenarios of src/tests/test_main.py,
    and the witnesses of the theorems' hypotheses: each witness applies a
    theorem at a concrete input and discharges its hypotheses by
    evaluation, with the stable insertion sort as the order engine. *)

From S2P Require Import Prelude PyStr Database SqlLike Models Schemas Query DateTime Search DisplayTag Joins Pagination Auth PersonRouter ShiftRouter OvertimeRouter App Populate.
Import PyStr SqlLike Store Schemas Query Search DisplayTag Joins Pagination PersonRouter ShiftRouter OvertimeRouter App.

Local Open Scope Z_scope.

Module Scenarios.

Local Open Scope string_scope.

Definition anders_in : PersonIn := mkPersonIn "Anders" "Postman" None None.

Definition anders : Person.t :=
  Person.mk 1 "Anders" "Postman" None None 0 0 (Some "andpo123") None None None None None.
Definition peter : Person.t :=
  Person.mk 2 "Peter" "Pan" None None 0 0 (Some "petpa456") None None None None None.

Definition shift1 : Shift.t := Shift.mk 1 100 200 None 1 0 0 None None None None None.
Definition shift2 : Shift.t := Shift.mk 2 300 400 (Some "work") 1 0 0 None None None None None.
(** A shift whose person (id 9) does not exist. *)
Definition orphan : Shift.t := Shift.mk 3 500 600 None 9 0 0 None None None None None.

Definition ot2 : Overtime.t := Overtime.mk 2 (Some "Fix issues") (Some 1) 0 0 None None None None None.

Definition db1 : DB := mkDB [anders; peter] [shift1; shift2; orphan] [ot2].

Lemma db1_wf : wf db1.
Proof. split; apply (bool_decide_unpack _); vm_compute; exact I. Qed.

(** Shift 2, the largest id, carries the overtime [ot2]. *)
Definition db_reuse : DB := mkDB [anders] [shift1; shift2] [ot2].

Lemma db_reuse_wf : wf db_reuse.
Proof. split; apply (bool_decide_unpack _); vm_compute; exact I. Qed.

Definition draws123 : nat -> Z := fun _ => 123.

Definition bad_shift : ShiftIn := mkShiftIn 200 100 1 (Some "work").
Definition zero_shift : ShiftIn := mkShiftIn 100 100 1 None.
Definition overtime_missing_shift : OvertimeIn := mkOvertimeIn "Fix issues" 1 123456.
Definition overtime_shift2 : OvertimeIn := mkOvertimeIn "Fix issues" 1 2.

(** ** Witnesses *)

Lemma reachable_inv_witness :
  wf (snd (handle 1 None 0 draws123 None (PostPerson anders_in) empty)).
Proof. apply (reachable_inv 1 None). apply reachable_step, reachable_empty. Defined.

Lemma person_search_one_word_witness :
  exists q, person_search "ander" db1 = Ok q /\ selected q = [anders].
Proof.
  destruct (person_search_one_word "ander" db1 eq_refl eq_refl) as (q & Hq & Hs).
  exists q. split; [exact Hq|]. rewrite Hs. vm_compute. reflexivity.
Defined.

Lemma person_search_two_words_witness :
  exists q, person_search "Anders Postman" db1 = Ok q /\ selected q = [anders].
Proof.
  destruct (person_search_two_words "Anders Postman" "Anders" "Postman" [] db1 eq_refl eq_refl)
    as (q & Hq & Hs).
  exists q. split; [exact Hq|]. rewrite Hs. vm_compute. reflexivity.
Defined.

Lemma create_person_collision_witness :
  session (create_person draws123 1 0 0 anders_in) db1 =
  (Err (IntegrityError "UNIQUE constraint failed: persons.display_tag"), db1).
Proof.
  apply create_person_collision. apply list_elem_of_In. vm_compute. left. reflexivity.
Defined.

Lemma delete_person_cascade_witness :
  session (delete_person 1) db1 =
  (Ok "Person deleted successfully", mkDB [peter] [orphan] [ot2]).
Proof.
  rewrite (delete_person_cascade 1 db1 anders db1_wf); [reflexivity|by left|reflexivity].
Defined.

Lemma create_shift_rejects_witness :
  session (create_shift 0 bad_shift) db1 =
  (Err (HTTPException 400 "End time cannot be before start time"), db1).
Proof. apply (create_shift_rejects 0 bad_shift db1 200 100); [reflexivity|lia]. Defined.

Lemma create_shift_accepts_witness :
  session (create_shift 7 zero_shift) db1 =
  (Ok zero_shift, mkDB [anders; peter]
     [shift1; shift2; orphan; Shift.mk 4 100 100 None 1 7 7 None None None None None] [ot2]).
Proof. rewrite (create_shift_accepts 7 zero_shift db1 100 100); [reflexivity|reflexivity|lia]. Defined.

Lemma shift_join_with_person_id_desc_witness :
  exists rows, shift_join_with_person_id 1 db1 None None (Some "start_time") (Some "desc") = Ok rows /\
    Sorted (fun a b => so_start_time b <= so_start_time a) rows.
Proof.
  eexists. split; [reflexivity|].
  apply (shift_join_with_person_id_desc 1 db1 None None). reflexivity.
Defined.

Lemma shift_join_with_person_id_rows_witness :
  exists rows, shift_join_with_person_id 1 db1 (Some 150) None None None = Ok rows /\
    Permutation rows (map (fun r => to_shift_out (fst r) (snd r))
      (List.filter (person_shift_filter 1 (Some 150) None) (shift_person_rows db1))).
Proof.
  eexists. split; [reflexivity|].
  apply (shift_join_with_person_id_rows 1 db1 (Some 150) None None None). reflexivity.
Defined.

Lemma get_shift_by_id_dangling_witness :
  shift_by_id 3 db1 = Some orphan /\
  session (get_shift_by_id 3) db1 = (Err (HTTPException 404 "Shift not found"), db1).
Proof.
  apply (get_shift_by_id_dangling 3 db1 orphan db1_wf); [by right; right; left|reflexivity|].
  intros p [<-|[<-|[]]]; discriminate.
Defined.

Lemma delete_shift_keeps_overtimes_witness :
  session (delete_shift 2) db1 =
  (Ok "Shift deleted successfully", mkDB [anders; peter] [shift1; orphan] [ot2]).
Proof.
  rewrite (delete_shift_keeps_overtimes 2 db1 shift2 db1_wf); [reflexivity|by right; left|reflexivity].
Defined.

Lemma get_overtime_by_shift_missing_witness :
  session (get_overtime_by_shift 123456) db1 = (Err (HTTPException 404 "Shift not found"), db1).
Proof. apply get_overtime_by_shift_missing. intros s [<-|[<-|[<-|[]]]]; discriminate. Defined.

Lemma create_overtime_no_shift_check_witness :
  session (create_overtime 5 overtime_missing_shift) db1 =
  (Ok overtime_missing_shift, mkDB [anders; peter] [shift1; shift2; orphan]
     [ot2; Overtime.mk 123456 (Some "Fix issues") (Some 1) 5 5 None None None None None]).
Proof. rewrite create_overtime_no_shift_check; [reflexivity|]. intros t [<-|[]]; discriminate. Defined.

Lemma create_overtime_duplicate_witness :
  session (create_overtime 5 overtime_shift2) db1 =
  (Err (IntegrityError "UNIQUE constraint failed: overtimes.shift_id"), db1).
Proof. apply (create_overtime_duplicate 5 overtime_shift2 db1 ot2); [by left|reflexivity]. Defined.

Lemma update_shift_checks_times_first_witness :
  session (update_shift 0 bad_shift 99) db1 =
  (Err (HTTPException 400 "End time cannot be before start time"), db1).
Proof. apply (update_shift_checks_times_first 0 bad_shift 99 db1 200 100); [reflexivity|lia]. Defined.

Lemma handle_forbidden_witness :
  handle 1 (Some "secret") 0 draws123 (Some "guess") (GetPerson 1) db1 =
  (RError 403 (HTTPException 403 "Could not validate API KEY"), db1).
Proof. apply handle_forbidden; [discriminate|cbv; congruence]. Defined.

Lemma generate_display_tag_length_witness :
  exists tag k', generate_display_tag draws123 1 anders_in db1 0 = Some (tag, k') /\
    (String.length tag <= 8)%nat.
Proof.
  do 2 eexists. split; [reflexivity|].
  eapply (generate_display_tag_length draws123 1 anders_in db1 0); [unfold draws123; lia|reflexivity].
Defined.

Lemma create_person_fresh_witness :
  exists db', session (create_person draws123 1 0 0 anders_in) (mkDB [peter] [] []) =
    (Ok (anders_in, 1%nat), db').
Proof.
  eexists. rewrite create_person_fresh; [reflexivity|].
  apply (bool_decide_unpack _). vm_compute. exact I.
Defined.

Lemma delete_person_missing_witness :
  session (delete_person 99) db1 = (Err (HTTPException 404 "Person not found"), db1).
Proof. apply delete_person_missing. intros p [<-|[<-|[]]]; discriminate. Defined.

Lemma get_overtime_by_shift_found_witness :
  exists l, session (get_overtime_by_shift 2) db1 = (Ok l, db1) /\
    Permutation l (List.filter (fun t => (Overtime.shift_id t =? 2)%Z) (overtimes db1)).
Proof. apply (get_overtime_by_shift_found 2 db1 shift2 db1_wf); [by right; left|reflexivity]. Defined.

Lemma get_all_shifts_start_time_asc_witness :
  exists L,
    session (get_all_shifts (Some "asc") (Some "start_time") None None None default_params) db1
      = (Ok (paginate default_params L), db1) /\
    Sorted (fun a b => so_start_time a <= so_start_time b) L /\
    Permutation L (map (fun r => to_shift_out (fst r) (snd r))
      (List.filter (fun r => where_ok [] (snd r) && in_day_range None None (joined_start_time r))
         (shift_person_rows db1))).
Proof.
  exact (get_all_shifts_start_time_asc None None None default_params db1 (select (persons db1))
           db1_wf eq_refl).
Defined.

(** With no [API_KEY], an empty [access_token] header is served. *)
Lemma handle_authorized_witness :
  handle 1 None 0 draws123 (Some "") (DeletePerson 1) db1 = dispatch 1 0 draws123 (DeletePerson 1) db1.
Proof. exact (handle_authorized 1 None 0 draws123 (Some "") (DeletePerson 1) db1 eq_refl). Defined.

Lemma shift_rowid_reuse_witness :
  let db1 := snd (handle 1 None 0 draws123 None (DeleteShift 2) db_reuse) in
  let db2 := snd (handle 1 None 0 draws123 None (PostShift zero_shift) db1) in
  In (Shift.mk 2 100 100 None 1 0 0 None None None None None) (shifts db2) /\
  exists l, fst (handle 1 None 0 draws123 None (GetOvertimes 2) db2) = ROvertimes l /\
    Permutation l (List.filter (fun o => (Overtime.shift_id o =? 2)%Z) (overtimes db_reuse)).
Proof.
  apply (shift_rowid_reuse 1 None 0 draws123 None 2 shift2 zero_shift db_reuse 100 100 eq_refl db_reuse_wf);
    [by right; left|reflexivity|vm_compute; reflexivity|reflexivity|lia].
Defined.

Lemma update_shift_keeps_person_witness :
  exists db' t, session (update_shift 9 (mkShiftIn 150 250 2 (Some "late")) 1) db1 = (Ok (mkShiftIn 150 250 2 (Some "late")), db') /\
    shift_by_id 1 db' = Some t /\
    Shift.start_time t = 150 /\ Shift.end_time t = 250 /\
    Shift.comment t = Some "late" /\ Shift.person_id t = 1 /\
    (forall u, In u (shifts db1) -> Shift.id u <> 1 -> In u (shifts db')).
Proof.
  apply (update_shift_keeps_person 9 (mkShiftIn 150 250 2 (Some "late")) 1 db1 shift1 db1_wf
           ltac:(by left) eq_refl 150 250); [reflexivity|lia].
Defined.

Lemma update_person_fields_witness :
  exists db' q, session (update_person 5 anders_in 2) db1 = (Ok anders_in, db') /\
    person_by_id 2 db' = Some q /\
    Person.first_name q = "Anders" /\ Person.last_name q = "Postman" /\
    Person.job_role q = None /\ Person.birthday q = None /\
    Person.display_tag q = Some "petpa456" /\ Person.created_at q = 0 /\
    Person.updated_at q = 5 /\
    (forall u, In u (persons db1) -> Person.id u <> 2 -> In u (persons db')).
Proof. apply (update_person_fields 5 anders_in 2 db1 peter db1_wf); [by right; left|reflexivity]. Defined.

Lemma get_all_shifts_first_name_desc_witness :
  exists L,
    session (get_all_shifts (Some "desc") (Some "first_name") (Some "an") None None default_params) db1
      = (Ok (paginate default_params L), db1) /\
    Sorted (fun a b => String.compare (so_first_name b) (so_first_name a) <> Gt) L /\
    Permutation L (map (fun r => to_shift_out (fst r) (snd r))
      (List.filter (fun r => where_ok (q_where (Query.filter (select (persons db1)) (fun p =>
            like (lower "%an%") (lower (Person.first_name p)) ||
            like (lower "%an%") (lower (Person.last_name p))))) (snd r) &&
          in_day_range None None (joined_start_time r))
         (shift_person_rows db1))).
Proof.
  exact (get_all_shifts_first_name_desc (Some "an") None None default_params db1 _ db1_wf eq_refl).
Defined.

Lemma get_all_persons_sorted_witness :
  exists L, session (get_all_persons None (Some "asc") (Some "last_name") default_params) db1 =
              (Ok (paginate default_params L), db1) /\
    Sorted (fun a b => String.compare (Person.last_name a) (Person.last_name b) <> Gt) L /\
    Permutation L (List.filter (where_ok []) (persons db1)).
Proof.
  exact (get_all_persons_sorted None (Some "last_name") Person.last_name default_params db1
           (select (persons db1)) eq_refl eq_refl).
Defined.

Lemma get_all_persons_bad_order_witness :
  session (get_all_persons None None (Some "first_name") default_params) db1 =
  (Err (HTTPException 400 "Order type is either asc or desc, you entered None"), db1).
Proof.
  exact (get_all_persons_bad_order None (Some "first_name") None
           (fun p => CText (Person.first_name p)) default_params db1 (select (persons db1))
           eq_refl eq_refl ltac:(discriminate) ltac:(discriminate)).
Defined.

Lemma get_all_overtimes_pages_witness :
  let L := all (select (overtimes db1)) in
  (forall i, session (get_all_overtimes (mkParams (S i) 1)) db1 =
             (Ok (paginate (mkParams (S i) 1) L), db1)) /\
  Permutation (concat (map (fun i => items (paginate (mkParams (S i) 1) L))
                        (seq 0 (pages (paginate (mkParams 1 1) L)))))
              (overtimes db1).
Proof. apply (get_all_overtimes_pages 1 db1). lia. Defined.

(** A Heroku deployment whose [DATABASE_URL] has the [postgres://] scheme. *)
Definition heroku_env : Database.environ := fun k =>
  if String.eqb k "NAMESPACE" then Some "heroku"
  else if String.eqb k "DATABASE_URL" then Some "postgres://u:p@host:5432/db" else None.

Lemma database_engine_heroku_witness :
  Database.startup heroku_env = Ok (Database.PostgresEngine "postgresql://u:p@host:5432/db") /\
  (Database.startswith "postgres://" "postgres://u:p@host:5432/db" = false ->
   Database.startup heroku_env = Err NoEngine).
Proof.
  destruct (Database.database_engine_heroku heroku_env "postgres://u:p@host:5432/db"
              eq_refl eq_refl) as [H1 H2].
  split; [apply (H1 "u:p@host:5432/db"); reflexivity | exact H2].
Defined.

(** The script against an empty store, with no [API_KEY] on either side. *)
Definition w_start : Populate.world := Populate.mkWorld empty 0 0 [].

Lemma add_shifts_run_witness :
  exists w', Populate.add_shifts 1 None (fun _ => 0) (fun _ => draws123) None 4 w_start = Some w' /\
    persons (Populate.server w') = [] /\ overtimes (Populate.server w') = [] /\
    map Shift.person_id (shifts (Populate.server w')) = [0; 1; 2; 3; 0; 0; 3; 3] /\
    Populate.statuses w' = [200; 200; 200; 200; 200; 200; 400; 200; 200; 400].
Proof. exact (Populate.add_shifts_run 1 None (fun _ => 0) (fun _ => draws123) None 4 w_start eq_refl). Defined.

Lemma main_run_witness :
  exists w', Populate.main 1 None (fun _ => 0) (fun _ => draws123) None (fun k => Z.of_nat k) 4 w_start
               = Some w' /\
    overtimes (Populate.server w') = [] /\
    (length (persons (Populate.server w')) <= 4)%nat /\
    length (shifts (Populate.server w')) = 8%nat.
Proof.
  exact (Populate.main_run 1 None (fun _ => 0) (fun _ => draws123) (fun k => Z.of_nat k) None 4 w_start
           eq_refl).
Defined.

Lemma serve_clears_witness :
  wf db1 /\
  exists reqs, let db' := serve 1 None 0 draws123 None reqs db1 in
    persons db' = [] /\ shifts db' = [] /\ overtimes db' = [ot2].
Proof. split; [apply db1_wf|]. exact (serve_clears 1 None 0 draws123 None db1 eq_refl db1_wf). Defined.

(** The body of a shift from 10:00+05:00 to 08:00+00:00 on 2024-01-30,
    read by the validation of [ShiftIn]. *)
Definition aware_shift : ShiftIn :=
  match DateTime.parse_iso "2024-01-30T10:00:00+05:00", DateTime.parse_iso "2024-01-30T08:00:00Z" with
  | Some (st, tst), Some (et, tet) => mkShiftInTz (DateTime.to_us st) (DateTime.to_us et) 1 None tst tet
  | _, _ => mkShiftIn 0 0 0 None
  end.

(** The body of a shift from a naive 08:00 to 17:00+00:00. *)
Definition mixed_shift : ShiftIn :=
  match DateTime.parse_iso "2024-01-30T08:00:00", DateTime.parse_iso "2024-01-30T17:00:00+00:00" with
  | Some (st, tst), Some (et, tet) => mkShiftInTz (DateTime.to_us st) (DateTime.to_us et) 1 None tst tet
  | _, _ => mkShiftIn 0 0 0 None
  end.

Lemma create_shift_aware_reversed_witness :
  exists db', session (create_shift 0 aware_shift) empty = (Ok aware_shift, db') /\ ~ shifts_ordered db'.
Proof.
  apply (create_shift_aware_reversed 0 aware_shift empty 18000000000 0);
    [reflexivity|reflexivity|vm_compute; discriminate|vm_compute; reflexivity].
Defined.

Lemma shift_mixed_tz_error_witness :
  let e := TypeError "can't compare offset-naive and offset-aware datetimes" in
  session (create_shift 0 mixed_shift) db1 = (Err e, db1) /\
  session (update_shift 0 mixed_shift 1) db1 = (Err e, db1) /\ status_of_exc e = 500.
Proof. apply (shift_mixed_tz_error 0 mixed_shift 1 db1). reflexivity. Defined.

Lemma handle_empty_key_locked_witness :
  handle 1 (Some "") 0 draws123 (Some "") (GetPerson 1) db1 =
  (RError 403 (HTTPException 403 "Could not validate API KEY"), db1).
Proof. apply handle_empty_key_locked. discriminate. Defined.

Lemma reachable_naive_ordered_witness :
  let db := snd (handle 1 None 0 draws123 None (PostShift zero_shift) empty) in
  wf db /\ shifts_ordered db.
Proof.
  apply (reachable_naive_ordered 1 None). apply reachable_naive_step; [reflexivity|].
  apply reachable_naive_empty.
Defined.


End Scenarios.
